(** * Weather MCP server and client: a shallow embedding

    The development follows the programs of the repository:

    - [weather/weather.py], the server: [WeatherService] (geocoding and
      forecast lookups against the upstream HTTP API), [handle_list_tools]
      and [handle_call_tool];
    - [mcp-client/client.py], the client: [MCPClient] (request ids, the
      newline-delimited JSON exchange over the child's pipes, [list_tools],
      [call_tool]), the [WeatherClient] built on it, the test run
      [test_client] and the reading of the days in [interactive_demo];
    - [setup.py], the set-up script: [install_requirements], [test_server]
      and [main].

    Python values are embedded as an inductive type, exceptions as a sum,
    and the effects (upstream calls, the pipes, the logger, the fields of a
    client instance) by explicit state passing in small monads. *)

From Stdlib Require Import ZArith NArith List String Ascii Bool Lia.
From Stdlib.Strings Require Import Byte.
From Stdlib Require Import PrimFloat DecimalN DecimalPos DecimalFacts.
From stdpp Require Import base option list gmap.
Import ListNotations.

Local Set Warnings "-register-all,-inexact-float".
Local Open Scope N_scope.
Local Open Scope list_scope.

(** ** Text

    A Python [str] is a sequence of Unicode code points, [bytes] a sequence
    of bytes. *)

Definition pystr := list N.
Definition bytes := list byte.

Definition is_cont (b : N) : bool := (128 <=? b) && (b <=? 191).

(** [bytes.decode()] with the default codec (UTF-8, strict): [None] stands
    for [UnicodeDecodeError]. *)
Fixpoint utf8_decode (bs : list N) : option pystr :=
  match bs with
  | [] => Some []
  | b0 :: r0 =>
    if b0 <? 128 then cons b0 <$> utf8_decode r0
    else if (194 <=? b0) && (b0 <=? 223) then
      match r0 with
      | b1 :: r1 =>
        if is_cont b1
        then cons ((b0 - 192) * 64 + (b1 - 128)) <$> utf8_decode r1
        else None
      | _ => None
      end
    else if (224 <=? b0) && (b0 <=? 239) then
      match r0 with
      | b1 :: b2 :: r2 =>
        let cp := (b0 - 224) * 4096 + (b1 - 128) * 64 + (b2 - 128) in
        if is_cont b1 && is_cont b2 && (2048 <=? cp)
           && negb ((55296 <=? cp) && (cp <=? 57343))
        then cons cp <$> utf8_decode r2
        else None
      | _ => None
      end
    else if (240 <=? b0) && (b0 <=? 244) then
      match r0 with
      | b1 :: b2 :: b3 :: r3 =>
        let cp := (b0 - 240) * 262144 + (b1 - 128) * 4096
                  + (b2 - 128) * 64 + (b3 - 128) in
        if is_cont b1 && is_cont b2 && is_cont b3
           && (65536 <=? cp) && (cp <=? 1114111)
        then cons cp <$> utf8_decode r3
        else None
      | _ => None
      end
    else None
  end.

Definition bytes_decode (bs : bytes) : option pystr :=
  utf8_decode (map Byte.to_N bs).

Definition byte_of_N (n : N) : byte :=
  match Byte.of_N n with Some b => b | None => x00 end.

(** [str.encode()] with the default codec (UTF-8).  Surrogate code points
    cannot be encoded: [None] stands for [UnicodeEncodeError]. *)
Definition utf8_encode_cp (cp : N) : option (list N) :=
  if cp <? 128 then Some [cp]
  else if cp <? 2048 then Some [192 + cp / 64; 128 + cp mod 64]
  else if (55296 <=? cp) && (cp <=? 57343) then None
  else if cp <? 65536 then
    Some [224 + cp / 4096; 128 + (cp / 64) mod 64; 128 + cp mod 64]
  else if cp <=? 1114111 then
    Some [240 + cp / 262144; 128 + (cp / 4096) mod 64;
          128 + (cp / 64) mod 64; 128 + cp mod 64]
  else None.

Fixpoint str_encode (s : pystr) : option bytes :=
  match s with
  | [] => Some []
  | cp :: r =>
    match utf8_encode_cp cp, str_encode r with
    | Some bs, Some rest => Some (map byte_of_N bs ++ rest)
    | _, _ => None
    end
  end.

(** A literal of the source, written as a Rocq string (its UTF-8 bytes). *)
Definition lit (s : string) : pystr :=
  default [] (bytes_decode (list_byte_of_string s)).
Arguments lit : simpl never.

(** Decimal digits, most significant first. *)
Fixpoint uint_chars (d : Decimal.uint) : pystr :=
  match d with
  | Decimal.Nil => []
  | Decimal.D0 d => 48 :: uint_chars d
  | Decimal.D1 d => 49 :: uint_chars d
  | Decimal.D2 d => 50 :: uint_chars d
  | Decimal.D3 d => 51 :: uint_chars d
  | Decimal.D4 d => 52 :: uint_chars d
  | Decimal.D5 d => 53 :: uint_chars d
  | Decimal.D6 d => 54 :: uint_chars d
  | Decimal.D7 d => 55 :: uint_chars d
  | Decimal.D8 d => 56 :: uint_chars d
  | Decimal.D9 d => 57 :: uint_chars d
  end.

Definition str_of_N (n : N) : pystr := uint_chars (N.to_uint n).

(** [str(z)] for an [int]. *)
Definition str_of_int (z : Z) : pystr :=
  match z with
  | Z0 => [48]
  | Zpos p => str_of_N (Npos p)
  | Zneg p => 45 :: str_of_N (Npos p)
  end.

Fixpoint join (sep : pystr) (parts : list pystr) : pystr :=
  match parts with
  | [] => []
  | [p] => p
  | p :: ps => p ++ sep ++ join sep ps
  end.

Fixpoint is_prefix (p s : pystr) : bool :=
  match p, s with
  | [], _ => true
  | _ :: _, [] => false
  | a :: p', b :: s' => (a =? b) && is_prefix p' s'
  end.

(** [sub in s] for two strings. *)
Fixpoint str_contains (s sub : pystr) : bool :=
  is_prefix sub s ||
  match s with
  | [] => false
  | _ :: s' => str_contains s' sub
  end.

Definition str_eqb (a b : pystr) : bool := bool_decide (a = b).

(** ** Values

    The objects the two programs handle are JSON data: what [json.loads]
    and [response.json()] build and what [json.dumps] accepts.  A [dict]
    keeps its items in insertion order, with string keys. *)

Inductive value : Type :=
| VNone
| VBool (b : bool)
| VInt (z : Z)
| VFloat (f : float)
| VStr (s : pystr)
| VList (l : list value)
| VDict (d : list (pystr * value)).

Definition dict := list (pystr * value).

(** [d.get(k)], as an option. *)
Fixpoint dict_lookup (d : dict) (k : pystr) : option value :=
  match d with
  | [] => None
  | (k', v) :: d' => if str_eqb k' k then Some v else dict_lookup d' k
  end.

(** [d[k] = v]: an existing key keeps its place, a new key goes last. *)
Fixpoint dict_set (d : dict) (k : pystr) (v : value) : dict :=
  match d with
  | [] => [(k, v)]
  | (k', v') :: d' =>
    if str_eqb k' k then (k', v) :: d' else (k', v') :: dict_set d' k v
  end.

(** Truth value of an object, as [if x] and [not x] test it. *)
Definition truthy (v : value) : bool :=
  match v with
  | VNone => false
  | VBool b => b
  | VInt z => negb (z =? 0)%Z
  | VFloat f => negb (PrimFloat.eqb f 0%float)
  | VStr s => negb (bool_decide (s = []))
  | VList l => negb (bool_decide (l = []))
  | VDict d => negb (bool_decide (d = []))
  end.

Definition type_name (v : value) : pystr :=
  match v with
  | VNone => lit "NoneType"
  | VBool _ => lit "bool"
  | VInt _ => lit "int"
  | VFloat _ => lit "float"
  | VStr _ => lit "str"
  | VList _ => lit "list"
  | VDict _ => lit "dict"
  end.

Definition is_ascii (s : pystr) : bool := forallb (fun c => c <? 128) s.

(** What the embedding leaves to the interpreter: the [repr] of a float
    (shortest round-trip digits, ASCII text) and [float(literal)], the
    [repr] of a [str] (quoting depends on the Unicode tables) and of a
    [bytes] object, and the texts of the codec errors. *)
Class Formatting := {
  float_repr : float -> pystr;
  float_of_literal : pystr -> float;
  str_repr : pystr -> pystr;
  bytes_repr : bytes -> pystr;
  decode_error_str : bytes -> pystr;
  encode_error_str : pystr -> pystr;
  float_repr_ascii : forall f, is_ascii (float_repr f) = true
}.

Section Formatting.
Context `{Formatting}.

(** [repr(v)]. *)
Fixpoint py_repr (v : value) : pystr :=
  match v with
  | VNone => lit "None"
  | VBool true => lit "True"
  | VBool false => lit "False"
  | VInt z => str_of_int z
  | VFloat f => float_repr f
  | VStr s => str_repr s
  | VList l => lit "[" ++ join (lit ", ") (map py_repr l) ++ lit "]"
  | VDict d =>
    lit "{" ++
    join (lit ", ")
      (map (fun kv => str_repr (fst kv) ++ lit ": " ++ py_repr (snd kv)) d)
    ++ lit "}"
  end.

(** [str(v)], which is what an f-string field [{v}] inserts. *)
Definition py_str (v : value) : pystr :=
  match v with
  | VStr s => s
  | _ => py_repr v
  end.
End Formatting.

(** ** Exceptions and effects

    The exceptions the two programs meet, all of them subclasses of
    [Exception] (cancellation and interrupts are not part of the model).
    The messages of the interpreter's own errors are those of CPython
    3.11. *)

Inductive exc : Type :=
| ValueError (msg : pystr)
| RuntimeError (msg : pystr)
| KeyError (key : value)
| TypeError (msg : pystr)
| AttributeError (msg : pystr)
| IndexError (msg : pystr)
| UnicodeDecodeError (object : bytes)
| UnicodeEncodeError (object : pystr)
| JSONDecodeError (msg : pystr) (lineno colno pos : nat)
| LibraryError (descr : pystr).
  (* raised inside aiohttp or the asyncio streams: connection failures,
     a body that is not JSON, an overlong line *)

Inductive result (A : Type) : Type :=
| Ok (a : A)
| Raise (e : exc).
Arguments Ok {A} a.
Arguments Raise {A} e.

Section Exceptions.
Context `{Formatting}.

(** [str(e)] *)
Definition exc_str (e : exc) : pystr :=
  match e with
  | ValueError msg | RuntimeError msg | TypeError msg
  | AttributeError msg | IndexError msg | LibraryError msg => msg
  | KeyError key => py_repr key
  | UnicodeDecodeError object => decode_error_str object
  | UnicodeEncodeError object => encode_error_str object
  | JSONDecodeError msg lineno colno pos =>
    msg ++ lit ": line " ++ str_of_N (N.of_nat lineno)
        ++ lit " column " ++ str_of_N (N.of_nat colno)
        ++ lit " (char " ++ str_of_N (N.of_nat pos) ++ lit ")"
  end.
End Exceptions.

(** Computations that read and change a state of type [S] and may raise. *)
Definition M (S A : Type) : Type := S -> result A * S.

Definition ret {S A} (a : A) : M S A := fun s => (Ok a, s).

Definition raise {S A} (e : exc) : M S A := fun s => (Raise e, s).

Definition bind {S A B} (m : M S A) (k : A -> M S B) : M S B :=
  fun s =>
    match m s with
    | (Ok a, s') => k a s'
    | (Raise e, s') => (Raise e, s')
    end.

(** [try: body  except Exception as e: handler e]. *)
Definition try_except {S A} (body : M S A) (handler : exc -> M S A) : M S A :=
  fun s =>
    match body s with
    | (Ok a, s') => (Ok a, s')
    | (Raise e, s') => handler e s'
    end.

(** A computation without effects that may raise. *)
Definition lift {S A} (r : result A) : M S A := fun s => (r, s).

Notation "x <- m ;; k" := (bind m (fun x => k))
  (at level 100, m at next level, right associativity).

(** ** Operations of the interpreter on values *)

Inductive key : Type :=
| KStr (s : pystr)
| KInt (i : Z).

Definition not_subscriptable (v : value) : exc :=
  TypeError (lit "'" ++ type_name v ++ lit "' object is not subscriptable").

(** [seq[i]] for an index that may be negative. *)
Definition index_of (len : nat) (i : Z) : option nat :=
  let n := Z.of_nat len in
  if (0 <=? i)%Z && (i <? n)%Z then Some (Z.to_nat i)
  else if (i <? 0)%Z && (- n <=? i)%Z then Some (Z.to_nat (n + i))
  else None.

(** [v[k]]. *)
Definition getitem (v : value) (k : key) : result value :=
  match v, k with
  | VDict d, KStr s =>
    match dict_lookup d s with
    | Some x => Ok x
    | None => Raise (KeyError (VStr s))
    end
  | VDict d, KInt i => Raise (KeyError (VInt i))
  | VList l, KInt i =>
    match index_of (length l) i ≫= (l !!.) with
    | Some x => Ok x
    | None => Raise (IndexError (lit "list index out of range"))
    end
  | VList l, KStr _ =>
    Raise (TypeError (lit "list indices must be integers or slices, not str"))
  | VStr s, KInt i =>
    match index_of (length s) i ≫= (s !!.) with
    | Some c => Ok (VStr [c])
    | None => Raise (IndexError (lit "string index out of range"))
    end
  | VStr s, KStr _ =>
    Raise (TypeError (lit "string indices must be integers, not 'str'"))
  | _, _ => Raise (not_subscriptable v)
  end.

(** [v.get(k, fallback)]: only a [dict] has the method. *)
Definition get_method (v : value) (k : pystr) (fallback : value) : result value :=
  match v with
  | VDict d => Ok (default fallback (dict_lookup d k))
  | _ =>
    Raise (AttributeError
             (lit "'" ++ type_name v ++ lit "' object has no attribute 'get'"))
  end.

(** [len(v)]. *)
Definition py_len (v : value) : result nat :=
  match v with
  | VStr s => Ok (length s)
  | VList l => Ok (length l)
  | VDict d => Ok (length d)
  | _ =>
    Raise (TypeError
             (lit "object of type '" ++ type_name v ++ lit "' has no len()"))
  end.

(** [min(v, 16)]: the builtin keeps its first argument unless [16 < v]. *)
Definition py_min_16 (v : value) : result value :=
  match v with
  | VInt z => Ok (if (16 <? z)%Z then VInt 16 else VInt z)
  | VBool b => Ok (VBool b)
  | VFloat f => Ok (if PrimFloat.ltb 16%float f then VInt 16 else VFloat f)
  | _ =>
    Raise (TypeError
             (lit "'<' not supported between instances of 'int' and '"
                  ++ type_name v ++ lit "'"))
  end.

(** * The server: [weather/weather.py] *)

Module Weather.

(** ** The upstream HTTP API

    A [session.get(url, params=...)] is one call; the API answers with a
    status and a body ([await response.json()], which raises when the
    body is not JSON), or the call itself raises.  The answer may depend
    on the calls made before. *)

Record http_call := { url : pystr; params : dict }.

Inductive upstream_reply :=
| Reply (status : Z) (json : result value)
| Failed (e : exc).

(** The state of the server is the sequence of upstream calls made so
    far, oldest first. *)
Definition trace := list http_call.

Record coords := {
  latitude : value;
  longitude : value;
  name : value;
  country : value
}.

Record Tool := {
  tool_name : pystr;
  description : pystr;
  inputSchema : value
}.

Record TextContent := { type : pystr; text : pystr }.

Definition nl : pystr := [10].

Definition BASE_URL : pystr := lit "https://api.open-meteo.com/v1/forecast".
Definition GEOCODING_URL : pystr :=
  lit "https://geocoding-api.open-meteo.com/v1/search".

Section Service.
Context `{Formatting}.
Variable upstream : trace -> http_call -> upstream_reply.

Definition session_get (u : pystr) (ps : dict) : M trace (Z * result value) :=
  fun t =>
    let c := {| url := u; params := ps |} in
    match upstream t c with
    | Reply status json => (Ok (status, json), t ++ [c])
    | Failed e => (Raise e, t ++ [c])
    end.

(** [WeatherService.get_coordinates] *)
Definition get_coordinates (location : value) : M trace coords :=
  let params :=
    [ (lit "name", location);
      (lit "count", VInt 1);
      (lit "language", VStr (lit "en"));
      (lit "format", VStr (lit "json")) ] in
  response <- session_get GEOCODING_URL params ;;
  let not_found :=
    raise (ValueError (lit "Location '" ++ py_str location ++ lit "' not found")) in
  if (fst response =? 200)%Z then
    data <- lift (snd response) ;;
    results <- lift (get_method data (lit "results") VNone) ;;
    if truthy results then
      results <- lift (getitem data (KStr (lit "results"))) ;;
      result <- lift (getitem results (KInt 0)) ;;
      lat <- lift (getitem result (KStr (lit "latitude"))) ;;
      lon <- lift (getitem result (KStr (lit "longitude"))) ;;
      nm <- lift (get_method result (lit "name") location) ;;
      ctry <- lift (get_method result (lit "country") (VStr [])) ;;
      ret {| latitude := lat; longitude := lon; name := nm; country := ctry |}
    else not_found
  else not_found.

(** [WeatherService.get_current_weather] *)
Definition get_current_weather (lat lon : value) : M trace value :=
  let params :=
    [ (lit "latitude", lat);
      (lit "longitude", lon);
      (lit "current",
       VStr (lit "temperature_2m,relative_humidity_2m,apparent_temperature,is_day,precipitation,rain,showers,snowfall,weather_code,cloud_cover,pressure_msl,surface_pressure,wind_speed_10m,wind_direction_10m,wind_gusts_10m"));
      (lit "timezone", VStr (lit "auto")) ] in
  response <- session_get BASE_URL params ;;
  if (fst response =? 200)%Z then lift (snd response)
  else raise (ValueError (lit "Failed to fetch weather data: "
                              ++ str_of_int (fst response))).

(** [WeatherService.get_forecast] *)
Definition get_forecast (lat lon days : value) : M trace value :=
  forecast_days <- lift (py_min_16 days) ;;
  let params :=
    [ (lit "latitude", lat);
      (lit "longitude", lon);
      (lit "daily",
       VStr (lit "weather_code,temperature_2m_max,temperature_2m_min,apparent_temperature_max,apparent_temperature_min,sunrise,sunset,precipitation_sum,rain_sum,showers_sum,snowfall_sum,precipitation_hours,wind_speed_10m_max,wind_gusts_10m_max,wind_direction_10m_dominant"));
      (lit "timezone", VStr (lit "auto"));
      (lit "forecast_days", forecast_days) ] in
  response <- session_get BASE_URL params ;;
  if (fst response =? 200)%Z then lift (snd response)
  else raise (ValueError (lit "Failed to fetch forecast data: "
                              ++ str_of_int (fst response))).
End Service.

(** ** The tools *)

Definition location_schema (descr : string) : pystr * value :=
  (lit "location",
   VDict [ (lit "type", VStr (lit "string"));
           (lit "description", VStr (lit descr)) ]).

Definition object_schema (properties : dict) : value :=
  VDict [ (lit "type", VStr (lit "object"));
          (lit "properties", VDict properties);
          (lit "required", VList [VStr (lit "location")]) ].

(** [handle_list_tools] *)
Definition handle_list_tools {S} : M S (list Tool) :=
  ret
    [ {| tool_name := lit "get_current_weather";
         description := lit "Get current weather conditions for a location";
         inputSchema :=
           object_schema
             [ location_schema "City name, e.g., 'Bangkok, Thailand' or 'New York'" ] |};
      {| tool_name := lit "get_weather_forecast";
         description := lit "Get weather forecast for a location";
         inputSchema :=
           object_schema
             [ location_schema "City name, e.g., 'Bangkok, Thailand' or 'New York'";
               (lit "days",
                VDict [ (lit "type", VStr (lit "integer"));
                        (lit "description", VStr (lit "Number of forecast days (1-16)"));
                        (lit "default", VInt 7);
                        (lit "minimum", VInt 1);
                        (lit "maximum", VInt 16) ]) ] |};
      {| tool_name := lit "search_location";
         description := lit "Search for location coordinates";
         inputSchema :=
           object_schema [ location_schema "Location name to search for" ] |} ].

Definition text_content (t : pystr) : TextContent :=
  {| type := lit "text"; text := t |}.

Section Dispatcher.
Context `{Formatting}.
Variable upstream : trace -> http_call -> upstream_reply.

(** The field [{d[k]}{units[k]}] of the formatted texts. *)
Definition with_unit {S} (d units : value) (k : string) : M S pystr :=
  v <- lift (getitem d (KStr (lit k))) ;;
  u <- lift (getitem units (KStr (lit k))) ;;
  ret (py_str v ++ py_str u).

(** The body of the [try] of the [get_current_weather] branch. *)
Definition current_weather_text (location : value) : M trace (list TextContent) :=
  coords <- get_coordinates upstream location ;;
  weather_data <- get_current_weather upstream (latitude coords) (longitude coords) ;;
  current <- lift (getitem weather_data (KStr (lit "current"))) ;;
  current_units <- lift (getitem weather_data (KStr (lit "current_units"))) ;;
  let result_location := py_str (name coords) ++ lit ", " ++ py_str (country coords) in
  time <- lift (getitem current (KStr (lit "time"))) ;;
  temperature <- with_unit current current_units "temperature_2m" ;;
  feels_like <- with_unit current current_units "apparent_temperature" ;;
  humidity <- with_unit current current_units "relative_humidity_2m" ;;
  precipitation <- with_unit current current_units "precipitation" ;;
  wind_speed <- with_unit current current_units "wind_speed_10m" ;;
  wind_direction <- with_unit current current_units "wind_direction_10m" ;;
  pressure <- with_unit current current_units "pressure_msl" ;;
  cloud_cover <- with_unit current current_units "cloud_cover" ;;
  is_day <- lift (getitem current (KStr (lit "is_day"))) ;;
  let is_day := if truthy is_day then lit "Day" else lit "Night" in
  ret [ text_content
          (lit "Current weather for " ++ result_location ++ lit ":" ++ nl ++
           lit "Temperature: " ++ temperature ++ lit " (feels like " ++ feels_like ++ lit ")" ++ nl ++
           lit "Humidity: " ++ humidity ++ nl ++
           lit "Wind: " ++ wind_speed ++ lit " at " ++ wind_direction ++ lit "¬∞" ++ nl ++
           lit "Pressure: " ++ pressure ++ nl ++
           lit "Cloud Cover: " ++ cloud_cover ++ nl ++
           lit "Precipitation: " ++ precipitation ++ nl ++
           lit "Time of Day: " ++ is_day ++ nl ++ nl ++
           lit "Data from Open-Meteo API") ].

(** [daily[k][i]] *)
Definition daily_at {S} (daily : value) (k : string) (i : nat) : M S value :=
  column <- lift (getitem daily (KStr (lit k))) ;;
  lift (getitem column (KInt (Z.of_nat i))).

(** The [for i in range(...)] loop of the forecast branch, over the
    indices still to visit. *)
Fixpoint forecast_loop {S} (daily daily_units : value) (indices : list nat)
    (forecast_text : pystr) : M S pystr :=
  match indices with
  | [] => ret forecast_text
  | i :: rest =>
    date <- daily_at daily "time" i ;;
    max_temp <- daily_at daily "temperature_2m_max" i ;;
    min_temp <- daily_at daily "temperature_2m_min" i ;;
    precipitation <- daily_at daily "precipitation_sum" i ;;
    wind_speed <- daily_at daily "wind_speed_10m_max" i ;;
    let forecast_text :=
      forecast_text ++ lit "üìÖ " ++ py_str date ++ lit ":" ++ nl in
    u_max <- lift (getitem daily_units (KStr (lit "temperature_2m_max"))) ;;
    u_min <- lift (getitem daily_units (KStr (lit "temperature_2m_min"))) ;;
    let forecast_text :=
      forecast_text ++ lit "  üå°Ô∏è  High: " ++ py_str max_temp ++ py_str u_max
        ++ lit ", Low: " ++ py_str min_temp ++ py_str u_min ++ nl in
    u_precipitation <- lift (getitem daily_units (KStr (lit "precipitation_sum"))) ;;
    let forecast_text :=
      forecast_text ++ lit "  üåßÔ∏è  Precipitation: " ++ py_str precipitation
        ++ py_str u_precipitation ++ nl in
    u_wind <- lift (getitem daily_units (KStr (lit "wind_speed_10m_max"))) ;;
    let forecast_text :=
      forecast_text ++ lit "  üí® Max Wind: " ++ py_str wind_speed
        ++ py_str u_wind ++ nl ++ nl in
    forecast_loop daily daily_units rest forecast_text
  end.

(** The body of the [try] of the [get_weather_forecast] branch. *)
Definition forecast_text (location days : value) : M trace (list TextContent) :=
  coords <- get_coordinates upstream location ;;
  forecast_data <- get_forecast upstream (latitude coords) (longitude coords) days ;;
  daily <- lift (getitem forecast_data (KStr (lit "daily"))) ;;
  daily_units <- lift (getitem forecast_data (KStr (lit "daily_units"))) ;;
  let forecast_text :=
    lit "Weather forecast for " ++ py_str (name coords) ++ lit ", "
      ++ py_str (country coords) ++ lit " (" ++ py_str days ++ lit " days):"
      ++ nl ++ nl in
  times <- lift (getitem daily (KStr (lit "time"))) ;;
  n <- lift (py_len times) ;;
  forecast_text <- forecast_loop daily daily_units (seq 0 n) forecast_text ;;
  ret [ text_content (forecast_text ++ lit "Data from Open-Meteo API") ].

(** The body of the [try] of the [search_location] branch. *)
Definition search_text (location : value) : M trace (list TextContent) :=
  coords <- get_coordinates upstream location ;;
  let result_text :=
    lit "Location: " ++ py_str (name coords) ++ lit ", "
      ++ py_str (country coords) ++ nl in
  let result_text :=
    result_text ++ lit "Coordinates: " ++ py_str (latitude coords)
      ++ lit ", " ++ py_str (longitude coords) in
  ret [ text_content result_text ].

Definition location_required {S} : M S (list TextContent) :=
  ret [ text_content (lit "Error: Location is required") ].

Definition error_text {S} (prefix : string) (e : exc) : M S (list TextContent) :=
  ret [ text_content (lit prefix ++ exc_str e) ].

(** [handle_call_tool] *)
Definition handle_call_tool (name : pystr) (arguments : dict)
    : M trace (list TextContent) :=
  if str_eqb name (lit "get_current_weather") then
    let location := default VNone (dict_lookup arguments (lit "location")) in
    if negb (truthy location) then location_required
    else try_except (current_weather_text location)
                    (error_text "Error getting weather: ")
  else if str_eqb name (lit "get_weather_forecast") then
    let location := default VNone (dict_lookup arguments (lit "location")) in
    let days := default (VInt 7) (dict_lookup arguments (lit "days")) in
    if negb (truthy location) then location_required
    else try_except (forecast_text location days)
                    (error_text "Error getting forecast: ")
  else if str_eqb name (lit "search_location") then
    let location := default VNone (dict_lookup arguments (lit "location")) in
    if negb (truthy location) then location_required
    else try_except (search_text location)
                    (error_text "Error searching location: ")
  else ret [ text_content (lit "Unknown tool: " ++ name) ].
End Dispatcher.

End Weather.

(** * JSON text: [json.dumps] and [json.loads]

    The encoder and the decoder of the interpreter's [json] module with the
    defaults the client uses: ASCII-only output, [", "] and [": "] as
    separators, strict strings.  The interpreter's limits (recursion depth,
    digits of an integer) are not part of the model. *)

Module Json.

(** *** Encoding *)

Definition hex_digit (d : N) : N := if d <? 10 then 48 + d else 87 + d.

(** The four digits of [format(n, "04x")], for [n < 65536]. *)
Definition hex4 (n : N) : pystr :=
  [ hex_digit (n / 16 / 16 / 16); hex_digit ((n / 16 / 16) mod 16);
    hex_digit ((n / 16) mod 16); hex_digit (n mod 16) ].

Definition u_escape (n : N) : pystr := 92 :: 117 :: hex4 n.

(** One character of a string, as [py_encode_basestring_ascii] writes it. *)
Definition escape_char (c : N) : pystr :=
  if c =? 34 then [92; 34]
  else if c =? 92 then [92; 92]
  else if c =? 10 then [92; 110]
  else if c =? 13 then [92; 114]
  else if c =? 9 then [92; 116]
  else if c =? 8 then [92; 98]
  else if c =? 12 then [92; 102]
  else if (32 <=? c) && (c <=? 126) then [c]
  else if c <? 65536 then u_escape c
  else
    let n := c - 65536 in
    u_escape (55296 + n / 1024) ++ u_escape (56320 + n mod 1024).

Definition encode_string (s : pystr) : pystr :=
  34 :: flat_map escape_char s ++ [34].

Section Encoder.
Context `{Formatting}.

(** [float.__repr__], except for the three values JSON has no digits for. *)
Definition encode_float (f : float) : pystr :=
  if PrimFloat.is_nan f then lit "NaN"
  else if PrimFloat.eqb f PrimFloat.infinity then lit "Infinity"
  else if PrimFloat.eqb f PrimFloat.neg_infinity then lit "-Infinity"
  else float_repr f.

(** [json.dumps(v)] *)
Fixpoint dumps (v : value) : pystr :=
  match v with
  | VNone => lit "null"
  | VBool true => lit "true"
  | VBool false => lit "false"
  | VInt z => str_of_int z
  | VFloat f => encode_float f
  | VStr s => encode_string s
  | VList l => [91] ++ join (lit ", ") (map dumps l) ++ [93]
  | VDict d =>
    [123] ++
    join (lit ", ")
      (map (fun kv => encode_string (fst kv) ++ lit ": " ++ dumps (snd kv)) d)
    ++ [125]
  end.
End Encoder.

(** *** Decoding *)

(** The outcome of scanning a prefix of the text: the object read and the
    text left, or an error message with the text left at the position the
    error is reported at, or not enough fuel. *)
Inductive scan (A : Type) : Type :=
| Scanned (a : A) (rest : pystr)
| Malformed (msg : pystr) (at_ : pystr)
| OutOfFuel.
Arguments Scanned {A} a rest.
Arguments Malformed {A} msg at_.
Arguments OutOfFuel {A}.

Definition is_ws (c : N) : bool :=
  (c =? 32) || (c =? 9) || (c =? 10) || (c =? 13).

Fixpoint skip_ws (s : pystr) : pystr :=
  match s with
  | c :: r => if is_ws c then skip_ws r else s
  | [] => []
  end.

Definition is_digit (c : N) : bool := (48 <=? c) && (c <=? 57).

Definition hex_value (c : N) : option N :=
  if (48 <=? c) && (c <=? 57) then Some (c - 48)
  else if (97 <=? c) && (c <=? 102) then Some (c - 87)
  else if (65 <=? c) && (c <=? 70) then Some (c - 55)
  else None.

Definition decode_hex4 (h1 h2 h3 h4 : N) : option N :=
  a ← hex_value h1; b ← hex_value h2; c ← hex_value h3; d ← hex_value h4;
  Some (((a * 16 + b) * 16 + c) * 16 + d).

Definition unescape (c : N) : option N :=
  if (c =? 34) || (c =? 92) || (c =? 47) then Some c
  else if c =? 98 then Some 8
  else if c =? 102 then Some 12
  else if c =? 110 then Some 10
  else if c =? 114 then Some 13
  else if c =? 116 then Some 9
  else None.

Definition is_high_surrogate (c : N) : bool := (55296 <=? c) && (c <=? 56319).
Definition is_low_surrogate (c : N) : bool := (56320 <=? c) && (c <=? 57343).

(** The characters of a string up to its closing quote; [start] is the text
    from the opening quote on, [u] the text from the current backslash on. *)
Fixpoint scanstring (start : pystr) (s : pystr) (chunks : pystr) : scan pystr :=
  let unterminated := Malformed (lit "Unterminated string starting at") start in
  match s with
  | [] => unterminated
  | c :: r =>
    if c =? 34 then Scanned chunks r
    else if c =? 92 then
      match r with
      | [] => unterminated
      | e :: r1 =>
        if e =? 117 then
          let bad := Malformed (lit "Invalid \uXXXX escape") r in
          match r1 with
          | h1 :: h2 :: h3 :: h4 :: ((x :: _) as r2) =>
            match decode_hex4 h1 h2 h3 h4 with
            | None => bad
            | Some c1 =>
              let alone := scanstring start r2 (chunks ++ [c1]) in
              if is_high_surrogate c1 then
                match r2 with
                | b :: u :: g1 :: g2 :: g3 :: g4 :: ((y :: _) as r3) =>
                  if (b =? 92) && (u =? 117) then
                    match decode_hex4 g1 g2 g3 g4 with
                    | None =>
                      Malformed (lit "Invalid \uXXXX escape")
                                (u :: g1 :: g2 :: g3 :: g4 :: r3)
                    | Some c2 =>
                      if is_low_surrogate c2
                      then scanstring start r3
                             (chunks ++ [65536 + (c1 - 55296) * 1024 + (c2 - 56320)])
                      else alone
                    end
                  else alone
                | _ => alone
                end
              else alone
            end
          | _ => bad
          end
        else
          match unescape e with
          | Some c' => scanstring start r1 (chunks ++ [c'])
          | None => Malformed (lit "Invalid \escape") s
          end
      end
    else if c <? 32 then Malformed (lit "Invalid control character at") s
    else scanstring start r (chunks ++ [c])
  end.

(** The longest prefix of digits. *)
Fixpoint span_digits (s : pystr) : pystr * pystr :=
  match s with
  | c :: r =>
    if is_digit c then let (ds, rest) := span_digits r in (c :: ds, rest)
    else ([], s)
  | [] => ([], [])
  end.

Fixpoint uint_of_chars (ds : pystr) : Decimal.uint :=
  match ds with
  | [] => Decimal.Nil
  | c :: r =>
    let d := uint_of_chars r in
    if c =? 48 then Decimal.D0 d
    else if c =? 49 then Decimal.D1 d
    else if c =? 50 then Decimal.D2 d
    else if c =? 51 then Decimal.D3 d
    else if c =? 52 then Decimal.D4 d
    else if c =? 53 then Decimal.D5 d
    else if c =? 54 then Decimal.D6 d
    else if c =? 55 then Decimal.D7 d
    else if c =? 56 then Decimal.D8 d
    else Decimal.D9 d
  end.

(** [int(literal)] for an optional sign and digits. *)
Definition int_of_literal (negative : bool) (digits : pystr) : Z :=
  let n := Z.of_N (N.of_uint (uint_of_chars digits)) in
  if negative then (- n)%Z else n.

(** The parts of a number, as the scanner matches them: the integer
    digits, then a fraction when a digit follows the point, then an exponent
    when a digit ends it. *)
Definition match_fraction (s : pystr) : pystr * pystr :=
  match s with
  | p :: ((d :: _) as r) =>
    if (p =? 46) && is_digit d
    then let (ds, rest) := span_digits r in (p :: ds, rest)
    else ([], s)
  | _ => ([], s)
  end.

Definition match_exponent (s : pystr) : pystr * pystr :=
  match s with
  | e :: ((x :: r') as r) =>
    if (e =? 101) || (e =? 69) then
      let (sign, r1) :=
        match r' with
        | _ :: _ => if (x =? 45) || (x =? 43) then ([x], r') else ([], r)
        | [] => ([], r)
        end in
      match span_digits r1 with
      | ([], _) => ([], s)
      | (ds, rest) => (e :: sign ++ ds, rest)
      end
    else ([], s)
  | _ => ([], s)
  end.

Section Decoder.
Context `{Formatting}.

Definition match_number (s : pystr) : scan value :=
  let expecting := Malformed (lit "Expecting value") s in
  let (negative, r) :=
    match s with
    | c :: r => if c =? 45 then (true, r) else (false, s)
    | [] => (false, s)
    end in
  match r with
  | [] => expecting
  | c :: r' =>
    let integer :=
      if (49 <=? c) && (c <=? 57)
      then let (ds, rest) := span_digits r' in Some (c :: ds, rest)
      else if c =? 48 then Some ([c], r')
      else None in
    match integer with
    | None => expecting
    | Some (digits, r1) =>
      let (frac, r2) := match_fraction r1 in
      let (exp, r3) := match_exponent r2 in
      match frac, exp with
      | [], [] => Scanned (VInt (int_of_literal negative digits)) r3
      | _, _ =>
        Scanned (VFloat (float_of_literal
                           ((if negative then [45] else []) ++ digits ++ frac ++ exp)))
                r3
      end
    end
  end.

(** A named constant at the head of the text. *)
Definition constant (name : string) (v : value) (s : pystr) : option (value * pystr) :=
  if is_prefix (lit name) s then Some (v, drop (length (lit name)) s) else None.

Definition match_constant (s : pystr) : option (value * pystr) :=
  match s with
  | 110 :: _ => constant "null" VNone s
  | 116 :: _ => constant "true" (VBool true) s
  | 102 :: _ => constant "false" (VBool false) s
  | 78 :: _ => constant "NaN" (VFloat PrimFloat.nan) s
  | 73 :: _ => constant "Infinity" (VFloat PrimFloat.infinity) s
  | 45 :: _ => constant "-Infinity" (VFloat PrimFloat.neg_infinity) s
  | _ => None
  end.

(** [scan_once], with the loops of the object and of the array. *)
Fixpoint scan_once (fuel : nat) (s : pystr) : scan value :=
  match fuel with
  | O => OutOfFuel
  | S fuel =>
    match s with
    | [] => Malformed (lit "Expecting value") s
    | c :: r =>
      if c =? 34 then
        match scanstring s r [] with
        | Scanned str rest => Scanned (VStr str) rest
        | Malformed msg at_ => Malformed msg at_
        | OutOfFuel => OutOfFuel
        end
      else if c =? 123 then
        match skip_ws r with
        | (c' :: r') as members =>
          if c' =? 125 then Scanned (VDict []) r' else scan_members fuel members []
        | [] => scan_members fuel [] []
        end
      else if c =? 91 then
        match skip_ws r with
        | (c' :: r') as elements =>
          if c' =? 93 then Scanned (VList []) r' else scan_elements fuel elements []
        | [] => scan_elements fuel [] []
        end
      else
        match match_constant s with
        | Some (v, rest) => Scanned v rest
        | None => match_number s
        end
    end
  end

with scan_members (fuel : nat) (s : pystr) (pairs : dict) : scan value :=
  match fuel with
  | O => OutOfFuel
  | S fuel =>
    let expecting_name :=
      Malformed (lit "Expecting property name enclosed in double quotes") s in
    match s with
    | [] => expecting_name
    | q :: r =>
      if q =? 34 then
        match scanstring s r [] with
        | Scanned k r1 =>
          let r2 := skip_ws r1 in
          match r2 with
          | colon :: r3 =>
            if colon =? 58 then
              match scan_once fuel (skip_ws r3) with
              | Scanned v r4 =>
                let pairs := dict_set pairs k v in
                let r5 := skip_ws r4 in
                match r5 with
                | c :: r6 =>
                  if c =? 125 then Scanned (VDict pairs) r6
                  else if c =? 44 then scan_members fuel (skip_ws r6) pairs
                  else Malformed (lit "Expecting ',' delimiter") r5
                | [] => Malformed (lit "Expecting ',' delimiter") r5
                end
              | other => other
              end
            else Malformed (lit "Expecting ':' delimiter") r2
          | [] => Malformed (lit "Expecting ':' delimiter") r2
          end
        | Malformed msg at_ => Malformed msg at_
        | OutOfFuel => OutOfFuel
        end
      else expecting_name
    end
  end

with scan_elements (fuel : nat) (s : pystr) (items : list value) : scan value :=
  match fuel with
  | O => OutOfFuel
  | S fuel =>
    match scan_once fuel s with
    | Scanned v r1 =>
      let items := items ++ [v] in
      let r2 := skip_ws r1 in
      match r2 with
      | c :: r3 =>
        if c =? 93 then Scanned (VList items) r3
        else if c =? 44 then scan_elements fuel (skip_ws r3) items
        else Malformed (lit "Expecting ',' delimiter") r2
      | [] => Malformed (lit "Expecting ',' delimiter") r2
      end
    | other => other
    end
  end.

(** The number of newlines in a text, and the length of its last line. *)
Fixpoint count_newlines (s : pystr) : nat :=
  match s with
  | [] => O
  | c :: r => if c =? 10 then S (count_newlines r) else count_newlines r
  end.

Fixpoint last_line_length (s : pystr) (col : nat) : nat :=
  match s with
  | [] => col
  | c :: r => if c =? 10 then last_line_length r O else last_line_length r (S col)
  end.

(** The error reported at the position where [at_] is what is left of
    [doc], with its line and column. *)
Definition error_at (doc : pystr) (msg : pystr) (at_ : pystr) : exc :=
  let pos := (length doc - length at_)%nat in
  let before := take pos doc in
  JSONDecodeError msg (S (count_newlines before))
                  (S (last_line_length before O)) pos.

(** [json.loads(doc)].  Two units of fuel a character are always enough
    ([loads_outcome] below), so the last branch is never taken. *)
Definition loads (doc : pystr) : result value :=
  if is_prefix [65279] doc then
    Raise (error_at doc (lit "Unexpected UTF-8 BOM (decode using utf-8-sig)") doc)
  else
    match scan_once (S (2 * length doc)) (skip_ws doc) with
    | Scanned v rest =>
      match skip_ws rest with
      | [] => Ok v
      | extra => Raise (error_at doc (lit "Extra data") extra)
      end
    | Malformed msg at_ => Raise (error_at doc msg at_)
    | OutOfFuel => Raise (LibraryError (lit "RecursionError"))
    end.
End Decoder.

End Json.

(** * The client: [mcp-client/client.py] *)

Module Client.

Inductive level := INFO | ERROR.

(** The child process, seen from the client: the chunks written to its
    standard input so far, and whether [terminate()] was called. *)
Record Process := { written : list bytes; terminated : bool }.

(** The fields of an [MCPClient] instance. *)
Record MCPClient := {
  server_path : pystr;
  process : option Process;
  request_id : Z
}.

(** What a method works on: the instance it is called on and the records
    of the module's logger. *)
Record session := { self : MCPClient; log : list (level * pystr) }.

Definition nl : pystr := [10].

(** The characters [str.strip()] removes. *)
Definition is_space (c : N) : bool :=
  ((9 <=? c) && (c <=? 13)) || ((28 <=? c) && (c <=? 32))
  || (c =? 133) || (c =? 160) || (c =? 5760)
  || ((8192 <=? c) && (c <=? 8202))
  || (c =? 8232) || (c =? 8233) || (c =? 8239) || (c =? 8287) || (c =? 12288).

Fixpoint lstrip (s : pystr) : pystr :=
  match s with
  | c :: r => if is_space c then lstrip r else s
  | [] => []
  end.

Definition strip (s : pystr) : pystr := rev (lstrip (rev (lstrip s))).

(** [item in v] for a string [item]. *)
Definition contains (v : value) (item : pystr) : result bool :=
  match v with
  | VDict d => Ok (bool_decide (is_Some (dict_lookup d item)))
  | VList l =>
    Ok (existsb (fun x => match x with VStr s => str_eqb s item | _ => false end) l)
  | VStr s => Ok (str_contains s item)
  | _ =>
    Raise (TypeError
             (lit "argument of type '" ++ type_name v ++ lit "' is not iterable"))
  end.

Definition is_json_error (e : exc) : bool :=
  match e with
  | JSONDecodeError _ _ _ _ => true
  | _ => false
  end.

(** [try: body  except json.JSONDecodeError as e: handler e] *)
Definition try_except_json {S A} (body : M S A) (handler : exc -> M S A) : M S A :=
  fun s =>
    match body s with
    | (Raise e, s') => if is_json_error e then handler e s' else (Raise e, s')
    | done => done
    end.

(** [MCPClient.__init__] *)
Definition __init__ (path : pystr) : MCPClient :=
  {| server_path := path; process := None; request_id := 0 |}.

Section Methods.
Context `{Formatting}.
(** The environment: whether starting the child succeeds, and what the
    next [readline()] on its standard output gives (or raises), which may
    depend on all that was written to it. *)
Variable spawn : pystr -> result unit.
Variable child : pystr -> list bytes -> result bytes.

Definition get_self : M session MCPClient := fun st => (Ok (self st), st).

Definition logger (lvl : level) (msg : pystr) : M session unit :=
  fun st => (Ok tt, {| self := self st; log := log st ++ [(lvl, msg)] |}).

Definition no_attribute {A} (attr : string) : M session A :=
  raise (AttributeError (lit "'NoneType' object has no attribute '" ++ lit attr ++ lit "'")).

(** [self.process.stdin.write(data)] followed by [drain()] *)
Definition stdin_write (data : bytes) : M session unit :=
  fun st =>
    let c := self st in
    match process c with
    | Some p =>
      (Ok tt,
       {| self := {| server_path := server_path c;
                     process := Some {| written := written p ++ [data];
                                        terminated := terminated p |};
                     request_id := request_id c |};
          log := log st |})
    | None => no_attribute "stdin" st
    end.

(** [self.process.stdout.readline()] *)
Definition stdout_readline : M session bytes :=
  fun st =>
    let c := self st in
    match process c with
    | Some p => (child (server_path c) (written p), st)
    | None => no_attribute "stdout" st
    end.

Definition encode (s : pystr) : result bytes :=
  match str_encode s with
  | Some data => Ok data
  | None => Raise (UnicodeEncodeError s)
  end.

Definition decode (data : bytes) : result pystr :=
  match bytes_decode data with
  | Some s => Ok s
  | None => Raise (UnicodeDecodeError data)
  end.

(** [MCPClient._get_request_id] *)
Definition _get_request_id : M session Z :=
  fun st =>
    let c := self st in
    let next := (request_id c + 1)%Z in
    (Ok next,
     {| self := {| server_path := server_path c;
                   process := process c;
                   request_id := next |};
        log := log st |}).

(** [MCPClient._send_request] *)
Definition _send_request (request : value) : M session value :=
  c <- get_self ;;
  if negb (bool_decide (is_Some (process c))) then
    raise (RuntimeError (lit "Server not started"))
  else
    let request_json := Json.dumps request ++ nl in
    data <- lift (encode request_json) ;;
    _ <- stdin_write data ;;
    response_line <- stdout_readline ;;
    if bool_decide (response_line = []) then
      raise (RuntimeError (lit "Server closed connection"))
    else
      try_except_json
        (text <- lift (decode response_line) ;;
         response <- lift (Json.loads (strip text)) ;;
         has_error <- lift (contains response (lit "error")) ;;
         if has_error : bool then
           error <- lift (getitem response (KStr (lit "error"))) ;;
           raise (RuntimeError (lit "Server error: " ++ py_str error))
         else ret response)
        (fun e =>
           _ <- logger ERROR (lit "Invalid JSON response: " ++ bytes_repr response_line) ;;
           raise (RuntimeError (lit "Invalid server response: " ++ exc_str e))).

(** [MCPClient._send_notification] *)
Definition _send_notification (notification : value) : M session unit :=
  c <- get_self ;;
  if negb (bool_decide (is_Some (process c))) then
    raise (RuntimeError (lit "Server not started"))
  else
    let notification_json := Json.dumps notification ++ nl in
    data <- lift (encode notification_json) ;;
    stdin_write data.

Definition init_request (id : Z) : value :=
  VDict [ (lit "jsonrpc", VStr (lit "2.0"));
          (lit "id", VInt id);
          (lit "method", VStr (lit "initialize"));
          (lit "params",
           VDict [ (lit "protocolVersion", VStr (lit "2024-11-05"));
                   (lit "capabilities", VDict [ (lit "tools", VDict []) ]);
                   (lit "clientInfo",
                    VDict [ (lit "name", VStr (lit "weather-client"));
                            (lit "version", VStr (lit "1.0.0")) ]) ]) ].

Definition initialized_notification : value :=
  VDict [ (lit "jsonrpc", VStr (lit "2.0"));
          (lit "method", VStr (lit "notifications/initialized")) ].

Definition list_request (id : Z) : value :=
  VDict [ (lit "jsonrpc", VStr (lit "2.0"));
          (lit "id", VInt id);
          (lit "method", VStr (lit "tools/list")) ].

Definition call_request (id : Z) (name : pystr) (arguments : dict) : value :=
  VDict [ (lit "jsonrpc", VStr (lit "2.0"));
          (lit "id", VInt id);
          (lit "method", VStr (lit "tools/call"));
          (lit "params",
           VDict [ (lit "name", VStr name);
                   (lit "arguments", VDict arguments) ]) ].

(** [MCPClient.initialize] *)
Definition initialize : M session unit :=
  id <- _get_request_id ;;
  response <- _send_request (init_request id) ;;
  _ <- logger INFO (lit "MCP client initialized") ;;
  _send_notification initialized_notification.

(** [MCPClient.list_tools] *)
Definition list_tools : M session value :=
  id <- _get_request_id ;;
  response <- _send_request (list_request id) ;;
  result <- lift (get_method response (lit "result") (VDict [])) ;;
  lift (get_method result (lit "tools") (VList [])).

(** [MCPClient.call_tool] *)
Definition call_tool (name : pystr) (arguments : dict) : M session value :=
  id <- _get_request_id ;;
  response <- _send_request (call_request id name arguments) ;;
  lift (get_method response (lit "result") VNone).

(** [MCPClient.start_server] *)
Definition start_server : M session unit :=
  try_except
    (c <- get_self ;;
     _ <- lift (spawn (server_path c)) ;;
     _ <- (fun st =>
             (Ok tt,
              {| self := {| server_path := server_path c;
                            process := Some {| written := []; terminated := false |};
                            request_id := request_id c |};
                 log := log st |})) ;;
     _ <- logger INFO (lit "Started MCP server: " ++ server_path c) ;;
     initialize)
    (fun e =>
       _ <- logger ERROR (lit "Failed to start server: " ++ exc_str e) ;;
       raise e).

(** What [self.process.terminate()] followed by [wait()] does on the
    child that was sent these lines: it returns, or raises (a
    [ProcessLookupError] when the child has already exited). *)
Variable terminate : pystr -> list bytes -> result unit.

(** [MCPClient.close] *)
Definition close : M session unit :=
  c <- get_self ;;
  match process c with
  | Some p =>
    _ <- lift (terminate (server_path c) (written p)) ;;
    _ <- (fun st =>
            (Ok tt,
             {| self := {| server_path := server_path c;
                           process := Some {| written := written p; terminated := true |};
                           request_id := request_id c |};
                log := log st |})) ;;
    logger INFO (lit "MCP server terminated")
  | None => ret tt
  end.

(** *** Several instances

    The instances of a program live at addresses; a method runs on the
    instance it is called on. *)






End Methods.

End Client.

(** * The weather client: [WeatherClient] in [mcp-client/client.py] *)

Module WeatherClient.

Import Client.

(** [WeatherClient.__init__]: the one field of a [WeatherClient], [client],
    is a new [MCPClient]; the methods below run on the session of that
    instance. *)
Definition __init__ (server_path : pystr) : MCPClient := Client.__init__ server_path.

Definition default_server_path : pystr := lit "../weather/weather.py".

(** [for x in v]: the items a loop over [v] visits. *)
Definition py_iter (v : value) : result (list value) :=
  match v with
  | VList l => Ok l
  | VDict d => Ok (map (fun kv => VStr (fst kv)) d)
  | VStr s => Ok (map (fun c => VStr [c]) s)
  | _ => Raise (TypeError (lit "'" ++ type_name v ++ lit "' object is not iterable"))
  end.

(** [[tool["name"] for tool in tools]], over the items of [tools]. *)
Fixpoint names (tools : list value) : result (list value) :=
  match tools with
  | [] => Ok []
  | tool :: rest =>
    match getitem tool (KStr (lit "name")) with
    | Ok name =>
      match names rest with
      | Ok others => Ok (name :: others)
      | Raise e => Raise e
      end
    | Raise e => Raise e
    end
  end.

Section Methods.
Context `{Formatting}.
Variable spawn : pystr -> result unit.
Variable child : pystr -> list bytes -> result bytes.

(** [WeatherClient.start] *)
Definition start : M session unit := start_server spawn child.

(** What the three lookups do with the result of their call:
    [if result and "content" in result: return result["content"][0]["text"]],
    [else: return fallback]. *)
Definition content_or (answer : value) (fallback : pystr) : M session value :=
  has_content <-
    lift (if truthy answer then contains answer (lit "content") else Ok false) ;;
  if has_content : bool then
    content <- lift (getitem answer (KStr (lit "content"))) ;;
    first <- lift (getitem content (KInt 0)) ;;
    lift (getitem first (KStr (lit "text")))
  else ret (VStr fallback).

(** [WeatherClient.get_current_weather] *)
Definition get_current_weather (location : value) : M session value :=
  try_except
    (answer <- call_tool child (lit "get_current_weather")
                 [ (lit "location", location) ] ;;
     content_or answer (lit "No weather data available for " ++ py_str location))
    (fun e =>
       ret (VStr (lit "Error getting weather for " ++ py_str location
                      ++ lit ": " ++ exc_str e))).

(** [WeatherClient.get_weather_forecast] *)
Definition get_weather_forecast (location days : value) : M session value :=
  try_except
    (answer <- call_tool child (lit "get_weather_forecast")
                 [ (lit "location", location); (lit "days", days) ] ;;
     content_or answer (lit "No forecast data available for " ++ py_str location))
    (fun e =>
       ret (VStr (lit "Error getting forecast for " ++ py_str location
                      ++ lit ": " ++ exc_str e))).

(** [WeatherClient.search_location] *)
Definition search_location (location : value) : M session value :=
  try_except
    (answer <- call_tool child (lit "search_location")
                 [ (lit "location", location) ] ;;
     content_or answer (lit "Location '" ++ py_str location ++ lit "' not found"))
    (fun e =>
       ret (VStr (lit "Error searching for " ++ py_str location
                      ++ lit ": " ++ exc_str e))).

(** [WeatherClient.list_available_tools] *)
Definition list_available_tools : M session (list value) :=
  try_except
    (tools <- list_tools child ;;
     items <- lift (py_iter tools) ;;
     lift (names items))
    (fun e =>
       _ <- logger ERROR (lit "Error listing tools: " ++ exc_str e) ;;
       ret []).

(** [WeatherClient.close] *)
Definition close (terminate : pystr -> list bytes -> result unit) : M session unit :=
  Client.close terminate.
End Methods.

End WeatherClient.

(** * The test run: [test_client] in [mcp-client/client.py] *)

Module Main.

Import Client.

(** What a run works on: the session of its local [client] and the lines
    printed so far (the arguments of [print], one per call). *)
Record world := { client : session; printed : list pystr }.

(** [await client.method(...)] *)
Definition await {A} (method : M session A) : M world A :=
  fun w =>
    let (r, st) := method (client w) in
    (r, {| client := st; printed := printed w |}).

(** [try: body  finally: final] *)
Definition try_finally {S A} (body : M S A) (final : M S unit) : M S A :=
  fun s =>
    let (r, s') := body s in
    match final s' with
    | (Ok _, s'') => (r, s'')
    | (Raise e, s'') => (Raise e, s'')
    end.

Section Runs.
Context `{Formatting}.
Variable spawn : pystr -> result unit.
Variable child : pystr -> list bytes -> result bytes.
Variable terminate : pystr -> list bytes -> result unit.
(** What writing a line to the console does, after the lines printed so
    far: it returns, or raises (a [UnicodeEncodeError] for a text the
    console cannot encode, such as one with a lone surrogate). *)
Variable console : list pystr -> pystr -> result unit.

(** [print(line)] *)
Definition print (line : pystr) : M world unit :=
  fun w =>
    match console (printed w) line with
    | Ok _ => (Ok tt, {| client := client w; printed := printed w ++ [line] |})
    | Raise e => (Raise e, w)
    end.

(** [client = WeatherClient()] *)
Definition new_weather_client : M world unit :=
  fun w =>
    (Ok tt,
     {| client := {| self := WeatherClient.__init__ WeatherClient.default_server_path;
                     log := log (client w) |};
        printed := printed w |}).

(** The [try] statement of [test_client], without its [finally]: the
    body and the [except Exception] clause. *)
Definition tests : M world unit :=
  try_except
    (_ <- print (lit "Starting weather server...") ;;
     _ <- await (WeatherClient.start spawn child) ;;
     _ <- print (lit "✅ Server started successfully!") ;;
     _ <- print ([10] ++ lit "📍 Testing current weather for Bangkok...") ;;
     weather <- await (WeatherClient.get_current_weather child
                         (VStr (lit "Bangkok, Thailand"))) ;;
     _ <- print (py_str weather) ;;
     _ <- print ([10] ++ lit "📅 Testing 3-day forecast for New York...") ;;
     forecast <- await (WeatherClient.get_weather_forecast child
                          (VStr (lit "New York")) (VInt 3)) ;;
     _ <- print (py_str forecast) ;;
     _ <- print ([10] ++ lit "🔍 Testing location search for Tokyo...") ;;
     location <- await (WeatherClient.search_location child (VStr (lit "Tokyo"))) ;;
     _ <- print (py_str location) ;;
     print ([10] ++ lit "✅ All tests completed successfully!"))
    (fun e => print (lit "❌ Test failed: " ++ exc_str e)).

(** [test_client] *)
Definition test_client : M world unit :=
  _ <- print (lit "🧪 Testing Weather MCP Client") ;;
  _ <- print (repeat 61 40) ;;
  _ <- new_weather_client ;;
  try_finally tests (await (WeatherClient.close terminate)).
End Runs.

(** ** A fragment of [interactive_demo] *)

Section Demo.
(** [int(text)] for a string; [None] stands for [ValueError]. *)
Variable int_of_str : pystr -> option Z.

(** The number of days [interactive_demo] asks a forecast for, from what
    was typed at "Enter number of days (1-16, default 7): ":
    [days = int(input(...).strip() or "7")], [days = max(1, min(16, days))],
    and [days = 7] on [ValueError]. *)
Definition demo_days (typed : pystr) : Z :=
  let text := strip typed in
  match int_of_str (if bool_decide (text = []) then lit "7" else text) with
  | Some days => Z.max 1 (Z.min 16 days)
  | None => 7%Z
  end.
End Demo.

End Main.

(** * The set-up script: [setup.py] *)

Module Setup.

(** What [subprocess.run] returns. *)
Record CompletedProcess := { returncode : Z; stdout : pystr; stderr : pystr }.

(** What the script may see raised: the two errors of [subprocess], and
    the other exceptions. *)
Inductive error :=
| CalledProcessError (returncode : Z) (cmd : list pystr)
| TimeoutExpired (cmd : list pystr) (timeout : Z)
| Other (e : exc).

Inductive outcome (A : Type) : Type :=
| Returned (a : A)
| Raised (e : error).
Arguments Returned {A} a.
Arguments Raised {A} e.

(** How [main] ends: it returns, or [sys.exit(code)]. *)
Inductive exit := Finished | SystemExit (code : Z).

(** The state of a run: the lines printed and the commands run so far. *)
Record world := { printed : list pystr; ran : list (list pystr) }.

Section Script.
Context `{Formatting}.
(** The environment: [sys.executable], [os.path.join], [os.path.exists],
    [subprocess.run(cmd, timeout=...)] and [str] of the errors of
    [subprocess]; the file system and the commands may depend on the
    commands run before. *)
Variable executable : pystr.
Variable path_join : pystr -> pystr -> pystr.
Variable path_exists : list (list pystr) -> pystr -> bool.
Variable subprocess_run :
  list (list pystr) -> list pystr -> option Z -> outcome CompletedProcess.
Variable subprocess_error_str : error -> pystr.

(** [str(e)] *)
Definition error_str (e : error) : pystr :=
  match e with
  | Other e' => exc_str e'
  | _ => subprocess_error_str e
  end.

Definition print (line : pystr) (w : world) : world :=
  {| printed := printed w ++ [line]; ran := ran w |}.

Definition run (cmd : list pystr) (timeout : option Z) (w : world)
    : outcome CompletedProcess * world :=
  (subprocess_run (ran w) cmd timeout,
   {| printed := printed w; ran := ran w ++ [cmd] |}).

(** One block of [install_requirements]: the requirements of [directory]
    are installed when the file exists, with [check=True]. *)
Definition install_from (directory : pystr) (installed : pystr) (w : world)
    : option error * world :=
  let req := path_join directory (lit "requirements.txt") in
  if path_exists (ran w) req then
    let cmd := [ executable; lit "-m"; lit "pip"; lit "install"; lit "-r"; req ] in
    match run cmd None w with
    | (Returned p, w') =>
      if (returncode p =? 0)%Z then (None, print installed w')
      else (Some (CalledProcessError (returncode p) cmd), w')
    | (Raised e, w') => (Some e, w')
    end
  else (None, w).

(** [install_requirements]; [Some e] when [e] is raised. *)
Definition install_requirements (w : world) : option error * world :=
  let w := print (lit "Installing Python requirements...") w in
  match install_from (lit "weather") (lit "✅ Server requirements installed") w with
  | (None, w') =>
    install_from (lit "mcp-client") (lit "✅ Client requirements installed") w'
  | (Some e, w') => (Some e, w')
  end.

(** [test_server] *)
Definition test_server (w : world) : bool * world :=
  let w := print ([10] ++ lit "Testing MCP weather server...") w in
  let client_script := path_join (lit "mcp-client") (lit "client.py") in
  if path_exists (ran w) client_script then
    match run [ executable; client_script; lit "test" ] (Some 30%Z) w with
    | (Returned result, w) =>
      let w := print (lit "Server test output:") w in
      let w := print (stdout result) w in
      let w :=
        if negb (bool_decide (stderr result = []))
        then print (stderr result) (print (lit "Errors:") w)
        else w in
      if (returncode result =? 0)%Z
      then (true, print (lit "✅ MCP server test passed!") w)
      else (false, print (lit "❌ MCP server test failed!") w)
    | (Raised (TimeoutExpired _ _), w) =>
      (true, print (lit "⚠️  Test timed out - server might be running but slow") w)
    | (Raised e, w) =>
      (false, print (lit "❌ Error running test: " ++ error_str e) w)
    end
  else (true, w).

(** [main] *)
Definition main (w : world) : exit * world :=
  let w := print (lit "🌤️  MCP Weather Server Setup") w in
  let w := print (repeat 61 40) w in
  match install_requirements w with
  | (None, w) =>
    let (_, w) := test_server w in
    let w := print ([10] ++ lit "✅ Setup completed successfully!") w in
    let w := print ([10] ++ lit "Next steps:") w in
    let w := print (lit "1. Run the interactive client: python mcp-client/client.py") w in
    let w := print (lit "2. Or run tests: python mcp-client/client.py test") w in
    let w := print (lit "3. For Flutter integration, see flutter_integration/ directory") w in
    (Finished, w)
  | (Some (CalledProcessError returncode cmd), w) =>
    (SystemExit 1,
     print (lit "❌ Error during setup: "
              ++ error_str (CalledProcessError returncode cmd)) w)
  | (Some e, w) =>
    (SystemExit 1, print (lit "❌ Unexpected error: " ++ error_str e) w)
  end.
End Script.

End Setup.

(** * Sample data

    Concrete inputs on which the statements below are exercised. *)

Module Samples.

(** Quotes a string as [repr] does for text without quotes, backslashes
    or unprintable characters; floats and bytes are not rendered. *)
Definition formatting : Formatting := {|
  float_repr := fun _ => lit "<float>";
  float_of_literal := fun _ => 0%float;
  str_repr := fun s => lit "'" ++ s ++ lit "'";
  bytes_repr := fun _ => lit "<bytes>";
  decode_error_str := fun _ => lit "<UnicodeDecodeError>";
  encode_error_str := fun _ => lit "<UnicodeEncodeError>";
  float_repr_ascii := fun _ => eq_refl
|}.

Definition bangkok : value :=
  VDict [ (lit "latitude", VFloat 13.7563%float);
          (lit "longitude", VFloat 100.5018%float);
          (lit "name", VStr (lit "Bangkok"));
          (lit "country", VStr (lit "Thailand")) ].

(** An upstream that knows Bangkok, finds nothing for other names, and
    has its forecast endpoint down. *)
Definition upstream (t : Weather.trace) (c : Weather.http_call)
    : Weather.upstream_reply :=
  if str_eqb (Weather.url c) Weather.GEOCODING_URL then
    match dict_lookup (Weather.params c) (lit "name") with
    | Some (VStr s) =>
      if str_eqb s (lit "Bangkok, Thailand")
      then Weather.Reply 200 (Ok (VDict [ (lit "results", VList [bangkok]) ]))
      else Weather.Reply 200 (Ok (VDict [ (lit "generationtime_ms", VInt 1) ]))
    | _ => Weather.Reply 400 (Ok (VDict [ (lit "error", VBool true) ]))
    end
  else Weather.Reply 503 (Raise (LibraryError (lit "body is not JSON"))).

(** An upstream whose geocoding endpoint is down. *)
Definition upstream_down (t : Weather.trace) (c : Weather.http_call)
    : Weather.upstream_reply :=
  Weather.Reply 503 (Raise (LibraryError (lit "body is not JSON"))).

(** The frame of a message on the wire. *)
Definition frame (message : value) : bytes :=
  default [] (str_encode (@Json.dumps formatting message ++ Client.nl)).

(** A started client that has issued no request, alone in its session. *)
Definition started : Client.session :=
  {| Client.self :=
       {| Client.server_path := lit "../weather/weather.py";
          Client.process := Some {| Client.written := []; Client.terminated := false |};
          Client.request_id := 0 |};
     Client.log := [] |}.

(** A child whose output is closed. *)
Definition closed_child (path : pystr) (written : list bytes) : result bytes :=
  Ok [].

(** A child that prints something that is not JSON. *)
Definition garbled_child (path : pystr) (written : list bytes) : result bytes :=
  Ok (list_byte_of_string "oops" ++ [x0a]).

Definition method_not_found : value :=
  VDict [ (lit "code", VInt (-32601));
          (lit "message", VStr (lit "Method not found")) ].

(** A child that refuses every request. *)
Definition refusing_child (path : pystr) (written : list bytes) : result bytes :=
  Ok (frame (VDict [ (lit "jsonrpc", VStr (lit "2.0"));
                     (lit "id", VInt 1);
                     (lit "error", method_not_found) ])).

(** A child that acknowledges every request with an object that has no
    result; the id it echoes is the number of lines it has received. *)
Definition terse_child (path : pystr) (written : list bytes) : result bytes :=
  Ok (frame (VDict [ (lit "jsonrpc", VStr (lit "2.0"));
                     (lit "id", VInt (Z.of_nat (length written))) ])).

End Samples.

(** * Scenarios

    Further sample data: answers of the weather endpoint, children that
    answer as a server would, and the environment of the set-up script. *)

Module Scenarios.

Definition current : dict :=
  [ (lit "time", VStr (lit "2024-05-01T12:00"));
    (lit "temperature_2m", VInt 31);
    (lit "apparent_temperature", VInt 36);
    (lit "relative_humidity_2m", VInt 70);
    (lit "precipitation", VInt 0);
    (lit "wind_speed_10m", VInt 9);
    (lit "wind_direction_10m", VInt 180);
    (lit "pressure_msl", VInt 1008);
    (lit "cloud_cover", VInt 40);
    (lit "is_day", VInt 1) ].

Definition current_units : dict :=
  [ (lit "time", VStr (lit "iso8601"));
    (lit "temperature_2m", VStr (lit "C"));
    (lit "apparent_temperature", VStr (lit "C"));
    (lit "relative_humidity_2m", VStr (lit "%"));
    (lit "precipitation", VStr (lit "mm"));
    (lit "wind_speed_10m", VStr (lit "km/h"));
    (lit "wind_direction_10m", VStr []);
    (lit "pressure_msl", VStr (lit "hPa"));
    (lit "cloud_cover", VStr (lit "%")) ].

Definition current_payload : dict :=
  [ (lit "current", VDict current);
    (lit "current_units", VDict current_units) ].

Definition daily_units : dict :=
  [ (lit "temperature_2m_max", VStr (lit "C"));
    (lit "temperature_2m_min", VStr (lit "C"));
    (lit "precipitation_sum", VStr (lit "mm"));
    (lit "wind_speed_10m_max", VStr (lit "km/h")) ].

(** Two days of forecast, with the precipitation as given. *)
Definition daily (precipitation : list value) : dict :=
  [ (lit "time", VList [ VStr (lit "2024-05-01"); VStr (lit "2024-05-02") ]);
    (lit "temperature_2m_max", VList [ VInt 34; VInt 35 ]);
    (lit "temperature_2m_min", VList [ VInt 26; VInt 27 ]);
    (lit "precipitation_sum", VList precipitation);
    (lit "wind_speed_10m_max", VList [ VInt 11; VInt 14 ]) ].

Definition forecast_payload (precipitation : list value) : dict :=
  [ (lit "daily", VDict (daily precipitation));
    (lit "daily_units", VDict daily_units) ].

(** An upstream that geocodes as the sample upstream does and answers
    every call to the weather endpoint with [payload]. *)
Definition upstream_with (payload : dict) (t : Weather.trace) (c : Weather.http_call)
    : Weather.upstream_reply :=
  if str_eqb (Weather.url c) Weather.GEOCODING_URL then Samples.upstream t c
  else Weather.Reply 200 (Ok (VDict payload)).

(** An upstream that cannot be reached. *)
Definition unreachable (t : Weather.trace) (c : Weather.http_call)
    : Weather.upstream_reply :=
  Weather.Failed (LibraryError (lit "Cannot connect to host")).

Definition bangkok_coords : Weather.coords :=
  {| Weather.latitude := VFloat 13.7563%float;
     Weather.longitude := VFloat 100.5018%float;
     Weather.name := VStr (lit "Bangkok");
     Weather.country := VStr (lit "Thailand") |}.

Definition in_bangkok : dict := [ (lit "location", VStr (lit "Bangkok, Thailand")) ].

(** A client that was not started. *)
Definition idle : Client.session :=
  {| Client.self := Client.__init__ (lit "../weather/weather.py");
     Client.log := [] |}.

Definition report : value :=
  VDict [ (lit "type", VStr (lit "text"));
          (lit "text", VStr (lit "Sunny in Bangkok")) ].

Definition tools : value :=
  VList [ VDict [ (lit "name", VStr (lit "get_current_weather")) ];
          VDict [ (lit "name", VStr (lit "search_location")) ] ].

(** The answer of a server to request [id], with [result] as its result. *)
Definition answer (id : Z) (result : value) : dict :=
  [ (lit "jsonrpc", VStr (lit "2.0")); (lit "id", VInt id); (lit "result", result) ].

Definition helpful_result : value :=
  VDict [ (lit "tools", tools); (lit "content", VList [ report ]) ].

(** A child that answers every request with one result that has both
    tools and content; the id it echoes is the number of lines it has
    received. *)
Definition helpful_child (path : pystr) (written : list bytes) : result bytes :=
  Ok (Samples.frame (VDict (answer (Z.of_nat (length written)) helpful_result))).

(** A child whose results are [null]. *)
Definition null_child (path : pystr) (written : list bytes) : result bytes :=
  Ok (Samples.frame (VDict (answer 1 VNone))).

(** A child that prints a number, a blank line, bytes that are not UTF-8;
    a child whose output cannot be read. *)
Definition number_child (path : pystr) (written : list bytes) : result bytes :=
  Ok (list_byte_of_string "42" ++ [x0a]).

Definition blank_child (path : pystr) (written : list bytes) : result bytes :=
  Ok [x0a].

Definition binary_child (path : pystr) (written : list bytes) : result bytes :=
  Ok [xff; x0a].

Definition broken_child (path : pystr) (written : list bytes) : result bytes :=
  Raise (LibraryError (lit "Separator is not found, and chunk exceed the limit")).


Definition spawn_ok (path : pystr) : result unit := Ok tt.

Definition spawn_missing (path : pystr) : result unit :=
  Raise (LibraryError (lit "[Errno 2] No such file or directory")).

Definition fresh : Client.Process :=
  {| Client.written := []; Client.terminated := false |}.

(** A child whose results have an empty content. *)
Definition empty_child (path : pystr) (written : list bytes) : result bytes :=
  Ok (Samples.frame
        (VDict [ (lit "jsonrpc", VStr (lit "2.0")); (lit "id", VInt 1);
                 (lit "result", VDict [ (lit "content", VList []) ]) ])).

(** A child whose second tool has no name. *)
Definition nameless_tools : list value :=
  [ VDict [ (lit "name", VStr (lit "get_current_weather")) ];
    VDict [ (lit "title", VStr (lit "search")) ] ].

Definition nameless_child (path : pystr) (written : list bytes) : result bytes :=
  Ok (Samples.frame
        (VDict [ (lit "jsonrpc", VStr (lit "2.0")); (lit "id", VInt 1);
                 (lit "result", VDict [ (lit "tools", VList nameless_tools) ]) ])).

(** A run that has printed nothing, with an empty log. *)
Definition blank : Main.world :=
  {| Main.client := {| Client.self := Client.__init__ []; Client.log := [] |};
     Main.printed := [] |}.

(** [int] on ASCII text: an optional minus sign and digits. *)
Fixpoint digits_value (acc : Z) (s : pystr) : option Z :=
  match s with
  | [] => Some acc
  | c :: r =>
    if (48 <=? c) && (c <=? 57)
    then digits_value (acc * 10 + Z.of_N (c - 48)) r
    else None
  end.

Definition ascii_int (s : pystr) : option Z :=
  match s with
  | [] => None
  | [45] => None
  | 45 :: r => Z.opp <$> digits_value 0 r
  | _ => digits_value 0 s
  end.

(** The environment of the set-up script: POSIX paths; a file system in
    which only the client script exists, or everything; commands that end
    with return code 1, or are too slow when given a timeout. *)
Definition python : pystr := lit "/usr/bin/python3".

Definition posix_join (a b : pystr) : pystr := a ++ [47] ++ b.

Definition only_client_script (history : list (list pystr)) (path : pystr) : bool :=
  str_eqb path (lit "mcp-client/client.py").

Definition all_files (history : list (list pystr)) (path : pystr) : bool := true.

Definition failing_run (history : list (list pystr)) (cmd : list pystr)
    (timeout : option Z) : Setup.outcome Setup.CompletedProcess :=
  Setup.Returned {| Setup.returncode := 1; Setup.stdout := []; Setup.stderr := lit "boom" |}.

Definition slow_run (history : list (list pystr)) (cmd : list pystr)
    (timeout : option Z) : Setup.outcome Setup.CompletedProcess :=
  match timeout with
  | Some seconds => Setup.Raised (Setup.TimeoutExpired cmd seconds)
  | None => Setup.Returned {| Setup.returncode := 0; Setup.stdout := []; Setup.stderr := [] |}
  end.

Definition describe (e : Setup.error) : pystr := lit "<subprocess error>".

Definition nothing_yet : Setup.world := {| Setup.printed := []; Setup.ran := [] |}.

(** A console that writes UTF-8: it refuses a text with a surrogate. *)
Definition utf8_console (before : list pystr) (line : pystr) : result unit :=
  match str_encode line with
  | Some _ => Ok tt
  | None => Raise (UnicodeEncodeError line)
  end.

(** A child that is terminated when asked, and one that has already
    exited. *)
Definition terminate_ok (path : pystr) (written : list bytes) : result unit := Ok tt.

Definition terminate_gone (path : pystr) (written : list bytes) : result unit :=
  Raise (LibraryError (lit "ProcessLookupError")).

(** A child whose text holds a lone surrogate. *)
Definition surrogate_child (path : pystr) (written : list bytes) : result bytes :=
  Ok (Samples.frame
        (VDict (answer (Z.of_nat (length written))
                  (VDict [ (lit "content",
                            VList [ VDict [ (lit "text", VStr [55357]) ] ]) ])))).

End Scenarios.

(** * Properties of the server *)

Section WeatherProperties.
Context `{Formatting}.
Variable upstream : Weather.trace -> Weather.http_call -> Weather.upstream_reply.

Import Weather.

Definition tool_names : list pystr :=
  [ lit "get_current_weather"; lit "get_weather_forecast"; lit "search_location" ].

(** [arguments] has no usable ["location"]: the key is missing, or its
    value is empty (false as a condition). *)
Definition location_missing (arguments : dict) : Prop :=
  match dict_lookup arguments (lit "location") with
  | None => True
  | Some v => truthy v = false
  end.

(** C1. Each of the three tool handlers, given arguments without a
    ["location"] or with an empty one, returns normally the single text
    "Error: Location is required" and makes no upstream call: the trace of
    calls is unchanged. *)
Theorem missing_location_is_reported (name : pystr) (arguments : dict) (t : trace) :
  In name tool_names ->
  location_missing arguments ->
  handle_call_tool upstream name arguments t
  = (Ok [ text_content (lit "Error: Location is required") ], t).
Proof.
  intros Hname Hloc.
  assert (Hfalsy : truthy (default VNone
                             (dict_lookup arguments (lit "location"))) = false).
  { unfold location_missing in Hloc.
    destruct (dict_lookup arguments (lit "location")); simpl; auto. }
  unfold handle_call_tool.
  destruct Hname as [<- | [<- | [<- | []]]]; simpl; rewrite Hfalsy; reflexivity.
Qed.

(** C6. A name that is none of the three tools is answered, for any
    arguments, by a normal return of the single text "Unknown tool: "
    followed by the name; nothing is raised and no upstream call is made. *)
Theorem unknown_tool_is_reported (name : pystr) (arguments : dict) (t : trace) :
  ~ In name tool_names ->
  handle_call_tool upstream name arguments t
  = (Ok [ text_content (lit "Unknown tool: " ++ name) ], t).
Proof.
  intros Hname. unfold handle_call_tool, str_eqb.
  repeat case_bool_decide; subst;
    try (exfalso; apply Hname; unfold tool_names; simpl; tauto).
  reflexivity.
Qed.

(** What a computation establishes when it returns normally. *)
Definition returns {S A} (P : A -> Prop) (r : result A * S) : Prop :=
  match fst r with
  | Ok a => P a
  | Raise _ => True
  end.

Lemma returns_bind {S A B} (P : B -> Prop) (m : M S A) (k : A -> M S B) s :
  (forall a s', returns P (k a s')) -> returns P (bind m k s).
Proof.
  intros Hk. unfold bind. destruct (m s) as [[a | e] s']; [apply Hk | exact I].
Qed.

Definition single_text (items : list TextContent) : Prop :=
  exists txt, items = [ text_content txt ].

Lemma try_except_single_text {S} (body : M S (list TextContent)) prefix s :
  returns single_text (body s) ->
  exists txt, fst (try_except body (error_text prefix) s) = Ok [ text_content txt ].
Proof.
  unfold returns, try_except. destruct (body s) as [[items | e] s']; simpl.
  - intros [txt ->]. now exists txt.
  - intros _. now eexists.
Qed.

Ltac step_through :=
  repeat (apply returns_bind; intros); simpl; eexists; reflexivity.

Lemma current_weather_text_single location t :
  returns single_text (current_weather_text upstream location t).
Proof. unfold current_weather_text. step_through. Qed.

Lemma forecast_text_single location days t :
  returns single_text (forecast_text upstream location days t).
Proof. unfold forecast_text. step_through. Qed.

Lemma search_text_single location t :
  returns single_text (search_text upstream location t).
Proof. unfold search_text. step_through. Qed.

(** C9. For every tool name, every argument mapping and every behaviour
    of the upstream, the dispatcher returns normally a list of exactly one
    content item, of type "text": on success, when the location is
    missing, when a lookup or the upstream fails (the exception is caught
    and rendered), and for an unknown tool. *)
Theorem call_tool_returns_one_text (name : pystr) (arguments : dict) (t : trace) :
  exists txt,
    fst (handle_call_tool upstream name arguments t)
    = Ok [ {| type := lit "text"; text := txt |} ].
Proof.
  unfold handle_call_tool.
  repeat match goal with
         | |- context [if ?b then _ else _] => destruct b
         end;
    try (now eexists);
    apply try_except_single_text;
    auto using current_weather_text_single, forecast_text_single,
               search_text_single.
Qed.

(** The one call [get_coordinates] makes for a location. *)
Definition geocoding_call (location : value) : http_call :=
  {| url := GEOCODING_URL;
     params := [ (lit "name", location);
                 (lit "count", VInt 1);
                 (lit "language", VStr (lit "en"));
                 (lit "format", VStr (lit "json")) ] |}.

(** The "location not found" condition, naming the input. *)
Definition location_not_found (location : value) : exc :=
  ValueError (lit "Location '" ++ py_str location ++ lit "' not found").

(** The geocoding answer lists no candidate: ["results"] is missing or
    empty. *)
Definition no_candidates (data : dict) : Prop :=
  truthy (default VNone (dict_lookup data (lit "results"))) = false.

(** Computations that leave the state as it is. *)
Definition keeps_state {S A} (m : M S A) : Prop := forall s, snd (m s) = s.

Lemma keeps_state_bind {S A B} (m : M S A) (k : A -> M S B) :
  keeps_state m -> (forall a, keeps_state (k a)) -> keeps_state (bind m k).
Proof.
  intros Hm Hk s. unfold bind. specialize (Hm s).
  destruct (m s) as [[a | e] s']; simpl in *; subst; [apply Hk | reflexivity].
Qed.

Lemma keeps_state_lift {S A} (r : result A) : keeps_state (S := S) (lift r).
Proof. intros s. reflexivity. Qed.

Lemma keeps_state_ret {S A} (a : A) : keeps_state (S := S) (ret a).
Proof. intros s. reflexivity. Qed.

Lemma keeps_state_raise {S A} (e : exc) : keeps_state (S := S) (A := A) (raise e).
Proof. intros s. reflexivity. Qed.

Ltac keeps_state_steps :=
  repeat first
    [ apply keeps_state_lift | apply keeps_state_ret | apply keeps_state_raise
    | apply keeps_state_bind; [| intros]
    | match goal with
      | |- keeps_state (if ?b then _ else _) => destruct b
      end ].

Lemma get_coordinates_trace location t :
  snd (get_coordinates upstream location t) = t ++ [ geocoding_call location ].
Proof.
  unfold get_coordinates. unfold bind at 1. unfold session_get.
  fold (geocoding_call location).
  destruct (upstream t (geocoding_call location)) as [status json | e];
    [| reflexivity].
  cbn [fst snd].
  match goal with |- snd (?k _) = _ => assert (Hk : keeps_state k) end.
  { keeps_state_steps. }
  apply Hk.
Qed.

Lemma index_of_first n : index_of (S n) 0 = Some 0%nat.
Proof.
  unfold index_of. replace (0 <? Z.of_nat (S n))%Z with true; [reflexivity|].
  symmetry. apply Z.ltb_lt. lia.
Qed.

(** C5. [get_coordinates] makes one geocoding call for the location.
    (1) When the answer has status 200 and its ["results"] start with a
    candidate that has a latitude and a longitude, these are returned with
    the candidate's name, or the input when it has none, and its country,
    or the empty string when it has none.  (2) When the answer has status
    200 and no candidates, and (3) when the status is not 200, a
    [ValueError] "Location '<input>' not found" is raised. *)
Theorem get_coordinates_outcomes (location : value) (t : trace) :
  (forall data candidate more lat lon,
      upstream t (geocoding_call location) = Reply 200 (Ok (VDict data)) ->
      dict_lookup data (lit "results") = Some (VList (VDict candidate :: more)) ->
      dict_lookup candidate (lit "latitude") = Some lat ->
      dict_lookup candidate (lit "longitude") = Some lon ->
      get_coordinates upstream location t
      = (Ok {| latitude := lat;
               longitude := lon;
               name := default location (dict_lookup candidate (lit "name"));
               country := default (VStr []) (dict_lookup candidate (lit "country")) |},
         t ++ [ geocoding_call location ]))
  /\ (forall data,
      upstream t (geocoding_call location) = Reply 200 (Ok (VDict data)) ->
      no_candidates data ->
      get_coordinates upstream location t
      = (Raise (location_not_found location), t ++ [ geocoding_call location ]))
  /\ (forall status json,
      upstream t (geocoding_call location) = Reply status json ->
      status <> 200%Z ->
      get_coordinates upstream location t
      = (Raise (location_not_found location), t ++ [ geocoding_call location ])).
Proof.
  split; [|split].
  - intros data candidate more lat lon Hup Hres Hlat Hlon.
    unfold get_coordinates, bind, session_get. fold (geocoding_call location).
    rewrite Hup. cbn [fst snd Z.eqb Pos.eqb lift get_method getitem].
    rewrite Hres. cbn. rewrite index_of_first. cbn. rewrite Hlat, Hlon. reflexivity.
  - intros data Hup Hnone.
    unfold get_coordinates, bind, session_get. fold (geocoding_call location).
    rewrite Hup. cbn [fst snd Z.eqb Pos.eqb lift get_method].
    unfold no_candidates in Hnone. rewrite Hnone. reflexivity.
  - intros status json Hup Hstatus.
    unfold get_coordinates, bind, session_get. fold (geocoding_call location).
    rewrite Hup. cbn [fst snd].
    destruct (Z.eqb_spec status 200) as [-> | _]; [contradiction | reflexivity].
Qed.

(** The one call [get_forecast] makes when [min(days, 16)] is defined. *)
Definition forecast_call (lat lon forecast_days : value) : http_call :=
  {| url := BASE_URL;
     params :=
       [ (lit "latitude", lat);
         (lit "longitude", lon);
         (lit "daily",
          VStr (lit "weather_code,temperature_2m_max,temperature_2m_min,apparent_temperature_max,apparent_temperature_min,sunrise,sunset,precipitation_sum,rain_sum,showers_sum,snowfall_sum,precipitation_hours,wind_speed_10m_max,wind_gusts_10m_max,wind_direction_10m_dominant"));
         (lit "timezone", VStr (lit "auto"));
         (lit "forecast_days", forecast_days) ] |}.

(** C2, as the code has it. For every integer [days], [get_forecast]
    makes one call, whose [forecast_days] is [min(days, 16)]: a value above
    16 is lowered to 16 without being rejected (30 is sent as 16), and a
    value of 16 or less is sent as it is, also when it is below 1. *)
Theorem get_forecast_sends_min (lat lon : value) (days : Z) (t : trace) :
  snd (get_forecast upstream lat lon (VInt days) t)
  = t ++ [ forecast_call lat lon (VInt (Z.min days 16)) ].
Proof.
  unfold get_forecast, bind, lift, session_get, py_min_16.
  replace (if (16 <? days)%Z then VInt 16 else VInt days)
    with (VInt (Z.min days 16))
    by (destruct (Z.ltb_spec 16 days); f_equal; lia).
  fold (forecast_call lat lon (VInt (Z.min days 16))).
  destruct (upstream t _) as [status json | e]; [|reflexivity].
  cbn [fst snd]. destruct (status =? 200)%Z; [destruct json|]; reflexivity.
Qed.

(** The entry of a schema reached by a path of keys. *)
Fixpoint schema_at (schema : value) (path : list pystr) : option value :=
  match path with
  | [] => Some schema
  | k :: path' =>
    match schema with
    | VDict d => dict_lookup d k ≫= fun v => schema_at v path'
    | _ => None
    end
  end.

(** C7. In any state, [handle_list_tools] returns, without changing the
    state, exactly three tool descriptors, named get_current_weather,
    get_weather_forecast and search_location.  Each requires ["location"]
    (a string) and nothing else; the forecast tool also takes an integer
    ["days"] with default 7, minimum 1 and maximum 16, which the other two
    do not have. *)
Theorem list_tools_fixed {S : Type} (s : S) :
  exists current forecast search,
    handle_list_tools s = (Ok [ current; forecast; search ], s)
    /\ map tool_name [ current; forecast; search ] = tool_names
    /\ Forall (fun tool =>
                 schema_at (inputSchema tool) [ lit "required" ]
                 = Some (VList [ VStr (lit "location") ])
                 /\ schema_at (inputSchema tool) [ lit "properties"; lit "location"; lit "type" ]
                    = Some (VStr (lit "string")))
              [ current; forecast; search ]
    /\ schema_at (inputSchema forecast) [ lit "properties"; lit "days"; lit "type" ]
       = Some (VStr (lit "integer"))
    /\ schema_at (inputSchema forecast) [ lit "properties"; lit "days"; lit "default" ]
       = Some (VInt 7)
    /\ schema_at (inputSchema forecast) [ lit "properties"; lit "days"; lit "minimum" ]
       = Some (VInt 1)
    /\ schema_at (inputSchema forecast) [ lit "properties"; lit "days"; lit "maximum" ]
       = Some (VInt 16)
    /\ schema_at (inputSchema current) [ lit "properties"; lit "days" ] = None
    /\ schema_at (inputSchema search) [ lit "properties"; lit "days" ] = None.
Proof.
  do 3 eexists. split; [reflexivity|].
  split; [reflexivity|].
  split; [repeat constructor|].
  repeat split; reflexivity.
Qed.
End WeatherProperties.

(** The statements above, at the sample data. *)

Lemma missing_location_is_reported_witness :
  @Weather.handle_call_tool Samples.formatting Samples.upstream
    (lit "search_location") [] []
  = (Ok [ Weather.text_content (lit "Error: Location is required") ], []).
Proof.
  apply (@missing_location_is_reported Samples.formatting Samples.upstream
           (lit "search_location") [] []).
  - unfold tool_names. simpl. tauto.
  - exact I.
Defined.

Lemma unknown_tool_is_reported_witness :
  @Weather.handle_call_tool Samples.formatting Samples.upstream
    (lit "bogus_tool") [] []
  = (Ok [ Weather.text_content (lit "Unknown tool: bogus_tool") ], []).
Proof.
  apply (@unknown_tool_is_reported Samples.formatting Samples.upstream
           (lit "bogus_tool") [] []).
  unfold tool_names. intros [E | [E | [E | []]]]; vm_compute in E; discriminate E.
Defined.

Lemma get_coordinates_outcomes_witness :
  @Weather.get_coordinates Samples.formatting Samples.upstream
    (VStr (lit "Bangkok, Thailand")) []
  = (Ok {| Weather.latitude := VFloat 13.7563%float;
           Weather.longitude := VFloat 100.5018%float;
           Weather.name := VStr (lit "Bangkok");
           Weather.country := VStr (lit "Thailand") |},
     [ geocoding_call (VStr (lit "Bangkok, Thailand")) ])
  /\ @Weather.get_coordinates Samples.formatting Samples.upstream
       (VStr (lit "Atlantis")) []
     = (Raise (ValueError (lit "Location 'Atlantis' not found")),
        [ geocoding_call (VStr (lit "Atlantis")) ])
  /\ @Weather.get_coordinates Samples.formatting Samples.upstream_down
       (VStr (lit "Bangkok, Thailand")) []
     = (Raise (ValueError (lit "Location 'Bangkok, Thailand' not found")),
        [ geocoding_call (VStr (lit "Bangkok, Thailand")) ]).
Proof.
  split; [| split].
  - apply (proj1 (@get_coordinates_outcomes Samples.formatting Samples.upstream
                    (VStr (lit "Bangkok, Thailand")) [])
             [ (lit "results", VList [Samples.bangkok]) ]
             [ (lit "latitude", VFloat 13.7563%float);
               (lit "longitude", VFloat 100.5018%float);
               (lit "name", VStr (lit "Bangkok"));
               (lit "country", VStr (lit "Thailand")) ]
             []); reflexivity.
  - apply (proj1 (proj2 (@get_coordinates_outcomes Samples.formatting Samples.upstream
                           (VStr (lit "Atlantis")) []))
             [ (lit "generationtime_ms", VInt 1) ]); reflexivity.
  - apply (proj2 (proj2 (@get_coordinates_outcomes Samples.formatting Samples.upstream_down
                           (VStr (lit "Bangkok, Thailand")) []))
             503%Z (Raise (LibraryError (lit "body is not JSON")))).
    + reflexivity.
    + discriminate.
Defined.

(** C2, the part that fails. Asked for 0 days, [get_forecast] asks the
    upstream for 0 days, not for 1; asked for 30, it asks for 16. *)
Lemma zero_days_sent_as_zero :
  snd (Weather.get_forecast Samples.upstream
         (VFloat 13.7563%float) (VFloat 100.5018%float) (VInt 0) [])
  = [ forecast_call (VFloat 13.7563%float) (VFloat 100.5018%float) (VInt 0) ]
  /\ dict_lookup
       (Weather.params
          (forecast_call (VFloat 13.7563%float) (VFloat 100.5018%float) (VInt 0)))
       (lit "forecast_days")
     = Some (VInt 0)
  /\ snd (Weather.get_forecast Samples.upstream
            (VFloat 13.7563%float) (VFloat 100.5018%float) (VInt 30) [])
     = [ forecast_call (VFloat 13.7563%float) (VFloat 100.5018%float) (VInt 16) ].
Proof. repeat split. Qed.

(** * Properties of the JSON text *)

(** Induction on a value, through its lists and its items. *)
Section ValueInduction.
Variable P : value -> Prop.
Hypothesis HNone : P VNone.
Hypothesis HBool : forall b, P (VBool b).
Hypothesis HInt : forall z, P (VInt z).
Hypothesis HFloat : forall f, P (VFloat f).
Hypothesis HStr : forall s, P (VStr s).
Hypothesis HList : forall l, Forall P l -> P (VList l).
Hypothesis HDict : forall d, Forall (fun kv => P (snd kv)) d -> P (VDict d).

Fixpoint value_nested_ind (v : value) : P v :=
  match v with
  | VNone => HNone
  | VBool b => HBool b
  | VInt z => HInt z
  | VFloat f => HFloat f
  | VStr s => HStr s
  | VList l =>
    HList l
      ((fix items (l : list value) : Forall P l :=
          match l with
          | [] => Forall_nil_2 P
          | v :: l' => Forall_cons_2 P v l' (value_nested_ind v) (items l')
          end) l)
  | VDict d =>
    HDict d
      ((fix items (d : list (pystr * value)) : Forall (fun kv => P (snd kv)) d :=
          match d with
          | [] => Forall_nil_2 _
          | kv :: d' =>
            Forall_cons_2 (fun kv => P (snd kv)) kv d'
                          (value_nested_ind (snd kv)) (items d')
          end) d)
  end.
End ValueInduction.

(** A Python [str]: code points up to U+10FFFF. *)
Definition is_str (s : pystr) : bool := forallb (fun c => c <=? 1114111) s.

(** Every string in a value satisfies [ok]. *)
Fixpoint all_strings (ok : pystr -> bool) (v : value) : bool :=
  match v with
  | VStr s => ok s
  | VList l => forallb (all_strings ok) l
  | VDict d => forallb (fun kv => ok (fst kv) && all_strings ok (snd kv)) d
  | _ => true
  end.

(** A value the interpreter can hold. *)
Definition is_object (v : value) : bool := all_strings is_str v.

Lemma is_ascii_app s t : is_ascii (s ++ t) = is_ascii s && is_ascii t.
Proof. apply forallb_app. Qed.

Lemma is_ascii_join sep parts :
  is_ascii sep = true ->
  Forall (fun p => is_ascii p = true) parts ->
  is_ascii (join sep parts) = true.
Proof.
  intros Hsep Hparts. induction Hparts as [| p ps Hp Hps IH]; [reflexivity |].
  destruct ps as [| q ps]; [exact Hp |].
  change (join sep (p :: q :: ps)) with (p ++ sep ++ join sep (q :: ps)).
  rewrite !is_ascii_app, Hp, Hsep, IH. reflexivity.
Qed.

Lemma uint_chars_ascii d : is_ascii (uint_chars d) = true.
Proof. induction d; simpl; auto. Qed.

Lemma str_of_int_ascii z : is_ascii (str_of_int z) = true.
Proof. destruct z; simpl; unfold str_of_N; auto using uint_chars_ascii. Qed.

Lemma hex_digit_ascii d : d < 16 -> (Json.hex_digit d <? 128) = true.
Proof.
  intros Hd. unfold Json.hex_digit.
  destruct (N.ltb_spec d 10); apply N.ltb_lt; lia.
Qed.

Lemma u_escape_ascii n : n < 65536 -> is_ascii (Json.u_escape n) = true.
Proof.
  intros Hn. unfold Json.u_escape, Json.hex4, is_ascii. cbn [forallb].
  rewrite (hex_digit_ascii (n / 16 / 16 / 16))
    by (repeat apply N.Div0.div_lt_upper_bound; exact Hn).
  rewrite !hex_digit_ascii by (apply N.mod_upper_bound; discriminate).
  reflexivity.
Qed.

Lemma escape_char_ascii c : c <= 1114111 -> is_ascii (Json.escape_char c) = true.
Proof.
  intros Hc. unfold Json.escape_char.
  repeat match goal with
         | |- context [if ?b then _ else _] => destruct b eqn:?
         end; try reflexivity.
  - apply andb_true_iff in Heqb6 as [_ Hle]. apply N.leb_le in Hle.
    unfold is_ascii. cbn [forallb]. rewrite andb_true_r. apply N.ltb_lt. lia.
  - apply u_escape_ascii. now apply N.ltb_lt.
  - apply N.ltb_ge in Heqb7.
    assert ((c - 65536) / 1024 < 1024) by (apply N.Div0.div_lt_upper_bound; lia).
    assert ((c - 65536) mod 1024 < 1024) by (apply N.mod_upper_bound; discriminate).
    rewrite is_ascii_app, !u_escape_ascii by lia. reflexivity.
Qed.

Lemma encode_string_ascii s : is_str s = true -> is_ascii (Json.encode_string s) = true.
Proof.
  intros Hs. unfold Json.encode_string.
  change (34 :: flat_map Json.escape_char s ++ [34])
    with ([34] ++ flat_map Json.escape_char s ++ [34]).
  rewrite !is_ascii_app. cbn [is_ascii forallb N.ltb N.compare Pos.compare Pos.compare_cont andb].
  rewrite andb_true_r.
  induction s as [| c s IH]; [reflexivity |].
  cbn [flat_map]. apply andb_true_iff in Hs as [Hc Hs].
  rewrite is_ascii_app, escape_char_ascii, IH by (auto; now apply N.leb_le).
  reflexivity.
Qed.

Section DumpsAscii.
Context `{Formatting}.

Lemma encode_float_ascii f : is_ascii (Json.encode_float f) = true.
Proof.
  unfold Json.encode_float.
  repeat match goal with
         | |- context [if ?b then _ else _] => destruct b
         end; try reflexivity.
  apply float_repr_ascii.
Qed.

(** The text [json.dumps] writes is ASCII. *)
Lemma dumps_ascii v : is_object v = true -> is_ascii (Json.dumps v) = true.
Proof.
  induction v as [| [] | z | f | s | l IH | d IH] using value_nested_ind;
    intros Hv; try reflexivity.
  - apply str_of_int_ascii.
  - apply encode_float_ascii.
  - now apply encode_string_ascii.
  - cbn [Json.dumps]. rewrite !is_ascii_app.
    rewrite is_ascii_join; [reflexivity | reflexivity |].
    cbn [is_object all_strings] in Hv.
    rewrite Forall_map. rewrite forallb_forall in Hv.
    rewrite List.Forall_forall in IH |- *.
    intros v Hin. apply IH; auto.
  - cbn [Json.dumps]. rewrite !is_ascii_app.
    rewrite is_ascii_join; [reflexivity | reflexivity |].
    cbn [is_object all_strings] in Hv.
    rewrite Forall_map. rewrite forallb_forall in Hv.
    rewrite List.Forall_forall in IH |- *.
    intros [k v] Hin. specialize (Hv _ Hin). specialize (IH _ Hin).
    apply andb_true_iff in Hv as [Hk Hv]. cbn [fst snd] in *.
    rewrite !is_ascii_app, encode_string_ascii, IH by auto. reflexivity.
Qed.
End DumpsAscii.


(** ASCII text is encoded one byte a character, and decoded back. *)
Lemma str_encode_ascii s :
  is_ascii s = true -> str_encode s = Some (map byte_of_N s).
Proof.
  induction s as [| c s IH]; [reflexivity |].
  intros Hs. apply andb_true_iff in Hs as [Hc Hs].
  cbn [str_encode]. unfold utf8_encode_cp. rewrite Hc, (IH Hs). reflexivity.
Qed.


(** ** Strings survive encoding and scanning *)







Lemma scanstring_escape start e c r chunks :
  e <> 117 -> Json.unescape e = Some c ->
  Json.scanstring start (92 :: e :: r) chunks
  = Json.scanstring start r (chunks ++ [c]).
Proof.
  intros H117 He. cbn [Json.scanstring N.eqb Pos.eqb].
  rewrite (proj2 (N.eqb_neq e 117) H117), He. reflexivity.
Qed.






(** ** Integers survive printing and scanning *)

(** What may follow a value in the text [dumps] writes: nothing, a comma,
    or the end of the enclosing list or object. *)
Definition closes (rest : pystr) : Prop :=
  match rest with
  | [] => True
  | c :: _ => c = 44 \/ c = 93 \/ c = 125
  end.







Section Numbers.
Context `{Formatting}.


End Numbers.

(** ** Values survive [dumps] and [scan_once] *)






Lemma skip_ws_closes rest : closes rest -> Json.skip_ws rest = rest.
Proof.
  destruct rest as [| c r]; [reflexivity |].
  intros [-> | [-> | ->]]; reflexivity.
Qed.


Section Scanning.
Context `{Formatting}.










End Scanning.

Section ScanningValues.
Context `{Formatting}.





End ScanningValues.

(** ** [loads] after [dumps] *)




Section Loads.
Context `{Formatting}.


End Loads.

(** ** The scanner does not run out of fuel *)

(** A scan that succeeded consumed at least one character of [s], and did
    not stop for lack of fuel. *)
Definition consumes {A} (r : Json.scan A) (s : pystr) : Prop :=
  match r with
  | Json.Scanned _ rest => (length rest < length s)%nat
  | Json.Malformed _ _ => True
  | Json.OutOfFuel => True
  end.

Definition fueled {A} (r : Json.scan A) : Prop :=
  match r with
  | Json.OutOfFuel => False
  | _ => True
  end.

Lemma consumes_longer {A} (r : Json.scan A) s s' :
  consumes r s' -> (length s' <= length s)%nat -> consumes r s.
Proof. destruct r; cbn; auto; lia. Qed.

Lemma skip_ws_length s : (length (Json.skip_ws s) <= length s)%nat.
Proof.
  induction s as [| c s IH]; [reflexivity |].
  cbn [Json.skip_ws]. destruct (Json.is_ws c); cbn [length]; lia.
Qed.

Lemma scanstring_consumes n :
  forall start s chunks,
    (length s <= n)%nat ->
    consumes (Json.scanstring start s chunks) s
    /\ fueled (Json.scanstring start s chunks).
Proof.
  induction n as [| n IH]; intros start s chunks Hn.
  - destruct s; [cbn; auto | cbn in Hn; lia].
  - destruct s as [| c r]; [cbn; auto |].
    cbn [length] in Hn.
    cbn [Json.scanstring].
    repeat match goal with
           | |- context [if ?b then _ else _] => destruct b
           | |- context [match ?x with _ => _ end] =>
               lazymatch x with
               | Json.scanstring _ _ _ => fail
               | _ => destruct x
               end
           end;
      try (cbn; split; [try exact I; lia | exact I]);
      match goal with
      | |- consumes (Json.scanstring ?st ?r' ?ch) _ /\ _ =>
          destruct (IH st r' ch ltac:(cbn [length] in *; lia)) as [Hc Hf];
          split; [eapply consumes_longer; [exact Hc | cbn [length]; lia] | exact Hf]
      end.
Qed.

Lemma span_digits_length s :
  (length (snd (Json.span_digits s)) <= length s)%nat.
Proof.
  induction s as [| c s IH]; [reflexivity |].
  cbn [Json.span_digits]. destruct (Json.is_digit c); [| reflexivity].
  destruct (Json.span_digits s). cbn [snd length] in *. lia.
Qed.

Lemma match_fraction_length s :
  (length (snd (Json.match_fraction s)) <= length s)%nat.
Proof.
  unfold Json.match_fraction.
  destruct s as [| p [| d r]]; try reflexivity.
  destruct ((p =? 46) && Json.is_digit d); [| reflexivity].
  pose proof (span_digits_length (d :: r)) as Hlen.
  destruct (Json.span_digits (d :: r)). cbn [snd length] in *. lia.
Qed.

Lemma match_exponent_length s :
  (length (snd (Json.match_exponent s)) <= length s)%nat.
Proof.
  unfold Json.match_exponent.
  destruct s as [| e [| x r']]; try reflexivity.
  destruct ((e =? 101) || (e =? 69)); [| reflexivity].
  destruct r' as [| y r''].
  - pose proof (span_digits_length [x]) as Hlen.
    destruct (Json.span_digits [x]) as [[| d ds] rest]; cbn [snd length] in *; lia.
  - destruct ((x =? 45) || (x =? 43)).
    + pose proof (span_digits_length (y :: r'')) as Hlen.
      destruct (Json.span_digits (y :: r'')) as [[| d ds] rest];
        cbn [snd length] in *; lia.
    + pose proof (span_digits_length (x :: y :: r'')) as Hlen.
      destruct (Json.span_digits (x :: y :: r'')) as [[| d ds] rest];
        cbn [snd length] in *; lia.
Qed.

Lemma constant_consumes name v s r :
  Json.constant name v s = Some r ->
  lit name <> [] ->
  (length (snd r) < length s)%nat.
Proof.
  unfold Json.constant. intros Hc Hname.
  destruct (is_prefix (lit name) s) eqn:Hp; [| discriminate].
  injection Hc as <-. cbn [snd].
  destruct (lit name) as [| a n]; [contradiction |].
  destruct s as [| b s]; [discriminate |].
  cbn [length drop]. pose proof (length_drop s (length n)). lia.
Qed.

Lemma match_constant_consumes s r :
  Json.match_constant s = Some r -> (length (snd r) < length s)%nat.
Proof.
  unfold Json.match_constant. intros Hc.
  repeat match type of Hc with
         | match ?x with _ => _ end = _ => destruct x; try discriminate
         end;
    (eapply constant_consumes; [exact Hc | discriminate]).
Qed.

Section Fuel.
Context `{Formatting}.

Lemma match_number_consumes s :
  consumes (Json.match_number s) s /\ fueled (Json.match_number s).
Proof.
  unfold Json.match_number.
  set (sign := match s with
               | c :: r => if c =? 45 then (true, r) else (false, s)
               | [] => (false, s)
               end).
  assert (Hsign : (length (snd sign) <= length s)%nat).
  { subst sign. destruct s as [| c r]; [reflexivity |].
    destruct (c =? 45); cbn [snd length]; lia. }
  destruct sign as [negative r]. cbn [snd] in Hsign.
  destruct r as [| c r']; [cbn; auto |].
  cbn [length] in Hsign.
  set (integer := if (49 <=? c) && (c <=? 57)
                  then let (ds, rest) := Json.span_digits r' in Some (c :: ds, rest)
                  else if c =? 48 then Some ([c], r') else None).
  assert (Hint : match integer with
                 | Some (_, r1) => (length r1 <= length r')%nat
                 | None => True
                 end).
  { subst integer. destruct ((49 <=? c) && (c <=? 57)).
    - pose proof (span_digits_length r'). destruct (Json.span_digits r'). assumption.
    - destruct (c =? 48); [reflexivity | exact I]. }
  destruct integer as [[digits r1] |]; [| cbn; auto].
  pose proof (match_fraction_length r1) as Hfrac.
  destruct (Json.match_fraction r1) as [frac r2]. cbn [snd] in Hfrac.
  pose proof (match_exponent_length r2) as Hexp.
  destruct (Json.match_exponent r2) as [exp r3]. cbn [snd] in Hexp.
  destruct frac, exp; cbn; split; try exact I; lia.
Qed.

(** With more fuel than characters, no scan stops for lack of fuel; and a
    scan that succeeds leaves less text than it was given. *)
Lemma scans_consume fuel :
  (forall s, consumes (Json.scan_once fuel s) s)
  /\ (forall s pairs, consumes (Json.scan_members fuel s pairs) s)
  /\ (forall s items, consumes (Json.scan_elements fuel s items) s).
Proof.
  induction fuel as [| fuel (IHonce & IHmembers & IHelements)];
    [repeat split; intros; exact I |].
  assert (Honce : forall s, consumes (Json.scan_once (S fuel) s) s).
  { intros s. cbn [Json.scan_once].
    destruct s as [| c r]; [exact I |].
    destruct (c =? 34).
    { destruct (scanstring_consumes (length r) (c :: r) r [] (le_n _)) as [Hc _].
      destruct (Json.scanstring (c :: r) r []); cbn in *; auto; lia. }
    destruct (c =? 123).
    { pose proof (skip_ws_length r) as Hws.
      destruct (Json.skip_ws r) as [| c' r'] eqn:E.
      - eapply consumes_longer; [apply IHmembers | cbn; lia].
      - destruct (c' =? 125); [cbn in *; lia |].
        eapply consumes_longer; [apply IHmembers | cbn in *; lia]. }
    destruct (c =? 91).
    { pose proof (skip_ws_length r) as Hws.
      destruct (Json.skip_ws r) as [| c' r'] eqn:E.
      - eapply consumes_longer; [apply IHelements | cbn; lia].
      - destruct (c' =? 93); [cbn in *; lia |].
        eapply consumes_longer; [apply IHelements | cbn in *; lia]. }
    destruct (Json.match_constant (c :: r)) as [[v rest] |] eqn:E.
    - apply match_constant_consumes in E. exact E.
    - apply match_number_consumes. }
  split; [exact Honce |]. split.
  - intros s pairs. cbn [Json.scan_members].
    destruct s as [| q r]; [exact I |].
    destruct (q =? 34); [| exact I].
    destruct (scanstring_consumes (length r) (q :: r) r [] (le_n _)) as [Hk _].
    destruct (Json.scanstring (q :: r) r []) as [k r1 | |]; try exact I.
    cbn in Hk.
    pose proof (skip_ws_length r1) as Hr2.
    destruct (Json.skip_ws r1) as [| colon r3]; [exact I |].
    destruct (colon =? 58); [| exact I].
    pose proof (skip_ws_length r3) as Hr3.
    pose proof (IHonce (Json.skip_ws r3)) as Hv.
    destruct (Json.scan_once fuel (Json.skip_ws r3)) as [v r4 | |]; try exact I.
    cbn in Hv.
    pose proof (skip_ws_length r4) as Hr5.
    destruct (Json.skip_ws r4) as [| c r6]; [exact I |].
    cbn [length] in *.
    destruct (c =? 125); [cbn; lia |].
    destruct (c =? 44); [| exact I].
    pose proof (skip_ws_length r6).
    eapply consumes_longer; [apply IHmembers | cbn [length]; lia].
  - intros s items. cbn [Json.scan_elements].
    pose proof (IHonce s) as Hv.
    destruct (Json.scan_once fuel s) as [v r1 | |]; try exact I.
    cbn in Hv.
    pose proof (skip_ws_length r1) as Hr2.
    destruct (Json.skip_ws r1) as [| c r3]; [exact I |].
    cbn [length] in *.
    destruct (c =? 93); [cbn; lia |].
    destruct (c =? 44); [| exact I].
    pose proof (skip_ws_length r3).
    eapply consumes_longer; [apply IHelements | lia].
Qed.
End Fuel.

Section Fueled.
Context `{Formatting}.

Lemma scans_fueled fuel :
  (forall s, (2 * length s < fuel)%nat -> fueled (Json.scan_once fuel s))
  /\ (forall s pairs,
        (2 * length s + 1 < fuel)%nat -> fueled (Json.scan_members fuel s pairs))
  /\ (forall s items,
        (2 * length s + 1 < fuel)%nat -> fueled (Json.scan_elements fuel s items)).
Proof.
  induction fuel as [| fuel (IHonce & IHmembers & IHelements)];
    [repeat split; intros; lia |].
  split; [| split].
  - intros s Hs. cbn [Json.scan_once].
    destruct s as [| c r]; [exact I |]. cbn [length] in Hs.
    destruct (c =? 34).
    { destruct (scanstring_consumes (length r) (c :: r) r [] (le_n _)) as [_ Hf].
      destruct (Json.scanstring (c :: r) r []); auto. }
    pose proof (skip_ws_length r) as Hws.
    destruct (c =? 123).
    { destruct (Json.skip_ws r) as [| c' r'] eqn:E.
      - apply IHmembers. cbn. lia.
      - destruct (c' =? 125); [exact I |]. apply IHmembers. lia. }
    destruct (c =? 91).
    { destruct (Json.skip_ws r) as [| c' r'] eqn:E.
      - apply IHelements. cbn. lia.
      - destruct (c' =? 93); [exact I |]. apply IHelements. lia. }
    destruct (Json.match_constant (c :: r)) as [[v rest] |]; [exact I |].
    apply match_number_consumes.
  - intros s pairs Hs. cbn [Json.scan_members].
    destruct s as [| q r]; [exact I |]. cbn [length] in Hs.
    destruct (q =? 34); [| exact I].
    destruct (scanstring_consumes (length r) (q :: r) r [] (le_n _)) as [Hk Hf].
    destruct (Json.scanstring (q :: r) r []) as [k r1 | |]; try exact I; [| exact Hf].
    cbn in Hk.
    pose proof (skip_ws_length r1) as Hr2.
    destruct (Json.skip_ws r1) as [| colon r3]; [exact I |].
    destruct (colon =? 58); [| exact I].
    pose proof (skip_ws_length r3) as Hr3. cbn [length] in *.
    pose proof (proj1 (scans_consume fuel) (Json.skip_ws r3)) as Hv.
    pose proof (IHonce (Json.skip_ws r3) ltac:(lia)) as Hfv.
    destruct (Json.scan_once fuel (Json.skip_ws r3)) as [v r4 | |];
      try exact I; [| exact Hfv].
    cbn in Hv.
    pose proof (skip_ws_length r4) as Hr5.
    destruct (Json.skip_ws r4) as [| c r6]; [exact I |].
    cbn [length] in *.
    destruct (c =? 125); [exact I |].
    destruct (c =? 44); [| exact I].
    pose proof (skip_ws_length r6).
    apply IHmembers. lia.
  - intros s items Hs. cbn [Json.scan_elements].
    pose proof (proj1 (scans_consume fuel) s) as Hv.
    pose proof (IHonce s ltac:(lia)) as Hfv.
    destruct (Json.scan_once fuel s) as [v r1 | |]; try exact I; [| exact Hfv].
    cbn in Hv.
    pose proof (skip_ws_length r1) as Hr2.
    destruct (Json.skip_ws r1) as [| c r3]; [exact I |].
    cbn [length] in *.
    destruct (c =? 93); [exact I |].
    destruct (c =? 44); [| exact I].
    pose proof (skip_ws_length r3).
    apply IHelements. lia.
Qed.
End Fueled.

(** [json.loads] returns a value or raises [JSONDecodeError]: the fuel it
    gives the scanner is always enough. *)
Lemma loads_outcome `{Formatting} (doc : pystr) :
  match Json.loads doc with
  | Ok _ => True
  | Raise e => Client.is_json_error e = true
  end.
Proof.
  unfold Json.loads.
  destruct (is_prefix [65279] doc); [reflexivity |].
  pose proof (skip_ws_length doc) as Hws.
  pose proof (proj1 (scans_fueled (S (2 * length doc))) (Json.skip_ws doc)
                ltac:(lia)) as Hfuel.
  destruct (Json.scan_once (S (2 * length doc)) (Json.skip_ws doc))
    as [v rest | msg at_ |]; [| reflexivity | contradiction].
  destruct (Json.skip_ws rest); [exact I | reflexivity].
Qed.

(** * Properties of the client *)

Section ClientProperties.
Context `{Formatting}.
Variable child : pystr -> list bytes -> result bytes.

Import Client.

(** The session once [data] has been written to the child of [st]. *)
Definition sent (st : session) (p : Process) (data : bytes) : session :=
  {| self := {| server_path := server_path (self st);
                process := Some {| written := written p ++ [data];
                                   terminated := terminated p |};
                request_id := request_id (self st) |};
     log := log st |}.

(** In session [st], whose server is started, the line for [request] is
    written and the child's next line is [line]. *)
Definition exchange (st : session) (request : value) (p : Process)
    (data line : bytes) : Prop :=
  process (self st) = Some p
  /\ encode (Json.dumps request ++ nl) = Ok data
  /\ child (server_path (self st)) (written p ++ [data]) = Ok line.

(** What [_send_request] makes of the line it reads. *)
Definition receive (line : bytes) : result value :=
  match decode line with
  | Ok text => Json.loads (strip text)
  | Raise e => Raise e
  end.

(** What [_send_request] does with the line it has read. *)
Definition handle_line (line : bytes) : M session value :=
  if bool_decide (line = []) then
    raise (RuntimeError (lit "Server closed connection"))
  else
    try_except_json
      (text <- lift (decode line) ;;
       response <- lift (Json.loads (strip text)) ;;
       has_error <- lift (contains response (lit "error")) ;;
       if has_error : bool then
         error <- lift (getitem response (KStr (lit "error"))) ;;
         raise (RuntimeError (lit "Server error: " ++ py_str error))
       else ret response)
      (fun e =>
         _ <- logger ERROR (lit "Invalid JSON response: " ++ bytes_repr line) ;;
         raise (RuntimeError (lit "Invalid server response: " ++ exc_str e))).

(** On a started client, [_send_request] writes the line of the request,
    reads a line and handles it. *)
Lemma send_request_started st request p data :
  process (self st) = Some p ->
  encode (Json.dumps request ++ nl) = Ok data ->
  _send_request child request st
  = match child (server_path (self st)) (written p ++ [data]) with
    | Ok line => handle_line line (sent st p data)
    | Raise e => (Raise e, sent st p data)
    end.
Proof.
  intros Hp Henc.
  unfold _send_request, bind, get_self, lift, stdin_write, stdout_readline.
  rewrite Hp. cbn [negb bool_decide fst snd].
  rewrite bool_decide_eq_true_2 by eauto. cbn [negb].
  rewrite Henc, Hp. cbn [self process server_path written].
  fold (sent st p data).
  destruct (child (server_path (self st)) (written p ++ [data])); reflexivity.
Qed.

Lemma send_request_exchange st request p data line :
  exchange st request p data line ->
  _send_request child request st = handle_line line (sent st p data).
Proof.
  intros (Hp & Henc & Hline).
  rewrite (send_request_started _ _ _ _ Hp Henc), Hline. reflexivity.
Qed.

(** An answer that is a JSON object without an ["error"] is returned. *)
Lemma send_request_returns st request p data line d :
  exchange st request p data line ->
  line <> [] ->
  receive line = Ok (VDict d) ->
  dict_lookup d (lit "error") = None ->
  _send_request child request st = (Ok (VDict d), sent st p data).
Proof.
  intros Hex Hline Hrecv Herr.
  rewrite (send_request_exchange _ _ _ _ _ Hex). unfold handle_line.
  rewrite bool_decide_eq_false_2 by assumption.
  unfold receive in Hrecv.
  unfold try_except_json, bind, lift.
  destruct (decode line) as [text | e]; [| discriminate].
  rewrite Hrecv. cbn [contains]. rewrite Herr.
  rewrite bool_decide_eq_false_2 by (intros [? ?]; discriminate).
  reflexivity.
Qed.

(** C3, as the code has it. When the server is started and the request
    written: (1) an empty line read from the child (its stream is closed)
    raises [RuntimeError] "Server closed connection"; (2) a line that
    decodes as UTF-8 and that [json.loads] rejects with a [JSONDecodeError]
    raises [RuntimeError] "Invalid server response: " followed by the
    decoder's description of the error, and the raw line goes to the error
    log, not into the exception; (3) a JSON object with an ["error"] entry
    raises [RuntimeError] "Server error: " followed by that entry; (4) a
    line that is not UTF-8 raises the [UnicodeDecodeError] of [decode] as it
    is, and nothing is logged. *)
Theorem send_request_failures st request p data line :
  exchange st request p data line ->
  (line = [] ->
   _send_request child request st
   = (Raise (RuntimeError (lit "Server closed connection")), sent st p data))
  /\ (forall msg lineno colno pos,
        line <> [] ->
        receive line = Raise (JSONDecodeError msg lineno colno pos) ->
        _send_request child request st
        = (Raise (RuntimeError
                    (lit "Invalid server response: "
                         ++ exc_str (JSONDecodeError msg lineno colno pos))),
           {| self := self (sent st p data);
              log := log st ++ [ (ERROR, lit "Invalid JSON response: "
                                           ++ bytes_repr line) ] |}))
  /\ (forall d error,
        line <> [] ->
        receive line = Ok (VDict d) ->
        dict_lookup d (lit "error") = Some error ->
        _send_request child request st
        = (Raise (RuntimeError (lit "Server error: " ++ py_str error)),
           sent st p data))
  /\ (line <> [] ->
      bytes_decode line = None ->
      _send_request child request st
      = (Raise (UnicodeDecodeError line), sent st p data)).
Proof.
  intros Hex. rewrite (send_request_exchange _ _ _ _ _ Hex). unfold handle_line.
  split; [| split; [| split]].
  - intros ->. reflexivity.
  - intros msg lineno colno pos Hline Hrecv.
    rewrite bool_decide_eq_false_2 by assumption.
    unfold receive in Hrecv.
    unfold try_except_json, bind, lift.
    destruct (decode line) as [text | e].
    + rewrite Hrecv. reflexivity.
    + injection Hrecv as ->. reflexivity.
  - intros d error Hline Hrecv Herr.
    rewrite bool_decide_eq_false_2 by assumption.
    unfold receive in Hrecv.
    unfold try_except_json, bind, lift.
    destruct (decode line) as [text | e]; [| discriminate].
    rewrite Hrecv. cbn [contains]. rewrite Herr.
    rewrite bool_decide_eq_true_2 by eauto.
    cbn [getitem]. rewrite Herr. reflexivity.
  - intros Hline Hbytes.
    rewrite bool_decide_eq_false_2 by assumption.
    unfold try_except_json, bind, lift, decode. rewrite Hbytes. reflexivity.
Qed.

(** The session once the next request id has been taken. *)
Definition issued (st : session) : session :=
  {| self := {| server_path := server_path (self st);
                process := process (self st);
                request_id := request_id (self st) + 1 |};
     log := log st |}.

Definition next_id (st : session) : Z := (request_id (self st) + 1)%Z.

Lemma get_request_id_spec st :
  _get_request_id st = (Ok (next_id st), issued st).
Proof. reflexivity. Qed.

(** C10. The child answers with a JSON object that has neither an
    ["error"] nor a ["result"]: [call_tool] returns [None] and does not
    raise.  [list_tools] returns the empty list when the answer has no
    ["result"], and when its ["result"] has no ["tools"]. *)
Theorem absent_result_is_empty st name arguments p data line d :
  line <> [] ->
  receive line = Ok (VDict d) ->
  dict_lookup d (lit "error") = None ->
  (exchange (issued st) (call_request (next_id st) name arguments) p data line ->
   dict_lookup d (lit "result") = None ->
   call_tool child name arguments st = (Ok VNone, sent (issued st) p data))
  /\ (exchange (issued st) (list_request (next_id st)) p data line ->
      dict_lookup d (lit "result") = None
      \/ (exists r, dict_lookup d (lit "result") = Some (VDict r)
                    /\ dict_lookup r (lit "tools") = None) ->
      list_tools child st = (Ok (VList []), sent (issued st) p data)).
Proof.
  intros Hline Hrecv Herr. split.
  - intros Hex Hres. unfold call_tool, bind at 1.
    rewrite get_request_id_spec. unfold bind.
    rewrite (send_request_returns _ _ _ _ _ _ Hex Hline Hrecv Herr).
    unfold lift, get_method. rewrite Hres. reflexivity.
  - intros Hex Hres. unfold list_tools, bind at 1.
    rewrite get_request_id_spec. unfold bind.
    rewrite (send_request_returns _ _ _ _ _ _ Hex Hline Hrecv Herr).
    unfold lift, get_method.
    destruct Hres as [-> | (r & -> & Htools)]; cbn; [| rewrite Htools]; reflexivity.
Qed.
(** ** Request ids *)

(** Computations that leave a view [f] of the instance as it is: all its
    fields when [f] is the identity, its counter when [f] is
    [request_id]. *)
Definition keeps {X A} (f : MCPClient -> X) (m : M session A) : Prop :=
  forall st, f (self (snd (m st))) = f (self st).

Abbreviation keeps_self := (keeps (fun c : MCPClient => c)).

Section Keeps.
Context {X : Type} (f : MCPClient -> X).

Lemma keeps_bind {A B} (m : M session A) (k : A -> M session B) :
  keeps f m -> (forall a, keeps f (k a)) -> keeps f (bind m k).
Proof.
  intros Hm Hk st. unfold bind. specialize (Hm st).
  destruct (m st) as [[a | e] st']; cbn [snd] in *; [rewrite Hk |]; exact Hm.
Qed.

Lemma keeps_lift {A} (r : result A) : keeps f (lift r).
Proof. intros st. reflexivity. Qed.

Lemma keeps_ret {A} (a : A) : keeps f (ret a).
Proof. intros st. reflexivity. Qed.

Lemma keeps_raise {A} (e : exc) : keeps f (A := A) (raise e).
Proof. intros st. reflexivity. Qed.

Lemma keeps_logger lvl msg : keeps f (logger lvl msg).
Proof. intros st. reflexivity. Qed.

Lemma keeps_get_self : keeps f get_self.
Proof. intros st. reflexivity. Qed.

Lemma keeps_stdout_readline : keeps f (stdout_readline child).
Proof.
  intros st. unfold stdout_readline. destruct (process (self st)); reflexivity.
Qed.

Lemma keeps_try_except_json {A} (body : M session A) handler :
  keeps f body -> (forall e, keeps f (handler e)) ->
  keeps f (try_except_json body handler).
Proof.
  intros Hb Hh st. unfold try_except_json. specialize (Hb st).
  destruct (body st) as [[a | e] st']; cbn [snd] in *; [exact Hb |].
  destruct (is_json_error e); cbn [snd]; [rewrite Hh |]; exact Hb.
Qed.

Lemma keeps_try_except {A} (body : M session A) handler :
  keeps f body -> (forall e, keeps f (handler e)) ->
  keeps f (try_except body handler).
Proof.
  intros Hb Hh st. unfold try_except. specialize (Hb st).
  destruct (body st) as [[a | e] st']; cbn [snd] in *; [exact Hb |].
  rewrite Hh. exact Hb.
Qed.
End Keeps.

(** Writing to the child changes what was written, not the counter. *)
Lemma keeps_id_stdin_write data : keeps request_id (stdin_write data).
Proof.
  intros st. unfold stdin_write. destruct (process (self st)); reflexivity.
Qed.

Ltac keeps_steps :=
  repeat first
    [ apply keeps_lift | apply keeps_ret | apply keeps_raise
    | apply keeps_logger | apply keeps_get_self | apply keeps_stdout_readline
    | apply keeps_id_stdin_write
    | apply keeps_bind; [| intros]
    | apply keeps_try_except_json; [| intros]
    | apply keeps_try_except; [| intros]
    | match goal with
      | |- keeps _ (if ?b then _ else _) => destruct b
      | |- keeps _ (match ?x with _ => _ end) => destruct x
      end ].



(** [chunk] is the line of [message] on the wire. *)
Definition framed (message : value) (chunk : bytes) : Prop :=
  encode (Json.dumps message ++ nl) = Ok chunk.

Lemma framed_object message :
  is_object message = true ->
  framed message (map byte_of_N (Json.dumps message ++ nl)).
Proof.
  intros Hm. unfold framed, encode.
  rewrite str_encode_ascii; [reflexivity |].
  rewrite is_ascii_app, dumps_ascii by assumption. reflexivity.
Qed.

(** Whatever the child answers, [_send_request] on a started client writes
    the line of the request and changes nothing else of the instance. *)
Lemma send_request_self st request p data :
  process (self st) = Some p ->
  framed request data ->
  self (snd (_send_request child request st)) = self (sent st p data).
Proof.
  intros Hp Henc. rewrite (send_request_started _ _ _ _ Hp Henc).
  destruct (child (server_path (self st)) (written p ++ [data])) as [line | e];
    [| reflexivity].
  assert (Hk : keeps_self (handle_line line))
    by (unfold handle_line; keeps_steps).
  apply Hk.
Qed.

Lemma send_notification_spec st notification p data :
  process (self st) = Some p ->
  framed notification data ->
  _send_notification notification st = (Ok tt, sent st p data).
Proof.
  intros Hp Henc. unfold _send_notification, bind, get_self, lift, stdin_write.
  rewrite Hp. cbn [negb fst snd].
  rewrite bool_decide_eq_true_2 by eauto. cbn [negb].
  unfold framed in Henc. rewrite Henc, Hp. reflexivity.
Qed.



(** The instance after [chunks] have been written and one id taken. *)
Definition advanced (c : MCPClient) (p : Process) (chunks : list bytes) : MCPClient :=
  {| server_path := server_path c;
     process := Some {| written := written p ++ chunks; terminated := terminated p |};
     request_id := request_id c + 1 |}.










(** ** Requests on the wire *)

(** A request, as the data model has it, and the message the client
    builds for it. *)
Record Request := {
  req_id : Z;
  req_method : pystr;
  req_params : option value
}.

Definition request_message (r : Request) : value :=
  VDict ([ (lit "jsonrpc", VStr (lit "2.0"));
           (lit "id", VInt (req_id r));
           (lit "method", VStr (req_method r)) ]
           ++ match req_params r with
              | Some p => [ (lit "params", p) ]
              | None => []
              end).

(** The requests of [initialize], [list_tools] and [call_tool] are such
    messages. *)
Lemma client_requests id name arguments :
  init_request id
  = request_message
      {| req_id := id; req_method := lit "initialize";
         req_params :=
           Some (VDict [ (lit "protocolVersion", VStr (lit "2024-11-05"));
                         (lit "capabilities", VDict [ (lit "tools", VDict []) ]);
                         (lit "clientInfo",
                          VDict [ (lit "name", VStr (lit "weather-client"));
                                  (lit "version", VStr (lit "1.0.0")) ]) ]) |}
  /\ list_request id
     = request_message
         {| req_id := id; req_method := lit "tools/list"; req_params := None |}
  /\ call_request id name arguments
     = request_message
         {| req_id := id; req_method := lit "tools/call";
            req_params := Some (VDict [ (lit "name", VStr name);
                                        (lit "arguments", VDict arguments) ]) |}.
Proof. repeat split. Qed.





End ClientProperties.

(** The statements above, at the sample data. *)

Lemma send_request_failures_witness :
  @Client._send_request Samples.formatting Samples.closed_child
    (Client.list_request 1) Samples.started
  = (Raise (RuntimeError (lit "Server closed connection")),
     sent Samples.started
          {| Client.written := []; Client.terminated := false |}
          (Samples.frame (Client.list_request 1)))
  /\ fst (@Client._send_request Samples.formatting Samples.garbled_child
            (Client.list_request 1) Samples.started)
     = Raise (RuntimeError
                (lit "Invalid server response: Expecting value: line 1 column 1 (char 0)"))
  /\ fst (@Client._send_request Samples.formatting Samples.refusing_child
            (Client.list_request 1) Samples.started)
     = Raise (RuntimeError
                (lit "Server error: {'code': -32601, 'message': 'Method not found'}"))
  /\ @Client._send_request Samples.formatting Scenarios.binary_child
       (Client.list_request 1) Samples.started
     = (Raise (UnicodeDecodeError [xff; x0a]),
        sent Samples.started
             {| Client.written := []; Client.terminated := false |}
             (Samples.frame (Client.list_request 1))).
Proof.
  pose (p := {| Client.written := []; Client.terminated := false |}).
  pose (data := Samples.frame (Client.list_request 1)).
  split; [| split; [| split]].
  - apply (proj1 (@send_request_failures Samples.formatting Samples.closed_child
                    Samples.started (Client.list_request 1) p data []
                    (conj eq_refl (conj eq_refl eq_refl)))).
    reflexivity.
  - rewrite (proj1 (proj2 (@send_request_failures Samples.formatting
                             Samples.garbled_child
                             Samples.started (Client.list_request 1) p data
                             (list_byte_of_string "oops" ++ [x0a])
                             (conj eq_refl (conj eq_refl eq_refl))))
               (lit "Expecting value") 1%nat 1%nat 0%nat);
      [reflexivity | discriminate | reflexivity].
  - rewrite (proj1 (proj2 (proj2 (@send_request_failures Samples.formatting
                             Samples.refusing_child
                             Samples.started (Client.list_request 1) p data
                             (Samples.frame
                                (VDict [ (lit "jsonrpc", VStr (lit "2.0"));
                                         (lit "id", VInt 1);
                                         (lit "error", Samples.method_not_found) ]))
                             (conj eq_refl (conj eq_refl eq_refl)))))
               [ (lit "jsonrpc", VStr (lit "2.0"));
                 (lit "id", VInt 1);
                 (lit "error", Samples.method_not_found) ]
               Samples.method_not_found);
      [reflexivity | discriminate | reflexivity | reflexivity].
  - apply (proj2 (proj2 (proj2 (@send_request_failures Samples.formatting
                                  Scenarios.binary_child
                                  Samples.started (Client.list_request 1) p data
                                  [xff; x0a]
                                  (conj eq_refl (conj eq_refl eq_refl)))))).
    + discriminate.
    + reflexivity.
Defined.

(** C3, the part that fails. The line "oops" is not well-formed JSON: the
    exception [_send_request] raises carries the decoder's description and
    not the line, which is found in the error log. *)
Lemma malformed_line_not_in_failure :
  @Client._send_request Samples.formatting Samples.garbled_child
    (Client.list_request 1) Samples.started
  = (Raise (RuntimeError
              (lit "Invalid server response: Expecting value: line 1 column 1 (char 0)")),
     {| Client.self :=
          Client.self (sent Samples.started
                            {| Client.written := []; Client.terminated := false |}
                            (Samples.frame (Client.list_request 1)));
        Client.log :=
          [ (Client.ERROR,
             lit "Invalid JSON response: "
               ++ @bytes_repr Samples.formatting
                    (list_byte_of_string "oops" ++ [x0a])) ] |})
  /\ str_contains
       (lit "Invalid server response: Expecting value: line 1 column 1 (char 0)")
       (lit "oops") = false.
Proof. split; reflexivity. Qed.

Lemma absent_result_is_empty_witness :
  @Client.call_tool Samples.formatting Samples.terse_child
    (lit "search_location") [ (lit "location", VStr (lit "Tokyo")) ] Samples.started
  = (Ok VNone,
     sent (issued Samples.started)
          {| Client.written := []; Client.terminated := false |}
          (Samples.frame
             (Client.call_request 1 (lit "search_location")
                                  [ (lit "location", VStr (lit "Tokyo")) ])))
  /\ @Client.list_tools Samples.formatting Samples.terse_child Samples.started
     = (Ok (VList []),
        sent (issued Samples.started)
             {| Client.written := []; Client.terminated := false |}
             (Samples.frame (Client.list_request 1))).
Proof.
  pose (p := {| Client.written := []; Client.terminated := false |}).
  pose (answer := [ (lit "jsonrpc", VStr (lit "2.0")); (lit "id", VInt 1) ]).
  split.
  - apply (proj1 (@absent_result_is_empty Samples.formatting Samples.terse_child
                    Samples.started (lit "search_location")
                    [ (lit "location", VStr (lit "Tokyo")) ] p
                    (Samples.frame
                       (Client.call_request 1 (lit "search_location")
                                            [ (lit "location", VStr (lit "Tokyo")) ]))
                    (Samples.frame (VDict answer)) answer
                    ltac:(discriminate) eq_refl eq_refl)).
    + repeat split.
    + reflexivity.
  - apply (proj2 (@absent_result_is_empty Samples.formatting Samples.terse_child
                    Samples.started (lit "search_location") [] p
                    (Samples.frame (Client.list_request 1))
                    (Samples.frame (VDict answer)) answer
                    ltac:(discriminate) eq_refl eq_refl)).
    + repeat split.
    + left. reflexivity.
Defined.




(** * Further properties of the server *)

Section ServiceProperties.
Context `{Formatting}.
Variable upstream : Weather.trace -> Weather.http_call -> Weather.upstream_reply.

Import Weather.

(** The one call [get_current_weather] makes. *)
Definition current_call (lat lon : value) : http_call :=
  {| url := BASE_URL;
     params :=
       [ (lit "latitude", lat);
         (lit "longitude", lon);
         (lit "current",
          VStr (lit "temperature_2m,relative_humidity_2m,apparent_temperature,is_day,precipitation,rain,showers,snowfall,weather_code,cloud_cover,pressure_msl,surface_pressure,wind_speed_10m,wind_direction_10m,wind_gusts_10m"));
         (lit "timezone", VStr (lit "auto")) ] |}.

(** An [int], a [bool] or a [float]: what [min(days, 16)] can compare
    with 16. *)
Definition is_number (v : value) : bool :=
  match v with
  | VInt _ | VBool _ | VFloat _ => true
  | _ => false
  end.

Definition not_comparable (days : value) : exc :=
  TypeError (lit "'<' not supported between instances of 'int' and '"
                 ++ type_name days ++ lit "'").

Lemma py_min_16_not_number days :
  is_number days = false -> py_min_16 days = Raise (not_comparable days).
Proof. destruct days; try discriminate; reflexivity. Qed.

Lemma py_min_16_number days :
  is_number days = true -> exists sent, py_min_16 days = Ok sent.
Proof. destruct days; try discriminate; eexists; reflexivity. Qed.

(** X1. [get_current_weather] makes exactly one call, to the forecast
    endpoint with the coordinates it was given.  An answer with status 200
    gives the decoded body (or what decoding the body raised); any other
    status raises [ValueError] "Failed to fetch weather data: <status>";
    a failure of the call itself is passed on. *)
Theorem get_current_weather_outcomes (lat lon : value) (t : trace) :
  snd (get_current_weather upstream lat lon t) = t ++ [ current_call lat lon ]
  /\ (forall json,
        upstream t (current_call lat lon) = Reply 200 json ->
        fst (get_current_weather upstream lat lon t) = json)
  /\ (forall status json,
        upstream t (current_call lat lon) = Reply status json ->
        status <> 200%Z ->
        fst (get_current_weather upstream lat lon t)
        = Raise (ValueError (lit "Failed to fetch weather data: "
                                 ++ str_of_int status)))
  /\ (forall e,
        upstream t (current_call lat lon) = Failed e ->
        fst (get_current_weather upstream lat lon t) = Raise e).
Proof.
  unfold get_current_weather, bind, session_get. fold (current_call lat lon).
  destruct (upstream t (current_call lat lon)) as [status json | e].
  - cbn [fst snd]. repeat split.
    + destruct (status =? 200)%Z; [destruct json |]; reflexivity.
    + intros json' [= -> ->]. destruct json'; reflexivity.
    + intros status' json' [= -> ->] Hstatus.
      destruct (Z.eqb_spec status' 200); [contradiction | reflexivity].
    + discriminate.
  - repeat split; try discriminate. intros e' [= ->]. reflexivity.
Qed.

(** X2. [get_forecast] with a [days] that is not a number (a string,
    [None], a list, a dict) raises the [TypeError] of [min(days, 16)]
    before anything is sent: the trace of calls is unchanged.  With a
    number it makes exactly one call; status 200 gives the decoded body, any
    other status raises [ValueError] "Failed to fetch forecast data:
    <status>", and a failure of the call is passed on. *)
Theorem get_forecast_outcomes (lat lon days : value) (t : trace) :
  (is_number days = false ->
   get_forecast upstream lat lon days t = (Raise (not_comparable days), t))
  /\ (forall sent,
        py_min_16 days = Ok sent ->
        snd (get_forecast upstream lat lon days t)
        = t ++ [ forecast_call lat lon sent ]
        /\ (forall json,
              upstream t (forecast_call lat lon sent) = Reply 200 json ->
              fst (get_forecast upstream lat lon days t) = json)
        /\ (forall status json,
              upstream t (forecast_call lat lon sent) = Reply status json ->
              status <> 200%Z ->
              fst (get_forecast upstream lat lon days t)
              = Raise (ValueError (lit "Failed to fetch forecast data: "
                                       ++ str_of_int status)))
        /\ (forall e,
              upstream t (forecast_call lat lon sent) = Failed e ->
              fst (get_forecast upstream lat lon days t) = Raise e)).
Proof.
  split.
  - intros Hdays. unfold get_forecast, bind, lift.
    rewrite (py_min_16_not_number _ Hdays). reflexivity.
  - intros sent Hsent. unfold get_forecast, bind, lift, session_get.
    rewrite Hsent. fold (forecast_call lat lon sent).
    destruct (upstream t (forecast_call lat lon sent)) as [status json | e].
    + cbn [fst snd]. repeat split.
      * destruct (status =? 200)%Z; [destruct json |]; reflexivity.
      * intros json' [= -> ->]. destruct json'; reflexivity.
      * intros status' json' [= -> ->] Hstatus.
        destruct (Z.eqb_spec status' 200); [contradiction | reflexivity].
      * discriminate.
    + repeat split; try discriminate. intros e' [= ->]. reflexivity.
Qed.
End ServiceProperties.

Section DispatcherProperties.
Context `{Formatting}.
Variable upstream : Weather.trace -> Weather.http_call -> Weather.upstream_reply.

Import Weather.

(** [arguments.get("location")] and [arguments.get("days", 7)] *)
Definition location_of (arguments : dict) : value :=
  default VNone (dict_lookup arguments (lit "location")).

Definition days_of (arguments : dict) : value :=
  default (VInt 7) (dict_lookup arguments (lit "days")).

Lemma handle_current arguments :
  truthy (location_of arguments) = true ->
  handle_call_tool upstream (lit "get_current_weather") arguments
  = try_except (current_weather_text upstream (location_of arguments))
               (error_text "Error getting weather: ").
Proof.
  intros Hloc. unfold handle_call_tool. fold (location_of arguments).
  rewrite Hloc. reflexivity.
Qed.

Lemma handle_forecast arguments :
  truthy (location_of arguments) = true ->
  handle_call_tool upstream (lit "get_weather_forecast") arguments
  = try_except (forecast_text upstream (location_of arguments) (days_of arguments))
               (error_text "Error getting forecast: ").
Proof.
  intros Hloc. unfold handle_call_tool.
  fold (location_of arguments). fold (days_of arguments).
  rewrite Hloc. reflexivity.
Qed.

Lemma handle_search arguments :
  truthy (location_of arguments) = true ->
  handle_call_tool upstream (lit "search_location") arguments
  = try_except (search_text upstream (location_of arguments))
               (error_text "Error searching location: ").
Proof.
  intros Hloc. unfold handle_call_tool. fold (location_of arguments).
  rewrite Hloc. reflexivity.
Qed.

(** What follows a computation and leaves the state alone does not change
    the state the computation ends in. *)
Lemma bind_state {S A B} (m : M S A) (k : A -> M S B) s :
  (forall a, keeps_state (k a)) -> snd (bind m k s) = snd (m s).
Proof.
  intros Hk. unfold bind.
  destruct (m s) as [[a | e] s']; cbn [snd]; [apply Hk | reflexivity].
Qed.

Lemma bind_ok {S A B} (m : M S A) (k : A -> M S B) s a s' :
  m s = (Ok a, s') -> bind m k s = k a s'.
Proof. intros Hm. unfold bind. rewrite Hm. reflexivity. Qed.

Lemma bind_raise {S A B} (m : M S A) (k : A -> M S B) s e s' :
  m s = (Raise e, s') -> bind m k s = (Raise e, s').
Proof. intros Hm. unfold bind. rewrite Hm. reflexivity. Qed.

Lemma try_except_ok {S A} (body : M S A) handler s a s' :
  body s = (Ok a, s') -> try_except body handler s = (Ok a, s').
Proof. intros Hm. unfold try_except. rewrite Hm. reflexivity. Qed.

Lemma try_except_raise {S A} (body : M S A) handler s e s' :
  body s = (Raise e, s') -> try_except body handler s = handler e s'.
Proof. intros Hm. unfold try_except. rewrite Hm. reflexivity. Qed.

Lemma try_except_state {S} (body : M S (list TextContent)) prefix s :
  snd (try_except body (error_text prefix) s) = snd (body s).
Proof. unfold try_except. destruct (body s) as [[items | e] s']; reflexivity. Qed.

Lemma keeps_state_with_unit {S} d units k : keeps_state (S := S) (with_unit d units k).
Proof.
  unfold with_unit.
  repeat first [ apply keeps_state_lift | apply keeps_state_ret
               | apply keeps_state_bind; [| intros] ].
Qed.

Lemma keeps_state_daily_at {S} daily k i : keeps_state (S := S) (daily_at daily k i).
Proof.
  unfold daily_at.
  repeat first [ apply keeps_state_lift | apply keeps_state_bind; [| intros] ].
Qed.

Lemma keeps_state_forecast_loop {S} daily daily_units indices :
  forall text, keeps_state (S := S) (forecast_loop daily daily_units indices text).
Proof.
  induction indices as [| i rest IH]; intros text; cbn [forecast_loop].
  - apply keeps_state_ret.
  - repeat first [ apply keeps_state_lift | apply keeps_state_daily_at | apply IH
                 | apply keeps_state_bind; [| intros] ].
Qed.

Ltac pure_steps :=
  repeat first
    [ apply keeps_state_lift | apply keeps_state_ret | apply keeps_state_raise
    | apply keeps_state_with_unit | apply keeps_state_forecast_loop
    | apply keeps_state_bind; [| intros] ].

Lemma get_current_weather_trace lat lon t :
  snd (get_current_weather upstream lat lon t) = t ++ [ current_call lat lon ].
Proof.
  unfold get_current_weather, bind, session_get. fold (current_call lat lon).
  destruct (upstream t (current_call lat lon)) as [status json | e]; [| reflexivity].
  cbn [fst snd]. destruct (status =? 200)%Z; [destruct json |]; reflexivity.
Qed.

Lemma get_forecast_trace lat lon days t :
  snd (get_forecast upstream lat lon days t)
  = match py_min_16 days with
    | Ok sent => t ++ [ forecast_call lat lon sent ]
    | Raise _ => t
    end.
Proof.
  unfold get_forecast, bind, lift, session_get.
  destruct (py_min_16 days) as [sent | e]; [| reflexivity].
  fold (forecast_call lat lon sent).
  destruct (upstream t (forecast_call lat lon sent)) as [status json | e]; [| reflexivity].
  cbn [fst snd]. destruct (status =? 200)%Z; [destruct json |]; reflexivity.
Qed.

(** The calls each tool makes: the geocoding call, then, when the location
    was resolved, one call to the weather endpoint with its coordinates. *)
Lemma current_weather_text_trace location t :
  snd (current_weather_text upstream location t)
  = match fst (get_coordinates upstream location t) with
    | Ok c => t ++ [ geocoding_call location;
                     current_call (latitude c) (longitude c) ]
    | Raise _ => t ++ [ geocoding_call location ]
    end.
Proof.
  pose proof (get_coordinates_trace upstream location t) as Hgeo.
  unfold current_weather_text. unfold bind at 1.
  destruct (get_coordinates upstream location t) as [[c | e] t1];
    cbn [fst snd] in *; subst t1; [| reflexivity].
  rewrite bind_state by (intros; pure_steps).
  rewrite get_current_weather_trace, <- app_assoc. reflexivity.
Qed.

Lemma forecast_text_trace location days t :
  snd (forecast_text upstream location days t)
  = match fst (get_coordinates upstream location t), py_min_16 days with
    | Ok c, Ok sent => t ++ [ geocoding_call location;
                              forecast_call (latitude c) (longitude c) sent ]
    | _, _ => t ++ [ geocoding_call location ]
    end.
Proof.
  pose proof (get_coordinates_trace upstream location t) as Hgeo.
  unfold forecast_text. unfold bind at 1.
  destruct (get_coordinates upstream location t) as [[c | e] t1];
    cbn [fst snd] in *; subst t1; [| reflexivity].
  rewrite bind_state by (intros; pure_steps).
  rewrite get_forecast_trace.
  destruct (py_min_16 days); [rewrite <- app_assoc |]; reflexivity.
Qed.

Lemma search_text_trace location t :
  snd (search_text upstream location t) = t ++ [ geocoding_call location ].
Proof.
  unfold search_text. rewrite bind_state by (intros; pure_steps).
  apply get_coordinates_trace.
Qed.

(** X3. When the location cannot be resolved, whatever [get_coordinates]
    raised is reported by each tool under its own heading, "Error getting
    weather: ", "Error getting forecast: " or "Error searching location: ",
    and the geocoding call is the only call made: the weather endpoint is
    not contacted. *)
Theorem geocoding_failure_is_reported (arguments : dict) (t : trace) (e : exc) :
  truthy (location_of arguments) = true ->
  fst (get_coordinates upstream (location_of arguments) t) = Raise e ->
  handle_call_tool upstream (lit "get_current_weather") arguments t
  = (Ok [ text_content (lit "Error getting weather: " ++ exc_str e) ],
     t ++ [ geocoding_call (location_of arguments) ])
  /\ handle_call_tool upstream (lit "get_weather_forecast") arguments t
     = (Ok [ text_content (lit "Error getting forecast: " ++ exc_str e) ],
        t ++ [ geocoding_call (location_of arguments) ])
  /\ handle_call_tool upstream (lit "search_location") arguments t
     = (Ok [ text_content (lit "Error searching location: " ++ exc_str e) ],
        t ++ [ geocoding_call (location_of arguments) ]).
Proof.
  intros Hloc Hgeo.
  pose proof (get_coordinates_trace upstream (location_of arguments) t) as Htrace.
  rewrite handle_current, handle_forecast, handle_search by assumption.
  destruct (get_coordinates upstream (location_of arguments) t) as [r t1] eqn:Hrun.
  cbn [fst snd] in *. subst r t1.
  repeat split.
  - erewrite try_except_raise; [reflexivity |].
    unfold current_weather_text. now apply bind_raise.
  - erewrite try_except_raise; [reflexivity |].
    unfold forecast_text. now apply bind_raise.
  - erewrite try_except_raise; [reflexivity |].
    unfold search_text. now apply bind_raise.
Qed.

(** X4. Once the location is resolved, the second call of a weather tool
    goes to the weather endpoint with the coordinates that geocoding
    returned, whatever that endpoint then answers.  The forecast tool asks
    for [min(days, 16)] days, and for 7 days when the arguments have no
    ["days"].  The search tool makes no second call. *)
Theorem weather_calls_use_resolved_coordinates
    (arguments : dict) (t t1 : trace) (c : coords) :
  truthy (location_of arguments) = true ->
  get_coordinates upstream (location_of arguments) t = (Ok c, t1) ->
  snd (handle_call_tool upstream (lit "get_current_weather") arguments t)
  = t ++ [ geocoding_call (location_of arguments);
           current_call (latitude c) (longitude c) ]
  /\ (forall days : Z,
        dict_lookup arguments (lit "days") = Some (VInt days) ->
        snd (handle_call_tool upstream (lit "get_weather_forecast") arguments t)
        = t ++ [ geocoding_call (location_of arguments);
                 forecast_call (latitude c) (longitude c) (VInt (Z.min days 16)) ])
  /\ (dict_lookup arguments (lit "days") = None ->
      snd (handle_call_tool upstream (lit "get_weather_forecast") arguments t)
      = t ++ [ geocoding_call (location_of arguments);
               forecast_call (latitude c) (longitude c) (VInt 7) ])
  /\ snd (handle_call_tool upstream (lit "search_location") arguments t)
     = t ++ [ geocoding_call (location_of arguments) ].
Proof.
  intros Hloc Hgeo.
  rewrite handle_current, handle_forecast, handle_search by assumption.
  rewrite !try_except_state.
  rewrite current_weather_text_trace, forecast_text_trace, search_text_trace.
  rewrite Hgeo. cbn [fst].
  split; [reflexivity |]. split; [| split; [| reflexivity]].
  - intros days Hdays. unfold days_of. rewrite Hdays. unfold default, id, py_min_16.
    replace (if (16 <? days)%Z then VInt 16 else VInt days)
      with (VInt (Z.min days 16))
      by (destruct (Z.ltb_spec 16 days); f_equal; lia).
    reflexivity.
  - intros Hdays. unfold days_of. rewrite Hdays. reflexivity.
Qed.

(** X5. A ["days"] argument that is not a number (a string such as "3",
    [None], a list, a dict) is only found out after the location has been
    resolved: the forecast tool makes the geocoding call, no forecast call,
    and reports the [TypeError] of [min(days, 16)]. *)
Theorem days_not_a_number_is_reported (arguments : dict) (t t1 : trace) (c : coords) :
  truthy (location_of arguments) = true ->
  get_coordinates upstream (location_of arguments) t = (Ok c, t1) ->
  is_number (days_of arguments) = false ->
  handle_call_tool upstream (lit "get_weather_forecast") arguments t
  = (Ok [ text_content
            (lit "Error getting forecast: '<' not supported between instances of 'int' and '"
               ++ type_name (days_of arguments) ++ lit "'") ],
     t ++ [ geocoding_call (location_of arguments) ]).
Proof.
  intros Hloc Hgeo Hdays.
  pose proof (get_coordinates_trace upstream (location_of arguments) t) as Htrace.
  rewrite Hgeo in Htrace. cbn [snd] in Htrace. subst t1.
  rewrite handle_forecast by assumption.
  assert (Hlit : lit "Error getting forecast: '<' not supported between instances of 'int' and '"
                 = lit "Error getting forecast: "
                     ++ lit "'<' not supported between instances of 'int' and '")
    by (vm_compute; reflexivity).
  rewrite Hlit, <- app_assoc.
  change (lit "'<' not supported between instances of 'int' and '"
            ++ type_name (days_of arguments) ++ lit "'")
    with (exc_str (not_comparable (days_of arguments))).
  erewrite try_except_raise; [reflexivity |]. unfold forecast_text.
  rewrite (bind_ok _ _ _ _ _ Hgeo). apply bind_raise.
  unfold get_forecast. apply bind_raise. unfold lift.
  rewrite (py_min_16_not_number _ Hdays). reflexivity.
Qed.

(** X6. Whatever the tool, the arguments and the upstream, a tool call
    makes no call, or the geocoding call for its location alone, or that
    call followed by exactly one call to the weather endpoint: never more
    than two calls, never the weather endpoint first.  The search tool
    never contacts the weather endpoint. *)
Theorem call_tool_makes_at_most_two_calls (name : pystr) (arguments : dict) (t : trace) :
  let after := snd (handle_call_tool upstream name arguments t) in
  let geocoding := geocoding_call (location_of arguments) in
  (after = t
   \/ after = t ++ [ geocoding ]
   \/ exists second, url second = BASE_URL /\ after = t ++ [ geocoding; second ])
  /\ (name = lit "search_location" -> after = t \/ after = t ++ [ geocoding ]).
Proof.
  intros after geocoding. subst after geocoding.
  unfold handle_call_tool. fold (location_of arguments). fold (days_of arguments).
  destruct (str_eqb name (lit "get_current_weather")) eqn:Hcurrent;
    [| destruct (str_eqb name (lit "get_weather_forecast")) eqn:Hforecast;
       [| destruct (str_eqb name (lit "search_location")) eqn:Hsearch ] ].
  - apply bool_decide_eq_true_1 in Hcurrent. subst name.
    split; [| intros E; vm_compute in E; discriminate E].
    destruct (truthy (location_of arguments)); cbn [negb]; [| left; reflexivity].
    rewrite try_except_state, current_weather_text_trace.
    destruct (fst (get_coordinates upstream (location_of arguments) t)) as [c | e];
      [| right; left; reflexivity].
    right; right. eexists. split; [| reflexivity]. reflexivity.
  - apply bool_decide_eq_true_1 in Hforecast. subst name.
    split; [| intros E; vm_compute in E; discriminate E].
    destruct (truthy (location_of arguments)); cbn [negb]; [| left; reflexivity].
    rewrite try_except_state, forecast_text_trace.
    destruct (fst (get_coordinates upstream (location_of arguments) t)) as [c | e];
      [| right; left; reflexivity].
    destruct (py_min_16 (days_of arguments)) as [sent | e];
      [| right; left; reflexivity].
    right; right. eexists. split; [| reflexivity]. reflexivity.
  - assert (Hafter : snd ((if negb (truthy (location_of arguments))
                           then location_required
                           else try_except (search_text upstream (location_of arguments))
                                           (error_text "Error searching location: ")) t) = t
                     \/ snd ((if negb (truthy (location_of arguments))
                              then location_required
                              else try_except (search_text upstream (location_of arguments))
                                              (error_text "Error searching location: ")) t)
                        = t ++ [ geocoding_call (location_of arguments) ]).
    { destruct (truthy (location_of arguments)); cbn [negb]; [| left; reflexivity].
      right. rewrite try_except_state. apply search_text_trace. }
    split; [tauto | intros _; exact Hafter].
  - split; [left; reflexivity |].
    intros ->. apply bool_decide_eq_false_1 in Hsearch. contradiction.
Qed.

(** The geocoding answer has a first candidate with coordinates. *)
Lemma get_coordinates_found location t data candidate more lat lon :
  upstream t (geocoding_call location) = Reply 200 (Ok (VDict data)) ->
  dict_lookup data (lit "results") = Some (VList (VDict candidate :: more)) ->
  dict_lookup candidate (lit "latitude") = Some lat ->
  dict_lookup candidate (lit "longitude") = Some lon ->
  get_coordinates upstream location t
  = (Ok {| latitude := lat;
           longitude := lon;
           name := default location (dict_lookup candidate (lit "name"));
           country := default (VStr []) (dict_lookup candidate (lit "country")) |},
     t ++ [ geocoding_call location ]).
Proof.
  intros Hup Hres Hlat Hlon.
  unfold get_coordinates, bind, session_get. fold (geocoding_call location).
  rewrite Hup. cbn [fst snd Z.eqb Pos.eqb lift get_method getitem].
  rewrite Hres. cbn. rewrite index_of_first. cbn. rewrite Hlat, Hlon. reflexivity.
Qed.

(** X7. The search tool, for a location whose geocoding answer starts with
    a candidate that has coordinates, returns the two lines "Location:
    <name>, <country>" and "Coordinates: <latitude>, <longitude>" of that
    candidate; a candidate without a name is shown under the text that was
    searched for, and one without a country with an empty country. *)
Theorem search_location_reports_first_candidate
    (arguments : dict) (t : trace) (data candidate : dict) (more : list value)
    (lat lon : value) :
  truthy (location_of arguments) = true ->
  upstream t (geocoding_call (location_of arguments)) = Reply 200 (Ok (VDict data)) ->
  dict_lookup data (lit "results") = Some (VList (VDict candidate :: more)) ->
  dict_lookup candidate (lit "latitude") = Some lat ->
  dict_lookup candidate (lit "longitude") = Some lon ->
  handle_call_tool upstream (lit "search_location") arguments t
  = (Ok [ text_content
            (lit "Location: "
               ++ py_str (default (location_of arguments)
                                  (dict_lookup candidate (lit "name")))
               ++ lit ", "
               ++ py_str (default (VStr []) (dict_lookup candidate (lit "country")))
               ++ nl
               ++ lit "Coordinates: " ++ py_str lat ++ lit ", " ++ py_str lon) ],
     t ++ [ geocoding_call (location_of arguments) ]).
Proof.
  intros Hloc Hup Hres Hlat Hlon.
  rewrite handle_search by assumption.
  unfold try_except, search_text, bind.
  rewrite (get_coordinates_found _ _ _ _ _ _ _ Hup Hres Hlat Hlon).
  cbn [ret latitude longitude name country].
  repeat rewrite <- app_assoc. reflexivity.
Qed.

Lemma get_current_weather_200 lat lon t json :
  upstream t (current_call lat lon) = Reply 200 json ->
  get_current_weather upstream lat lon t = (json, t ++ [ current_call lat lon ]).
Proof.
  intros Hup. unfold get_current_weather, bind, session_get.
  fold (current_call lat lon). rewrite Hup. destruct json; reflexivity.
Qed.

Lemma get_forecast_200 lat lon days sent t json :
  py_min_16 days = Ok sent ->
  upstream t (forecast_call lat lon sent) = Reply 200 json ->
  get_forecast upstream lat lon days t = (json, t ++ [ forecast_call lat lon sent ]).
Proof.
  intros Hsent Hup. unfold get_forecast, bind, lift, session_get. rewrite Hsent.
  fold (forecast_call lat lon sent). rewrite Hup. destruct json; reflexivity.
Qed.

Lemma lift_getitem {S} (d : dict) (k : pystr) (v : value) (s : S) :
  dict_lookup d k = Some v -> lift (getitem (VDict d) (KStr k)) s = (Ok v, s).
Proof. intros Hk. unfold lift. cbn [getitem]. rewrite Hk. reflexivity. Qed.

Lemma lift_getitem_missing {S} (d : dict) (k : pystr) (s : S) :
  dict_lookup d k = None ->
  lift (getitem (VDict d) (KStr k)) s = (Raise (KeyError (VStr k)), s).
Proof. intros Hk. unfold lift. cbn [getitem]. rewrite Hk. reflexivity. Qed.

(** X8. An answer of the weather endpoint with status 200 that is an
    object without ["current"], for the current-weather tool, or without
    ["daily"], for the forecast tool, is reported as an error that names
    the missing key, as [str] of a [KeyError] does. *)
Theorem missing_payload_key_is_reported
    (arguments : dict) (t t1 : trace) (c : coords) (payload : dict) :
  truthy (location_of arguments) = true ->
  get_coordinates upstream (location_of arguments) t = (Ok c, t1) ->
  (upstream t1 (current_call (latitude c) (longitude c)) = Reply 200 (Ok (VDict payload)) ->
   dict_lookup payload (lit "current") = None ->
   fst (handle_call_tool upstream (lit "get_current_weather") arguments t)
   = Ok [ text_content (lit "Error getting weather: " ++ str_repr (lit "current")) ])
  /\ (forall sent,
        py_min_16 (days_of arguments) = Ok sent ->
        upstream t1 (forecast_call (latitude c) (longitude c) sent)
        = Reply 200 (Ok (VDict payload)) ->
        dict_lookup payload (lit "daily") = None ->
        fst (handle_call_tool upstream (lit "get_weather_forecast") arguments t)
        = Ok [ text_content (lit "Error getting forecast: " ++ str_repr (lit "daily")) ]).
Proof.
  intros Hloc Hgeo. split.
  - intros Hup Hkey. rewrite handle_current by assumption.
    rewrite (try_except_raise _ _ _ (KeyError (VStr (lit "current")))
               (t1 ++ [ current_call (latitude c) (longitude c) ]));
      [reflexivity |].
    unfold current_weather_text.
    rewrite (bind_ok _ _ _ _ _ Hgeo).
    rewrite (bind_ok _ _ _ _ _ (get_current_weather_200 _ _ _ _ Hup)).
    apply bind_raise. now apply lift_getitem_missing.
  - intros sent Hsent Hup Hkey. rewrite handle_forecast by assumption.
    rewrite (try_except_raise _ _ _ (KeyError (VStr (lit "daily")))
               (t1 ++ [ forecast_call (latitude c) (longitude c) sent ]));
      [reflexivity |].
    unfold forecast_text.
    rewrite (bind_ok _ _ _ _ _ Hgeo).
    rewrite (bind_ok _ _ _ _ _ (get_forecast_200 _ _ _ _ _ _ Hsent Hup)).
    apply bind_raise. now apply lift_getitem_missing.
Qed.

(** A value of the ["current"] object with its unit, as the report prints
    the pair. *)
Definition reading (current units : dict) (k : string) : option pystr :=
  v ← dict_lookup current (lit k);
  u ← dict_lookup units (lit k);
  Some (py_str v ++ py_str u).

Lemma with_unit_reading {S} current units k r (s : S) :
  reading current units k = Some r ->
  with_unit (VDict current) (VDict units) k s = (Ok r, s).
Proof.
  unfold reading, with_unit, bind, lift. cbn [getitem].
  destruct (dict_lookup current (lit k)) as [v |]; [| discriminate].
  destruct (dict_lookup units (lit k)) as [u |]; [| discriminate].
  cbn. intros [= <-]. reflexivity.
Qed.

(** X9. The current-weather report.  When the location is resolved and
    the weather endpoint answers with status 200 and an object whose
    ["current"] has the time, the eight readings (each with its unit in
    ["current_units"]) and ["is_day"], the tool returns the report: the
    resolved name and country, each reading followed by its unit, and
    "Day" or "Night" as ["is_day"] is true or false as a condition. *)
Theorem current_weather_report
    (arguments : dict) (t t1 : trace) (c : coords) (payload current units : dict)
    (time is_day : value)
    (temperature feels_like humidity precipitation wind_speed wind_direction
       pressure cloud_cover : pystr) :
  truthy (location_of arguments) = true ->
  get_coordinates upstream (location_of arguments) t = (Ok c, t1) ->
  upstream t1 (current_call (latitude c) (longitude c)) = Reply 200 (Ok (VDict payload)) ->
  dict_lookup payload (lit "current") = Some (VDict current) ->
  dict_lookup payload (lit "current_units") = Some (VDict units) ->
  dict_lookup current (lit "time") = Some time ->
  reading current units "temperature_2m" = Some temperature ->
  reading current units "apparent_temperature" = Some feels_like ->
  reading current units "relative_humidity_2m" = Some humidity ->
  reading current units "precipitation" = Some precipitation ->
  reading current units "wind_speed_10m" = Some wind_speed ->
  reading current units "wind_direction_10m" = Some wind_direction ->
  reading current units "pressure_msl" = Some pressure ->
  reading current units "cloud_cover" = Some cloud_cover ->
  dict_lookup current (lit "is_day") = Some is_day ->
  handle_call_tool upstream (lit "get_current_weather") arguments t
  = (Ok [ text_content
            (lit "Current weather for " ++ py_str (name c) ++ lit ", "
               ++ py_str (country c) ++ lit ":" ++ nl
               ++ lit "Temperature: " ++ temperature
               ++ lit " (feels like " ++ feels_like ++ lit ")" ++ nl
               ++ lit "Humidity: " ++ humidity ++ nl
               ++ lit "Wind: " ++ wind_speed ++ lit " at " ++ wind_direction
               ++ lit "¬∞" ++ nl
               ++ lit "Pressure: " ++ pressure ++ nl
               ++ lit "Cloud Cover: " ++ cloud_cover ++ nl
               ++ lit "Precipitation: " ++ precipitation ++ nl
               ++ lit "Time of Day: "
               ++ (if truthy is_day then lit "Day" else lit "Night") ++ nl ++ nl
               ++ lit "Data from Open-Meteo API") ],
     t1 ++ [ current_call (latitude c) (longitude c) ]).
Proof.
  intros Hloc Hgeo Hup Hcurrent Hunits Htime H1 H2 H3 H4 H5 H6 H7 H8 Hday.
  rewrite handle_current by assumption.
  erewrite try_except_ok; [reflexivity |].
  unfold current_weather_text.
  rewrite (bind_ok _ _ _ _ _ Hgeo).
  rewrite (bind_ok _ _ _ _ _ (get_current_weather_200 _ _ _ _ Hup)).
  rewrite (bind_ok _ _ _ _ _ (lift_getitem _ _ _ _ Hcurrent)).
  rewrite (bind_ok _ _ _ _ _ (lift_getitem _ _ _ _ Hunits)).
  rewrite (bind_ok _ _ _ _ _ (lift_getitem _ _ _ _ Htime)).
  rewrite (bind_ok _ _ _ _ _ (with_unit_reading _ _ _ _ _ H1)).
  rewrite (bind_ok _ _ _ _ _ (with_unit_reading _ _ _ _ _ H2)).
  rewrite (bind_ok _ _ _ _ _ (with_unit_reading _ _ _ _ _ H3)).
  rewrite (bind_ok _ _ _ _ _ (with_unit_reading _ _ _ _ _ H4)).
  rewrite (bind_ok _ _ _ _ _ (with_unit_reading _ _ _ _ _ H5)).
  rewrite (bind_ok _ _ _ _ _ (with_unit_reading _ _ _ _ _ H6)).
  rewrite (bind_ok _ _ _ _ _ (with_unit_reading _ _ _ _ _ H7)).
  rewrite (bind_ok _ _ _ _ _ (with_unit_reading _ _ _ _ _ H8)).
  rewrite (bind_ok _ _ _ _ _ (lift_getitem _ _ _ _ Hday)).
  unfold ret. repeat rewrite <- app_assoc. reflexivity.
Qed.

(** ** The forecast *)

(** The columns of ["daily"] the forecast reads and the units it prints. *)
Record Daily := {
  dates : list value;
  highs : list value;
  lows : list value;
  rains : list value;
  winds : list value
}.

Record DailyUnits := {
  high_unit : value;
  low_unit : value;
  rain_unit : value;
  wind_unit : value
}.

Definition has_columns (daily : dict) (cols : Daily) : Prop :=
  dict_lookup daily (lit "time") = Some (VList (dates cols))
  /\ dict_lookup daily (lit "temperature_2m_max") = Some (VList (highs cols))
  /\ dict_lookup daily (lit "temperature_2m_min") = Some (VList (lows cols))
  /\ dict_lookup daily (lit "precipitation_sum") = Some (VList (rains cols))
  /\ dict_lookup daily (lit "wind_speed_10m_max") = Some (VList (winds cols)).

Definition has_units (units : dict) (u : DailyUnits) : Prop :=
  dict_lookup units (lit "temperature_2m_max") = Some (high_unit u)
  /\ dict_lookup units (lit "temperature_2m_min") = Some (low_unit u)
  /\ dict_lookup units (lit "precipitation_sum") = Some (rain_unit u)
  /\ dict_lookup units (lit "wind_speed_10m_max") = Some (wind_unit u).

(** Every column has an entry for every date. *)
Definition complete (cols : Daily) : Prop :=
  (length (dates cols) <= length (highs cols))%nat
  /\ (length (dates cols) <= length (lows cols))%nat
  /\ (length (dates cols) <= length (rains cols))%nat
  /\ (length (dates cols) <= length (winds cols))%nat.

(** The lines of one day. *)
Definition day_block (u : DailyUnits) (date high low rain wind : value) : pystr :=
  lit "üìÖ " ++ py_str date ++ lit ":" ++ nl
  ++ lit "  üå°Ô∏è  High: " ++ py_str high ++ py_str (high_unit u)
  ++ lit ", Low: " ++ py_str low ++ py_str (low_unit u) ++ nl
  ++ lit "  üåßÔ∏è  Precipitation: " ++ py_str rain ++ py_str (rain_unit u) ++ nl
  ++ lit "  üí® Max Wind: " ++ py_str wind ++ py_str (wind_unit u) ++ nl ++ nl.

(** The lines of the days, in the order of the columns. *)
Fixpoint day_blocks (u : DailyUnits) (ds hs ls rs ws : list value) : pystr :=
  match ds, hs, ls, rs, ws with
  | d :: ds', h :: hs', l :: ls', r :: rs', w :: ws' =>
    day_block u d h l r w ++ day_blocks u ds' hs' ls' rs' ws'
  | _, _, _, _, _ => []
  end.

Lemma index_of_nat (n i : nat) :
  (i < n)%nat -> index_of n (Z.of_nat i) = Some i.
Proof.
  intros Hi. unfold index_of.
  replace (0 <=? Z.of_nat i)%Z with true by (symmetry; apply Z.leb_le; lia).
  replace (Z.of_nat i <? Z.of_nat n)%Z with true by (symmetry; apply Z.ltb_lt; lia).
  cbn [andb]. now rewrite Nat2Z.id.
Qed.

Lemma index_of_out (n i : nat) :
  (n <= i)%nat -> index_of n (Z.of_nat i) = None.
Proof.
  intros Hi. unfold index_of.
  replace (Z.of_nat i <? Z.of_nat n)%Z with false by (symmetry; apply Z.ltb_ge; lia).
  replace (Z.of_nat i <? 0)%Z with false by (symmetry; apply Z.ltb_ge; lia).
  rewrite andb_false_r. reflexivity.
Qed.

Lemma daily_at_entry {S} (daily : dict) (k : string) (col : list value) (i : nat)
    (v : value) (s : S) :
  dict_lookup daily (lit k) = Some (VList col) ->
  col !! i = Some v ->
  daily_at (VDict daily) k i s = (Ok v, s).
Proof.
  intros Hcol Hv. unfold daily_at, bind, lift. cbn [getitem]. rewrite Hcol.
  cbn [getitem]. rewrite index_of_nat by (eapply lookup_lt_Some; eassumption).
  cbn. rewrite Hv. reflexivity.
Qed.

Lemma daily_at_beyond {S} (daily : dict) (k : string) (col : list value) (i : nat)
    (s : S) :
  dict_lookup daily (lit k) = Some (VList col) ->
  (length col <= i)%nat ->
  daily_at (VDict daily) k i s
  = (Raise (IndexError (lit "list index out of range")), s).
Proof.
  intros Hcol Hi. unfold daily_at, bind, lift. cbn [getitem]. rewrite Hcol.
  cbn [getitem]. rewrite index_of_out by assumption. reflexivity.
Qed.

Section Forecast.
Context {S : Type}.
Variables (daily units : dict) (cols : Daily) (u : DailyUnits).
Hypothesis Hcols : has_columns daily cols.
Hypothesis Hunits : has_units units u.

(** The loop from day [k] on, when the columns are complete: the blocks of
    the remaining days are appended. *)
Lemma forecast_loop_complete (n k : nat) (text : pystr) (s : S) :
  complete cols ->
  (k + n)%nat = length (dates cols) ->
  forecast_loop (VDict daily) (VDict units) (seq k n) text s
  = (Ok (text ++ day_blocks u (drop k (dates cols)) (drop k (highs cols))
                    (drop k (lows cols)) (drop k (rains cols))
                    (drop k (winds cols))), s).
Proof.
  destruct Hcols as (Hd & Hh & Hl & Hr & Hw).
  destruct Hunits as (Uh & Ul & Ur & Uw).
  intros (Ch & Cl & Cr & Cw). revert k text.
  induction n as [| n IH]; intros k text Hlen.
  - cbn [seq forecast_loop]. rewrite (drop_ge (dates cols)) by lia.
    cbn. rewrite app_nil_r. reflexivity.
  - destruct (lookup_lt_is_Some_2 (dates cols) k ltac:(lia)) as [d Ed].
    destruct (lookup_lt_is_Some_2 (highs cols) k ltac:(lia)) as [h Eh].
    destruct (lookup_lt_is_Some_2 (lows cols) k ltac:(lia)) as [l El].
    destruct (lookup_lt_is_Some_2 (rains cols) k ltac:(lia)) as [r Er].
    destruct (lookup_lt_is_Some_2 (winds cols) k ltac:(lia)) as [w Ew].
    cbn [seq forecast_loop].
    rewrite (bind_ok _ _ _ _ _ (daily_at_entry _ _ _ _ _ s Hd Ed)).
    rewrite (bind_ok _ _ _ _ _ (daily_at_entry _ _ _ _ _ s Hh Eh)).
    rewrite (bind_ok _ _ _ _ _ (daily_at_entry _ _ _ _ _ s Hl El)).
    rewrite (bind_ok _ _ _ _ _ (daily_at_entry _ _ _ _ _ s Hr Er)).
    rewrite (bind_ok _ _ _ _ _ (daily_at_entry _ _ _ _ _ s Hw Ew)).
    rewrite (bind_ok _ _ _ _ _ (lift_getitem _ _ _ s Uh)).
    rewrite (bind_ok _ _ _ _ _ (lift_getitem _ _ _ s Ul)).
    rewrite (bind_ok _ _ _ _ _ (lift_getitem _ _ _ s Ur)).
    rewrite (bind_ok _ _ _ _ _ (lift_getitem _ _ _ s Uw)).
    rewrite IH by lia.
    rewrite (drop_S _ _ _ Ed), (drop_S _ _ _ Eh), (drop_S _ _ _ El),
            (drop_S _ _ _ Er), (drop_S _ _ _ Ew).
    cbn [day_blocks]. unfold day_block.
    repeat rewrite <- app_assoc. reflexivity.
Qed.

(** Some column has no entry for day [i]. *)
Definition lacks (i : nat) : Prop :=
  (length (highs cols) <= i)%nat \/ (length (lows cols) <= i)%nat
  \/ (length (rains cols) <= i)%nat \/ (length (winds cols) <= i)%nat.

(** The loop from day [k] on, when a column ends before the dates do: the
    lookup of the first missing entry raises. *)
Lemma forecast_loop_ragged (n k : nat) (text : pystr) (s : S) :
  (k + n)%nat = length (dates cols) ->
  (exists i, (k <= i < k + n)%nat /\ lacks i) ->
  forecast_loop (VDict daily) (VDict units) (seq k n) text s
  = (Raise (IndexError (lit "list index out of range")), s).
Proof.
  destruct Hcols as (Hd & Hh & Hl & Hr & Hw).
  destruct Hunits as (Uh & Ul & Ur & Uw).
  revert k text. induction n as [| n IH]; intros k text Hlen (i & Hi & Hlacks).
  - lia.
  - destruct (lookup_lt_is_Some_2 (dates cols) k ltac:(lia)) as [d Ed].
    cbn [seq forecast_loop].
    rewrite (bind_ok _ _ _ _ _ (daily_at_entry _ _ _ _ _ s Hd Ed)).
    destruct (le_lt_dec (length (highs cols)) k) as [Sh | Lh];
      [apply bind_raise; exact (daily_at_beyond _ _ _ _ s Hh Sh) |].
    destruct (lookup_lt_is_Some_2 (highs cols) k Lh) as [h Eh].
    rewrite (bind_ok _ _ _ _ _ (daily_at_entry _ _ _ _ _ s Hh Eh)).
    destruct (le_lt_dec (length (lows cols)) k) as [Sl | Ll];
      [apply bind_raise; exact (daily_at_beyond _ _ _ _ s Hl Sl) |].
    destruct (lookup_lt_is_Some_2 (lows cols) k Ll) as [l El].
    rewrite (bind_ok _ _ _ _ _ (daily_at_entry _ _ _ _ _ s Hl El)).
    destruct (le_lt_dec (length (rains cols)) k) as [Sr | Lr];
      [apply bind_raise; exact (daily_at_beyond _ _ _ _ s Hr Sr) |].
    destruct (lookup_lt_is_Some_2 (rains cols) k Lr) as [r Er].
    rewrite (bind_ok _ _ _ _ _ (daily_at_entry _ _ _ _ _ s Hr Er)).
    destruct (le_lt_dec (length (winds cols)) k) as [Sw | Lw];
      [apply bind_raise; exact (daily_at_beyond _ _ _ _ s Hw Sw) |].
    destruct (lookup_lt_is_Some_2 (winds cols) k Lw) as [w Ew].
    rewrite (bind_ok _ _ _ _ _ (daily_at_entry _ _ _ _ _ s Hw Ew)).
    rewrite (bind_ok _ _ _ _ _ (lift_getitem _ _ _ s Uh)).
    rewrite (bind_ok _ _ _ _ _ (lift_getitem _ _ _ s Ul)).
    rewrite (bind_ok _ _ _ _ _ (lift_getitem _ _ _ s Ur)).
    rewrite (bind_ok _ _ _ _ _ (lift_getitem _ _ _ s Uw)).
    apply IH; [lia |].
    exists i. split; [| exact Hlacks]. unfold lacks in Hlacks. lia.
Qed.
End Forecast.

(** X10. The forecast report.  When the location is resolved and the
    weather endpoint answers with status 200 and an object whose ["daily"]
    has the five columns as lists, each with an entry for every date, and
    whose ["daily_units"] has the four units, the tool returns the heading,
    one block per date of the answer, in the order of the answer, and the
    closing line.  The heading repeats the number of days that was asked
    for, not the number that was sent ([min(days, 16)]) nor the number of
    blocks. *)
Theorem forecast_report
    (arguments : dict) (t t1 : trace) (c : coords) (sent : value)
    (payload daily units : dict) (cols : Daily) (u : DailyUnits) :
  truthy (location_of arguments) = true ->
  get_coordinates upstream (location_of arguments) t = (Ok c, t1) ->
  py_min_16 (days_of arguments) = Ok sent ->
  upstream t1 (forecast_call (latitude c) (longitude c) sent)
  = Reply 200 (Ok (VDict payload)) ->
  dict_lookup payload (lit "daily") = Some (VDict daily) ->
  dict_lookup payload (lit "daily_units") = Some (VDict units) ->
  has_columns daily cols ->
  has_units units u ->
  complete cols ->
  handle_call_tool upstream (lit "get_weather_forecast") arguments t
  = (Ok [ text_content
            (lit "Weather forecast for " ++ py_str (name c) ++ lit ", "
               ++ py_str (country c) ++ lit " (" ++ py_str (days_of arguments)
               ++ lit " days):" ++ nl ++ nl
               ++ day_blocks u (dates cols) (highs cols) (lows cols)
                    (rains cols) (winds cols)
               ++ lit "Data from Open-Meteo API") ],
     t1 ++ [ forecast_call (latitude c) (longitude c) sent ]).
Proof.
  intros Hloc Hgeo Hsent Hup Hdaily Hunits Hcols Hu Hcomplete.
  rewrite handle_forecast by assumption.
  erewrite try_except_ok; [reflexivity |].
  unfold forecast_text.
  rewrite (bind_ok _ _ _ _ _ Hgeo).
  rewrite (bind_ok _ _ _ _ _ (get_forecast_200 _ _ _ _ _ _ Hsent Hup)).
  rewrite (bind_ok _ _ _ _ _ (lift_getitem _ _ _ _ Hdaily)).
  rewrite (bind_ok _ _ _ _ _ (lift_getitem _ _ _ _ Hunits)).
  rewrite (bind_ok _ _ _ _ _ (lift_getitem _ _ _ _ (proj1 Hcols))).
  unfold bind at 1. cbn [lift py_len].
  rewrite (bind_ok _ _ _ _ _
             (forecast_loop_complete daily units cols u Hcols Hu _ 0 _ _ Hcomplete eq_refl)).
  unfold ret. rewrite !drop_0. repeat rewrite <- app_assoc. reflexivity.
Qed.

(** X11. With the same answer, except that one of the four columns of
    values is shorter than the column of dates, no partial forecast is
    returned: the tool reports "Error getting forecast: list index out of
    range". *)
Theorem ragged_forecast_is_reported
    (arguments : dict) (t t1 : trace) (c : coords) (sent : value)
    (payload daily units : dict) (cols : Daily) (u : DailyUnits) :
  truthy (location_of arguments) = true ->
  get_coordinates upstream (location_of arguments) t = (Ok c, t1) ->
  py_min_16 (days_of arguments) = Ok sent ->
  upstream t1 (forecast_call (latitude c) (longitude c) sent)
  = Reply 200 (Ok (VDict payload)) ->
  dict_lookup payload (lit "daily") = Some (VDict daily) ->
  dict_lookup payload (lit "daily_units") = Some (VDict units) ->
  has_columns daily cols ->
  has_units units u ->
  ~ complete cols ->
  handle_call_tool upstream (lit "get_weather_forecast") arguments t
  = (Ok [ text_content (lit "Error getting forecast: list index out of range") ],
     t1 ++ [ forecast_call (latitude c) (longitude c) sent ]).
Proof.
  intros Hloc Hgeo Hsent Hup Hdaily Hunits Hcols Hu Hragged.
  rewrite handle_forecast by assumption.
  assert (Hlit : lit "Error getting forecast: list index out of range"
                 = lit "Error getting forecast: "
                     ++ exc_str (IndexError (lit "list index out of range")))
    by (vm_compute; reflexivity).
  rewrite Hlit.
  erewrite try_except_raise; [reflexivity |].
  unfold forecast_text.
  rewrite (bind_ok _ _ _ _ _ Hgeo).
  rewrite (bind_ok _ _ _ _ _ (get_forecast_200 _ _ _ _ _ _ Hsent Hup)).
  rewrite (bind_ok _ _ _ _ _ (lift_getitem _ _ _ _ Hdaily)).
  rewrite (bind_ok _ _ _ _ _ (lift_getitem _ _ _ _ Hunits)).
  rewrite (bind_ok _ _ _ _ _ (lift_getitem _ _ _ _ (proj1 Hcols))).
  unfold bind at 1. cbn [lift py_len].
  apply bind_raise.
  apply (forecast_loop_ragged daily units cols u Hcols Hu); [reflexivity |].
  unfold complete in Hragged. unfold lacks.
  destruct (le_lt_dec (length (dates cols)) (length (highs cols)));
    [| exists (length (highs cols)); lia].
  destruct (le_lt_dec (length (dates cols)) (length (lows cols)));
    [| exists (length (lows cols)); lia].
  destruct (le_lt_dec (length (dates cols)) (length (rains cols)));
    [| exists (length (rains cols)); lia].
  destruct (le_lt_dec (length (dates cols)) (length (winds cols)));
    [| exists (length (winds cols)); lia].
  exfalso. apply Hragged. lia.
Qed.
End DispatcherProperties.

(** The statements above, at the scenarios. *)

Lemma get_current_weather_outcomes_witness :
  fst (Weather.get_current_weather (Scenarios.upstream_with Scenarios.current_payload)
         (VFloat 13.7563%float) (VFloat 100.5018%float) [])
  = Ok (VDict Scenarios.current_payload)
  /\ fst (Weather.get_current_weather Samples.upstream
            (VFloat 13.7563%float) (VFloat 100.5018%float) [])
     = Raise (ValueError (lit "Failed to fetch weather data: 503"))
  /\ fst (Weather.get_current_weather Scenarios.unreachable
            (VFloat 13.7563%float) (VFloat 100.5018%float) [])
     = Raise (LibraryError (lit "Cannot connect to host")).
Proof.
  split; [| split].
  - apply (proj1 (proj2 (get_current_weather_outcomes
                           (Scenarios.upstream_with Scenarios.current_payload)
                           (VFloat 13.7563%float) (VFloat 100.5018%float) []))).
    reflexivity.
  - apply (proj1 (proj2 (proj2 (get_current_weather_outcomes Samples.upstream
                                  (VFloat 13.7563%float) (VFloat 100.5018%float) [])))
             503%Z (Raise (LibraryError (lit "body is not JSON")))).
    + reflexivity.
    + discriminate.
  - apply (proj2 (proj2 (proj2 (get_current_weather_outcomes Scenarios.unreachable
                                  (VFloat 13.7563%float) (VFloat 100.5018%float) [])))).
    reflexivity.
Defined.

Lemma get_forecast_outcomes_witness :
  Weather.get_forecast (Scenarios.upstream_with (Scenarios.forecast_payload [ VInt 0; VInt 12 ]))
    (VFloat 13.7563%float) (VFloat 100.5018%float) (VStr (lit "3")) []
  = (Raise (TypeError (lit "'<' not supported between instances of 'int' and 'str'")), [])
  /\ fst (Weather.get_forecast (Scenarios.upstream_with (Scenarios.forecast_payload [ VInt 0; VInt 12 ]))
            (VFloat 13.7563%float) (VFloat 100.5018%float) (VInt 30) [])
     = Ok (VDict (Scenarios.forecast_payload [ VInt 0; VInt 12 ]))
  /\ fst (Weather.get_forecast Samples.upstream
            (VFloat 13.7563%float) (VFloat 100.5018%float) (VInt 3) [])
     = Raise (ValueError (lit "Failed to fetch forecast data: 503")).
Proof.
  split; [| split].
  - apply (proj1 (get_forecast_outcomes
                    (Scenarios.upstream_with (Scenarios.forecast_payload [ VInt 0; VInt 12 ]))
                    (VFloat 13.7563%float) (VFloat 100.5018%float) (VStr (lit "3")) [])).
    reflexivity.
  - apply (proj1 (proj2 (proj2 (get_forecast_outcomes
                                  (Scenarios.upstream_with (Scenarios.forecast_payload [ VInt 0; VInt 12 ]))
                                  (VFloat 13.7563%float) (VFloat 100.5018%float)
                                  (VInt 30) [])
                                (VInt 16) eq_refl))).
    reflexivity.
  - apply (proj1 (proj2 (proj2 (proj2 (get_forecast_outcomes Samples.upstream
                                         (VFloat 13.7563%float) (VFloat 100.5018%float)
                                         (VInt 3) [])
                                       (VInt 3) eq_refl)))
             503%Z (Raise (LibraryError (lit "body is not JSON")))).
    + reflexivity.
    + discriminate.
Defined.

Lemma geocoding_failure_is_reported_witness :
  @Weather.handle_call_tool Samples.formatting Samples.upstream
    (lit "get_current_weather") [ (lit "location", VStr (lit "Atlantis")) ] []
  = (Ok [ Weather.text_content
            (lit "Error getting weather: Location 'Atlantis' not found") ],
     [ geocoding_call (VStr (lit "Atlantis")) ])
  /\ @Weather.handle_call_tool Samples.formatting Samples.upstream
       (lit "get_weather_forecast") [ (lit "location", VStr (lit "Atlantis")) ] []
     = (Ok [ Weather.text_content
               (lit "Error getting forecast: Location 'Atlantis' not found") ],
        [ geocoding_call (VStr (lit "Atlantis")) ])
  /\ @Weather.handle_call_tool Samples.formatting Samples.upstream
       (lit "search_location") [ (lit "location", VStr (lit "Atlantis")) ] []
     = (Ok [ Weather.text_content
               (lit "Error searching location: Location 'Atlantis' not found") ],
        [ geocoding_call (VStr (lit "Atlantis")) ]).
Proof.
  apply (@geocoding_failure_is_reported Samples.formatting Samples.upstream
           [ (lit "location", VStr (lit "Atlantis")) ] []
           (ValueError (lit "Location 'Atlantis' not found")));
    reflexivity.
Defined.

Lemma weather_calls_use_resolved_coordinates_witness :
  snd (@Weather.handle_call_tool Samples.formatting Samples.upstream
         (lit "get_current_weather") Scenarios.in_bangkok [])
  = [ geocoding_call (VStr (lit "Bangkok, Thailand"));
      current_call (VFloat 13.7563%float) (VFloat 100.5018%float) ]
  /\ snd (@Weather.handle_call_tool Samples.formatting Samples.upstream
            (lit "get_weather_forecast") Scenarios.in_bangkok [])
     = [ geocoding_call (VStr (lit "Bangkok, Thailand"));
         forecast_call (VFloat 13.7563%float) (VFloat 100.5018%float) (VInt 7) ]
  /\ snd (@Weather.handle_call_tool Samples.formatting Samples.upstream
            (lit "get_weather_forecast")
            (Scenarios.in_bangkok ++ [ (lit "days", VInt 30) ]) [])
     = [ geocoding_call (VStr (lit "Bangkok, Thailand"));
         forecast_call (VFloat 13.7563%float) (VFloat 100.5018%float) (VInt 16) ].
Proof.
  split; [| split].
  - apply (proj1 (@weather_calls_use_resolved_coordinates Samples.formatting
                    Samples.upstream Scenarios.in_bangkok []
                    [ geocoding_call (VStr (lit "Bangkok, Thailand")) ]
                    Scenarios.bangkok_coords eq_refl eq_refl)).
  - apply (proj1 (proj2 (proj2 (@weather_calls_use_resolved_coordinates
                                  Samples.formatting
                                  Samples.upstream Scenarios.in_bangkok []
                                  [ geocoding_call (VStr (lit "Bangkok, Thailand")) ]
                                  Scenarios.bangkok_coords eq_refl eq_refl)))).
    reflexivity.
  - apply (proj1 (proj2 (@weather_calls_use_resolved_coordinates
                           Samples.formatting Samples.upstream
                           (Scenarios.in_bangkok ++ [ (lit "days", VInt 30) ]) []
                           [ geocoding_call (VStr (lit "Bangkok, Thailand")) ]
                           Scenarios.bangkok_coords eq_refl eq_refl))
             30%Z).
    reflexivity.
Defined.

Lemma days_not_a_number_is_reported_witness :
  @Weather.handle_call_tool Samples.formatting
    (Scenarios.upstream_with (Scenarios.forecast_payload [ VInt 0; VInt 12 ]))
    (lit "get_weather_forecast")
    (Scenarios.in_bangkok ++ [ (lit "days", VStr (lit "3")) ]) []
  = (Ok [ Weather.text_content
            (lit "Error getting forecast: '<' not supported between instances of 'int' and '"
               ++ lit "str" ++ lit "'") ],
     [ geocoding_call (VStr (lit "Bangkok, Thailand")) ]).
Proof.
  apply (@days_not_a_number_is_reported Samples.formatting
           (Scenarios.upstream_with (Scenarios.forecast_payload [ VInt 0; VInt 12 ]))
           (Scenarios.in_bangkok ++ [ (lit "days", VStr (lit "3")) ]) []
           [ geocoding_call (VStr (lit "Bangkok, Thailand")) ]
           Scenarios.bangkok_coords);
    reflexivity.
Defined.

Lemma search_location_reports_first_candidate_witness :
  @Weather.handle_call_tool Samples.formatting Samples.upstream
    (lit "search_location") Scenarios.in_bangkok []
  = (Ok [ Weather.text_content
            (lit "Location: " ++ lit "Bangkok" ++ lit ", " ++ lit "Thailand"
               ++ Weather.nl
               ++ lit "Coordinates: " ++ lit "<float>" ++ lit ", " ++ lit "<float>") ],
     [ geocoding_call (VStr (lit "Bangkok, Thailand")) ]).
Proof.
  apply (@search_location_reports_first_candidate Samples.formatting Samples.upstream
           Scenarios.in_bangkok []
           [ (lit "results", VList [Samples.bangkok]) ]
           [ (lit "latitude", VFloat 13.7563%float);
             (lit "longitude", VFloat 100.5018%float);
             (lit "name", VStr (lit "Bangkok"));
             (lit "country", VStr (lit "Thailand")) ]
           [] (VFloat 13.7563%float) (VFloat 100.5018%float));
    reflexivity.
Defined.

Lemma missing_payload_key_is_reported_witness :
  fst (@Weather.handle_call_tool Samples.formatting
         (Scenarios.upstream_with [ (lit "error", VBool true) ])
         (lit "get_current_weather") Scenarios.in_bangkok [])
  = Ok [ Weather.text_content (lit "Error getting weather: 'current'") ]
  /\ fst (@Weather.handle_call_tool Samples.formatting
            (Scenarios.upstream_with [ (lit "error", VBool true) ])
            (lit "get_weather_forecast") Scenarios.in_bangkok [])
     = Ok [ Weather.text_content (lit "Error getting forecast: 'daily'") ].
Proof.
  split.
  - apply (proj1 (@missing_payload_key_is_reported Samples.formatting
                    (Scenarios.upstream_with [ (lit "error", VBool true) ])
                    Scenarios.in_bangkok []
                    [ geocoding_call (VStr (lit "Bangkok, Thailand")) ]
                    Scenarios.bangkok_coords [ (lit "error", VBool true) ]
                    eq_refl eq_refl));
      reflexivity.
  - apply (proj2 (@missing_payload_key_is_reported Samples.formatting
                    (Scenarios.upstream_with [ (lit "error", VBool true) ])
                    Scenarios.in_bangkok []
                    [ geocoding_call (VStr (lit "Bangkok, Thailand")) ]
                    Scenarios.bangkok_coords [ (lit "error", VBool true) ]
                    eq_refl eq_refl)
             (VInt 7));
      reflexivity.
Defined.

Lemma current_weather_report_witness :
  @Weather.handle_call_tool Samples.formatting
    (Scenarios.upstream_with Scenarios.current_payload)
    (lit "get_current_weather") Scenarios.in_bangkok []
  = (Ok [ Weather.text_content
            (lit "Current weather for Bangkok, Thailand:" ++ Weather.nl
               ++ lit "Temperature: 31C (feels like 36C)" ++ Weather.nl
               ++ lit "Humidity: 70%" ++ Weather.nl
               ++ lit "Wind: 9km/h at 180¬∞" ++ Weather.nl
               ++ lit "Pressure: 1008hPa" ++ Weather.nl
               ++ lit "Cloud Cover: 40%" ++ Weather.nl
               ++ lit "Precipitation: 0mm" ++ Weather.nl
               ++ lit "Time of Day: Day" ++ Weather.nl ++ Weather.nl
               ++ lit "Data from Open-Meteo API") ],
     [ geocoding_call (VStr (lit "Bangkok, Thailand"));
       current_call (VFloat 13.7563%float) (VFloat 100.5018%float) ]).
Proof.
  apply (@current_weather_report Samples.formatting
           (Scenarios.upstream_with Scenarios.current_payload)
           Scenarios.in_bangkok []
           [ geocoding_call (VStr (lit "Bangkok, Thailand")) ]
           Scenarios.bangkok_coords
           Scenarios.current_payload Scenarios.current Scenarios.current_units
           (VStr (lit "2024-05-01T12:00")) (VInt 1)
           (lit "31C") (lit "36C") (lit "70%") (lit "0mm") (lit "9km/h") (lit "180")
           (lit "1008hPa") (lit "40%"));
    reflexivity.
Defined.

Definition two_days : Daily :=
  {| dates := [ VStr (lit "2024-05-01"); VStr (lit "2024-05-02") ];
     highs := [ VInt 34; VInt 35 ];
     lows := [ VInt 26; VInt 27 ];
     rains := [ VInt 0; VInt 12 ];
     winds := [ VInt 11; VInt 14 ] |}.

Definition metric : DailyUnits :=
  {| high_unit := VStr (lit "C");
     low_unit := VStr (lit "C");
     rain_unit := VStr (lit "mm");
     wind_unit := VStr (lit "km/h") |}.

Lemma forecast_report_witness :
  @Weather.handle_call_tool Samples.formatting
    (Scenarios.upstream_with (Scenarios.forecast_payload [ VInt 0; VInt 12 ]))
    (lit "get_weather_forecast")
    (Scenarios.in_bangkok ++ [ (lit "days", VInt 30) ]) []
  = (Ok [ Weather.text_content
            (lit "Weather forecast for " ++ lit "Bangkok" ++ lit ", "
               ++ lit "Thailand" ++ lit " (" ++ lit "30"
               ++ lit " days):" ++ Weather.nl ++ Weather.nl
               ++ @day_blocks Samples.formatting metric
                    (dates two_days) (highs two_days) (lows two_days)
                    (rains two_days) (winds two_days)
               ++ lit "Data from Open-Meteo API") ],
     [ geocoding_call (VStr (lit "Bangkok, Thailand"));
       forecast_call (VFloat 13.7563%float) (VFloat 100.5018%float) (VInt 16) ]).
Proof.
  apply (@forecast_report Samples.formatting
           (Scenarios.upstream_with (Scenarios.forecast_payload [ VInt 0; VInt 12 ]))
           (Scenarios.in_bangkok ++ [ (lit "days", VInt 30) ]) []
           [ geocoding_call (VStr (lit "Bangkok, Thailand")) ]
           Scenarios.bangkok_coords (VInt 16)
           (Scenarios.forecast_payload [ VInt 0; VInt 12 ])
           (Scenarios.daily [ VInt 0; VInt 12 ]) Scenarios.daily_units
           two_days metric);
    try reflexivity.
  - repeat split.
  - repeat split.
  - unfold complete. cbn. lia.
Defined.

Lemma ragged_forecast_is_reported_witness :
  @Weather.handle_call_tool Samples.formatting
    (Scenarios.upstream_with (Scenarios.forecast_payload [ VInt 0 ]))
    (lit "get_weather_forecast") Scenarios.in_bangkok []
  = (Ok [ Weather.text_content (lit "Error getting forecast: list index out of range") ],
     [ geocoding_call (VStr (lit "Bangkok, Thailand"));
       forecast_call (VFloat 13.7563%float) (VFloat 100.5018%float) (VInt 7) ]).
Proof.
  apply (@ragged_forecast_is_reported Samples.formatting
           (Scenarios.upstream_with (Scenarios.forecast_payload [ VInt 0 ]))
           Scenarios.in_bangkok []
           [ geocoding_call (VStr (lit "Bangkok, Thailand")) ]
           Scenarios.bangkok_coords (VInt 7)
           (Scenarios.forecast_payload [ VInt 0 ])
           (Scenarios.daily [ VInt 0 ]) Scenarios.daily_units
           {| dates := dates two_days; highs := highs two_days; lows := lows two_days;
              rains := [ VInt 0 ]; winds := winds two_days |}
           metric);
    try reflexivity.
  - repeat split.
  - repeat split.
  - unfold complete. cbn. lia.
Defined.

(** * Further properties of the client

    The model of the pipes records a line when it is handed to the child's
    input and lets a read fail; a write that fails once the line is handed
    over (in [drain]) and a read that never ends are not part of it.  What
    is said below about [_send_notification] and the methods that end with
    it is therefore said of the session they end in, and what is said of a
    method that reads is said for a read that comes to an end. *)

Section ClientFurther.
Context `{Formatting}.
Variable spawn : pystr -> result unit.
Variable child : pystr -> list bytes -> result bytes.

Import Client.

Definition not_started : exc := RuntimeError (lit "Server not started").

(** The line of a message whose text is ASCII. *)
Definition line_of (message : value) : bytes :=
  map byte_of_N (Json.dumps message ++ nl).

Lemma send_request_not_started st request :
  process (self st) = None ->
  _send_request child request st = (Raise not_started, st).
Proof.
  intros Hp. unfold _send_request, bind, get_self. rewrite Hp. reflexivity.
Qed.

(** X12. On a client whose server was not started, [_send_request] and
    [_send_notification] raise [RuntimeError] "Server not started" and
    change nothing.  [initialize], [list_tools] and [call_tool] raise the
    same error, write nothing and log nothing, but have taken a request id:
    the counter has advanced by one. *)
Theorem calls_before_start_are_refused (st : session) :
  process (self st) = None ->
  (forall request, _send_request child request st = (Raise not_started, st))
  /\ (forall notification,
        _send_notification notification st = (Raise not_started, st))
  /\ initialize child st = (Raise not_started, issued st)
  /\ list_tools child st = (Raise not_started, issued st)
  /\ (forall name arguments,
        call_tool child name arguments st = (Raise not_started, issued st)).
Proof.
  intros Hp.
  assert (Hissued : forall request,
             _send_request child request (issued st) = (Raise not_started, issued st))
    by (intros; now apply send_request_not_started).
  repeat split.
  - intros request. now apply send_request_not_started.
  - intros notification. unfold _send_notification, bind, get_self.
    rewrite Hp. reflexivity.
  - unfold initialize. unfold bind at 1. rewrite get_request_id_spec.
    unfold bind. rewrite Hissued. reflexivity.
  - unfold list_tools. unfold bind at 1. rewrite get_request_id_spec.
    unfold bind. rewrite Hissued. reflexivity.
  - intros name arguments. unfold call_tool. unfold bind at 1.
    rewrite get_request_id_spec. unfold bind. rewrite Hissued. reflexivity.
Qed.

Lemma handle_line_ok line st v st1 :
  handle_line line st = (Ok v, st1) -> st1 = st.
Proof.
  unfold handle_line. destruct (bool_decide (line = [])); [discriminate |].
  unfold try_except_json, bind, lift, logger, raise, ret.
  destruct (decode line) as [text | e];
    [| destruct (is_json_error e); discriminate].
  destruct (Json.loads (strip text)) as [response | e];
    [| destruct (is_json_error e); discriminate].
  destruct (contains response (lit "error")) as [[] | e];
    [| | destruct (is_json_error e); discriminate].
  - destruct (getitem response (KStr (lit "error"))) as [error | e];
      [| destruct (is_json_error e)]; discriminate.
  - now intros [= _ <-].
Qed.

(** A request that is answered has been written to a started server, and
    nothing else has changed. *)
Lemma send_request_ok st request response st1 :
  _send_request child request st = (Ok response, st1) ->
  exists p data,
    process (self st) = Some p /\ framed request data /\ st1 = sent st p data.
Proof.
  intros Hrun. destruct (process (self st)) as [p |] eqn:Hp.
  - destruct (encode (Json.dumps request ++ nl)) as [data | e] eqn:Hdata.
    + exists p, data. split; [reflexivity |]. split; [exact Hdata |].
      rewrite (send_request_started child _ _ _ _ Hp Hdata) in Hrun.
      destruct (child (server_path (self st)) (written p ++ [data])) as [line | e];
        [| discriminate].
      now apply handle_line_ok in Hrun.
    + unfold _send_request, bind, get_self, lift in Hrun. rewrite Hp in Hrun.
      cbn [fst snd negb] in Hrun.
      rewrite bool_decide_eq_true_2 in Hrun by eauto. cbn [negb] in Hrun.
      rewrite Hdata in Hrun. discriminate.
  - rewrite send_request_not_started in Hrun by assumption. discriminate.
Qed.

(** [initialize] on a started client, by the outcome of its request. *)
Lemma initialize_answered st p response st1 :
  process (self st) = Some p ->
  _send_request child (init_request (request_id (self st) + 1)) (issued st)
  = (Ok response, st1) ->
  initialize child st
  = (Ok tt,
     {| self := advanced (self st) p
                  [ line_of (init_request (request_id (self st) + 1));
                    line_of initialized_notification ];
        log := log st ++ [ (INFO, lit "MCP client initialized") ] |}).
Proof.
  intros Hp Hrun.
  assert (Hp' : process (self (issued st)) = Some p) by exact Hp.
  pose proof (framed_object (init_request (request_id (self st) + 1)) eq_refl) as Hreq.
  pose proof (framed_object initialized_notification eq_refl) as Hnote.
  destruct (send_request_ok _ _ _ _ Hrun) as (p' & data & Hp'' & Hdata & ->).
  rewrite Hp' in Hp''. injection Hp'' as <-.
  unfold framed in Hreq, Hdata. rewrite Hreq in Hdata. injection Hdata as <-.
  unfold initialize. unfold bind at 1. rewrite get_request_id_spec.
  unfold next_id. unfold bind at 1. rewrite Hrun.
  unfold bind at 1. unfold logger at 1.
  erewrite send_notification_spec; [| reflexivity | exact Hnote].
  unfold sent, advanced, issued, line_of. cbn. rewrite <- app_assoc. reflexivity.
Qed.

Lemma initialize_failed st p e st1 :
  process (self st) = Some p ->
  _send_request child (init_request (request_id (self st) + 1)) (issued st)
  = (Raise e, st1) ->
  initialize child st = (Raise e, st1)
  /\ self st1
     = advanced (self st) p [ line_of (init_request (request_id (self st) + 1)) ].
Proof.
  intros Hp Hrun.
  assert (Hp' : process (self (issued st)) = Some p) by exact Hp.
  pose proof (framed_object (init_request (request_id (self st) + 1)) eq_refl) as Hreq.
  pose proof (send_request_self child _ _ _ _ Hp' Hreq) as Hself.
  rewrite Hrun in Hself. cbn [snd] in Hself.
  split.
  - unfold initialize. unfold bind at 1. rewrite get_request_id_spec.
    unfold next_id. unfold bind at 1. rewrite Hrun. reflexivity.
  - rewrite Hself. reflexivity.
Qed.

(** X13. The handshake.  On a started client, [initialize] writes the
    "initialize" request with the next id.  If the request is answered,
    whatever the answer holds, "MCP client initialized" is logged and the
    "notifications/initialized" line is handed to the child's input after
    the request: this is a statement on the session [initialize] ends in,
    not on whether that last write succeeds.  If the request fails,
    [initialize] fails in the same way and the notification is not
    written. *)
Theorem initialize_handshake (st : session) (p : Process) :
  process (self st) = Some p ->
  let request := init_request (request_id (self st) + 1) in
  (forall response st1,
      _send_request child request (issued st) = (Ok response, st1) ->
      snd (initialize child st)
      = {| self := advanced (self st) p
                     [ line_of request; line_of initialized_notification ];
           log := log st ++ [ (INFO, lit "MCP client initialized") ] |})
  /\ (forall e st1,
        _send_request child request (issued st) = (Raise e, st1) ->
        initialize child st = (Raise e, st1)
        /\ self st1 = advanced (self st) p [ line_of request ]).
Proof.
  intros Hp request. split.
  - intros response st1 Hrun.
    now rewrite (initialize_answered _ _ _ _ Hp Hrun).
  - intros e st1. now apply initialize_failed.
Qed.

(** The session once the child has been spawned. *)
Definition spawned (st : session) : session :=
  {| self := {| server_path := server_path (self st);
                process := Some {| written := []; terminated := false |};
                request_id := request_id (self st) |};
     log := log st ++ [ (INFO, lit "Started MCP server: " ++ server_path (self st)) ] |}.

Definition start_failed (e : exc) : level * pystr :=
  (ERROR, lit "Failed to start server: " ++ exc_str e).

(** X14. [start_server].  If the child cannot be spawned, the error is
    logged as "Failed to start server: ..." and raised again, and the
    client is left without a process.  If it is spawned, the start is
    logged and the handshake runs on the new process: when the handshake
    returns, so does [start_server]; when it raises, the failure is logged
    and raised again.  Either way the client keeps the new process, to
    which the "initialize" request was the first line written, and one
    request id has been taken. *)
Theorem start_server_outcomes (st : session) :
  (forall e,
      spawn (server_path (self st)) = Raise e ->
      start_server spawn child st
      = (Raise e, {| self := self st; log := log st ++ [ start_failed e ] |}))
  /\ (spawn (server_path (self st)) = Ok tt ->
      (forall st1,
          initialize child (spawned st) = (Ok tt, st1) ->
          start_server spawn child st = (Ok tt, st1))
      /\ (forall e st1,
            initialize child (spawned st) = (Raise e, st1) ->
            start_server spawn child st
            = (Raise e, {| self := self st1; log := log st1 ++ [ start_failed e ] |}))
      /\ request_id (self (snd (start_server spawn child st)))
         = (request_id (self st) + 1)%Z
      /\ exists chunks,
           process (self (snd (start_server spawn child st)))
           = Some {| written := line_of (init_request (request_id (self st) + 1))
                                  :: chunks;
                     terminated := false |}).
Proof.
  split.
  - intros e Hspawn. unfold start_server, try_except, bind, get_self, lift.
    rewrite Hspawn. reflexivity.
  - intros Hspawn.
    assert (Hbody : forall r,
               initialize child (spawned st) = r ->
               start_server spawn child st
               = match r with
                 | (Ok a, st') => (Ok a, st')
                 | (Raise e, st') =>
                   (Raise e, {| self := self st'; log := log st' ++ [ start_failed e ] |})
                 end).
    { intros r <-. unfold start_server, try_except.
      unfold bind at 1. unfold get_self at 1.
      unfold bind at 1. unfold lift at 1. rewrite Hspawn.
      unfold bind at 1. unfold bind at 1. unfold logger at 1.
      cbn [self log].
      match goal with
      | |- context [initialize child ?x] => change x with (spawned st)
      end.
      destruct (initialize child (spawned st)) as [[[] | e] st']; reflexivity. }
    split; [| split].
    + intros st1 Hinit. now rewrite (Hbody _ Hinit).
    + intros e st1 Hinit. now rewrite (Hbody _ Hinit).
    + set (fresh := {| written := []; terminated := false |}).
      destruct (_send_request child (init_request (request_id (self st) + 1))
                  (issued (spawned st))) as [[response | e] st1] eqn:Hrun.
      * rewrite (Hbody _ (initialize_answered (spawned st) fresh _ _ eq_refl Hrun)).
        cbn [snd self advanced request_id process written terminated fresh app].
        split; [reflexivity |]. eexists. reflexivity.
      * destruct (initialize_failed (spawned st) fresh _ _ eq_refl Hrun)
          as [Hinit Hself].
        rewrite (Hbody _ Hinit). cbn [snd self]. rewrite Hself.
        cbn [advanced request_id process written terminated fresh app].
        split; [reflexivity |]. eexists. reflexivity.
Qed.

(** X15. What the server answers is passed on.  When the answer is an
    object without ["error"]: [call_tool] returns its ["result"], whatever
    it is; [list_tools] returns the ["tools"] of a ["result"] that is an
    object, and raises [AttributeError] when the ["result"] is anything
    else ([null], a list, a string, a number), since it has no [get]. *)
Theorem results_are_passed_on st name arguments p data line d answer :
  line <> [] ->
  receive line = Ok (VDict d) ->
  dict_lookup d (lit "error") = None ->
  dict_lookup d (lit "result") = Some answer ->
  (exchange child (issued st) (call_request (next_id st) name arguments) p data line ->
   call_tool child name arguments st = (Ok answer, sent (issued st) p data))
  /\ (exchange child (issued st) (list_request (next_id st)) p data line ->
      (forall r tools,
          answer = VDict r ->
          dict_lookup r (lit "tools") = Some tools ->
          list_tools child st = (Ok tools, sent (issued st) p data))
      /\ ((forall r, answer <> VDict r) ->
          list_tools child st
          = (Raise (AttributeError
                      (lit "'" ++ type_name answer
                           ++ lit "' object has no attribute 'get'")),
             sent (issued st) p data))).
Proof.
  intros Hline Hrecv Herr Hres. split.
  - intros Hex. unfold call_tool, bind at 1.
    rewrite get_request_id_spec. unfold bind.
    rewrite (send_request_returns child _ _ _ _ _ _ Hex Hline Hrecv Herr).
    unfold lift, get_method. rewrite Hres. reflexivity.
  - intros Hex.
    assert (Hlist : list_tools child st
                    = (get_method answer (lit "tools") (VList []),
                       sent (issued st) p data)).
    { unfold list_tools, bind at 1.
      rewrite get_request_id_spec. unfold bind.
      rewrite (send_request_returns child _ _ _ _ _ _ Hex Hline Hrecv Herr).
      unfold lift. cbn [get_method]. rewrite Hres. cbn [default from_option id].
      destruct (get_method answer (lit "tools") (VList [])); reflexivity. }
    rewrite Hlist. split.
    + intros r tools -> Htools. cbn [get_method]. rewrite Htools. reflexivity.
    + intros Hother. destruct answer as [| | | | | | r]; try reflexivity.
      now destruct (Hother r).
Qed.

(** X16. Failures that [_send_request] does not turn into a
    [RuntimeError].  On a started client, once the request is written:
    an error raised by reading the line is passed on; so is the
    [UnicodeDecodeError] of a line that is not UTF-8; and a line that holds
    a JSON number, [true], [false] or [null] raises the [TypeError] of
    ["error" in response].  In the three cases nothing is logged. *)
Theorem unwrapped_failures st request p data :
  process (self st) = Some p ->
  framed request data ->
  (forall e,
      child (server_path (self st)) (written p ++ [data]) = Raise e ->
      _send_request child request st = (Raise e, sent st p data))
  /\ (forall line,
        child (server_path (self st)) (written p ++ [data]) = Ok line ->
        line <> [] ->
        (bytes_decode line = None ->
         _send_request child request st
         = (Raise (UnicodeDecodeError line), sent st p data))
        /\ (forall v,
              receive line = Ok v ->
              match v with VNone | VBool _ | VInt _ | VFloat _ => True | _ => False end ->
              _send_request child request st
              = (Raise (TypeError (lit "argument of type '" ++ type_name v
                                       ++ lit "' is not iterable")),
                 sent st p data))).
Proof.
  intros Hp Hdata. rewrite (send_request_started child _ _ _ _ Hp Hdata).
  split.
  - intros e ->. reflexivity.
  - intros line -> Hline. unfold handle_line.
    rewrite bool_decide_eq_false_2 by assumption.
    unfold try_except_json, bind, lift, receive, decode.
    split.
    + intros ->. reflexivity.
    + intros v Hrecv Hscalar.
      destruct (bytes_decode line) as [text |]; [| discriminate].
      rewrite Hrecv. destruct v; try contradiction; reflexivity.
Qed.

(** X17. A blank line is not an end of stream.  A line that is not empty
    but holds only white space (a lone newline, say) does not raise "Server
    closed connection": it is logged as an invalid JSON response and raises
    [RuntimeError] "Invalid server response: Expecting value: line 1 column
    1 (char 0)". *)
Theorem blank_line_is_invalid st request p data line text :
  exchange child st request p data line ->
  line <> [] ->
  bytes_decode line = Some text ->
  strip text = [] ->
  _send_request child request st
  = (Raise (RuntimeError
              (lit "Invalid server response: Expecting value: line 1 column 1 (char 0)")),
     {| self := self (sent st p data);
        log := log st ++ [ (ERROR, lit "Invalid JSON response: " ++ bytes_repr line) ] |}).
Proof.
  intros Hex Hline Htext Hblank.
  rewrite (send_request_exchange child _ _ _ _ _ Hex). unfold handle_line.
  rewrite bool_decide_eq_false_2 by assumption.
  unfold try_except_json, bind, lift, decode. rewrite Htext, Hblank.
  reflexivity.
Qed.
End ClientFurther.

(** The statements above, at the scenarios. *)

Lemma calls_before_start_are_refused_witness :
  @Client.call_tool Samples.formatting Samples.closed_child
    (lit "search_location") [ (lit "location", VStr (lit "Tokyo")) ] Scenarios.idle
  = (Raise (RuntimeError (lit "Server not started")), issued Scenarios.idle)
  /\ Client.request_id (Client.self (issued Scenarios.idle)) = 1%Z
  /\ Client.process (Client.self (issued Scenarios.idle)) = None.
Proof.
  split; [| split; reflexivity].
  apply (proj2 (proj2 (proj2 (proj2
           (@calls_before_start_are_refused Samples.formatting Samples.closed_child
              Scenarios.idle eq_refl))))).
Defined.

Lemma initialize_handshake_witness :
  snd (@Client.initialize Samples.formatting Scenarios.helpful_child Samples.started)
  = {| Client.self :=
         advanced (Client.self Samples.started) Scenarios.fresh
           [ Samples.frame (Client.init_request 1);
             Samples.frame Client.initialized_notification ];
       Client.log := [ (Client.INFO, lit "MCP client initialized") ] |}
  /\ @Client.initialize Samples.formatting Samples.closed_child Samples.started
     = (Raise (RuntimeError (lit "Server closed connection")),
        sent (issued Samples.started) Scenarios.fresh
             (Samples.frame (Client.init_request 1))).
Proof.
  split.
  - apply (proj1 (@initialize_handshake Samples.formatting Scenarios.helpful_child
                    Samples.started Scenarios.fresh eq_refl)
             (VDict (Scenarios.answer 1 Scenarios.helpful_result))
             (sent (issued Samples.started) Scenarios.fresh
                   (Samples.frame (Client.init_request 1)))).
    reflexivity.
  - apply (proj2 (@initialize_handshake Samples.formatting Samples.closed_child
                    Samples.started Scenarios.fresh eq_refl)
             (RuntimeError (lit "Server closed connection"))
             (sent (issued Samples.started) Scenarios.fresh
                   (Samples.frame (Client.init_request 1)))).
    reflexivity.
Defined.

Lemma start_server_outcomes_witness :
  @Client.start_server Samples.formatting Scenarios.spawn_missing
    Scenarios.helpful_child Scenarios.idle
  = (Raise (LibraryError (lit "[Errno 2] No such file or directory")),
     {| Client.self := Client.self Scenarios.idle;
        Client.log :=
          [ (Client.ERROR,
             lit "Failed to start server: [Errno 2] No such file or directory") ] |})
  /\ @Client.start_server Samples.formatting Scenarios.spawn_ok
       Scenarios.helpful_child Scenarios.idle
     = (Ok tt,
        {| Client.self :=
             advanced (Client.self Scenarios.idle) Scenarios.fresh
               [ Samples.frame (Client.init_request 1);
                 Samples.frame Client.initialized_notification ];
           Client.log :=
             [ (Client.INFO, lit "Started MCP server: ../weather/weather.py");
               (Client.INFO, lit "MCP client initialized") ] |})
  /\ @Client.start_server Samples.formatting Scenarios.spawn_ok
       Samples.closed_child Scenarios.idle
     = (Raise (RuntimeError (lit "Server closed connection")),
        {| Client.self :=
             advanced (Client.self Scenarios.idle) Scenarios.fresh
               [ Samples.frame (Client.init_request 1) ];
           Client.log :=
             [ (Client.INFO, lit "Started MCP server: ../weather/weather.py");
               (Client.ERROR, lit "Failed to start server: Server closed connection") ] |}).
Proof.
  split; [| split].
  - apply (proj1 (@start_server_outcomes Samples.formatting Scenarios.spawn_missing
                    Scenarios.helpful_child Scenarios.idle)).
    reflexivity.
  - apply (proj1 (proj2 (@start_server_outcomes Samples.formatting Scenarios.spawn_ok
                           Scenarios.helpful_child Scenarios.idle)
                        eq_refl)).
    reflexivity.
  - apply (proj1 (proj2 (proj2 (@start_server_outcomes Samples.formatting
                                  Scenarios.spawn_ok
                                  Samples.closed_child Scenarios.idle)
                               eq_refl))
             (RuntimeError (lit "Server closed connection"))
             (sent (issued (spawned Scenarios.idle)) Scenarios.fresh
                   (Samples.frame (Client.init_request 1)))).
    reflexivity.
Defined.

Lemma results_are_passed_on_witness :
  fst (@Client.call_tool Samples.formatting Scenarios.helpful_child
         (lit "get_current_weather") [ (lit "location", VStr (lit "Bangkok")) ]
         Samples.started)
  = Ok Scenarios.helpful_result
  /\ fst (@Client.list_tools Samples.formatting Scenarios.helpful_child Samples.started)
     = Ok Scenarios.tools
  /\ fst (@Client.list_tools Samples.formatting Scenarios.null_child Samples.started)
     = Raise (AttributeError (lit "'NoneType' object has no attribute 'get'")).
Proof.
  split; [| split].
  - rewrite (proj1 (@results_are_passed_on Samples.formatting Scenarios.helpful_child
                      Samples.started (lit "get_current_weather")
                      [ (lit "location", VStr (lit "Bangkok")) ] Scenarios.fresh
                      (Samples.frame
                         (Client.call_request 1 (lit "get_current_weather")
                            [ (lit "location", VStr (lit "Bangkok")) ]))
                      (Samples.frame (VDict (Scenarios.answer 1 Scenarios.helpful_result)))
                      (Scenarios.answer 1 Scenarios.helpful_result)
                      Scenarios.helpful_result
                      ltac:(discriminate) eq_refl eq_refl eq_refl)
               (conj eq_refl (conj eq_refl eq_refl))).
    reflexivity.
  - rewrite (proj1 (proj2 (@results_are_passed_on Samples.formatting
                             Scenarios.helpful_child
                             Samples.started (lit "search_location") [] Scenarios.fresh
                             (Samples.frame (Client.list_request 1))
                             (Samples.frame
                                (VDict (Scenarios.answer 1 Scenarios.helpful_result)))
                             (Scenarios.answer 1 Scenarios.helpful_result)
                             Scenarios.helpful_result
                             ltac:(discriminate) eq_refl eq_refl eq_refl)
                          (conj eq_refl (conj eq_refl eq_refl)))
               [ (lit "tools", Scenarios.tools);
                 (lit "content", VList [ Scenarios.report ]) ]
               Scenarios.tools eq_refl eq_refl).
    reflexivity.
  - rewrite (proj2 (proj2 (@results_are_passed_on Samples.formatting
                             Scenarios.null_child
                             Samples.started (lit "search_location") [] Scenarios.fresh
                             (Samples.frame (Client.list_request 1))
                             (Samples.frame (VDict (Scenarios.answer 1 VNone)))
                             (Scenarios.answer 1 VNone)
                             VNone
                             ltac:(discriminate) eq_refl eq_refl eq_refl)
                          (conj eq_refl (conj eq_refl eq_refl)))
               ltac:(discriminate)).
    reflexivity.
Defined.

Lemma unwrapped_failures_witness :
  fst (@Client._send_request Samples.formatting Scenarios.broken_child
         (Client.list_request 1) Samples.started)
  = Raise (LibraryError (lit "Separator is not found, and chunk exceed the limit"))
  /\ fst (@Client._send_request Samples.formatting Scenarios.binary_child
            (Client.list_request 1) Samples.started)
     = Raise (UnicodeDecodeError [xff; x0a])
  /\ @Client._send_request Samples.formatting Scenarios.number_child
       (Client.list_request 1) Samples.started
     = (Raise (TypeError (lit "argument of type 'int' is not iterable")),
        sent Samples.started Scenarios.fresh (Samples.frame (Client.list_request 1))).
Proof.
  split; [| split].
  - rewrite (proj1 (@unwrapped_failures Samples.formatting Scenarios.broken_child
                      Samples.started (Client.list_request 1) Scenarios.fresh
                      (Samples.frame (Client.list_request 1)) eq_refl eq_refl)
               (LibraryError (lit "Separator is not found, and chunk exceed the limit"))
               eq_refl).
    reflexivity.
  - rewrite (proj1 (proj2 (@unwrapped_failures Samples.formatting Scenarios.binary_child
                             Samples.started (Client.list_request 1) Scenarios.fresh
                             (Samples.frame (Client.list_request 1)) eq_refl eq_refl)
                          [xff; x0a] eq_refl ltac:(discriminate))
               eq_refl).
    reflexivity.
  - apply (proj2 (proj2 (@unwrapped_failures Samples.formatting Scenarios.number_child
                           Samples.started (Client.list_request 1) Scenarios.fresh
                           (Samples.frame (Client.list_request 1)) eq_refl eq_refl)
                        (list_byte_of_string "42" ++ [x0a]) eq_refl ltac:(discriminate))
             (VInt 42) eq_refl I).
Defined.

Lemma blank_line_is_invalid_witness :
  @Client._send_request Samples.formatting Scenarios.blank_child
    (Client.list_request 1) Samples.started
  = (Raise (RuntimeError
              (lit "Invalid server response: Expecting value: line 1 column 1 (char 0)")),
     {| Client.self :=
          Client.self (sent Samples.started Scenarios.fresh
                            (Samples.frame (Client.list_request 1)));
        Client.log :=
          [ (Client.ERROR,
             lit "Invalid JSON response: " ++ @bytes_repr Samples.formatting [x0a]) ] |}).
Proof.
  apply (@blank_line_is_invalid Samples.formatting Scenarios.blank_child
           Samples.started (Client.list_request 1) Scenarios.fresh
           (Samples.frame (Client.list_request 1)) [x0a] [10]).
  - repeat split.
  - discriminate.
  - reflexivity.
  - reflexivity.
Defined.

(** * Properties of the weather client *)

Section WeatherClientProperties.
Context `{Formatting}.
Variable child : pystr -> list bytes -> result bytes.

Import Client.

(** The three lookups of a [WeatherClient]. *)
Inductive lookup_call :=
| Current (location : value)
| Forecast (location days : value)
| Search (location : value).

Definition run (q : lookup_call) : M session value :=
  match q with
  | Current location => WeatherClient.get_current_weather child location
  | Forecast location days => WeatherClient.get_weather_forecast child location days
  | Search location => WeatherClient.search_location child location
  end.

(** The tool a lookup calls and the arguments it passes. *)
Definition tool_of (q : lookup_call) : pystr :=
  match q with
  | Current _ => lit "get_current_weather"
  | Forecast _ _ => lit "get_weather_forecast"
  | Search _ => lit "search_location"
  end.

Definition arguments_of (q : lookup_call) : dict :=
  match q with
  | Current location | Search location => [ (lit "location", location) ]
  | Forecast location days => [ (lit "location", location); (lit "days", days) ]
  end.

(** What a lookup returns when the result has no content, and when
    something was raised. *)
Definition nothing_text (q : lookup_call) : pystr :=
  match q with
  | Current location => lit "No weather data available for " ++ py_str location
  | Forecast location _ => lit "No forecast data available for " ++ py_str location
  | Search location => lit "Location '" ++ py_str location ++ lit "' not found"
  end.

Definition failure_text (q : lookup_call) (e : exc) : pystr :=
  match q with
  | Current location =>
    lit "Error getting weather for " ++ py_str location ++ lit ": " ++ exc_str e
  | Forecast location _ =>
    lit "Error getting forecast for " ++ py_str location ++ lit ": " ++ exc_str e
  | Search location =>
    lit "Error searching for " ++ py_str location ++ lit ": " ++ exc_str e
  end.

Lemma run_unfold (q : lookup_call) :
  run q
  = try_except
      (answer <- call_tool child (tool_of q) (arguments_of q) ;;
       WeatherClient.content_or answer (nothing_text q))
      (fun e => ret (VStr (failure_text q e))).
Proof. destruct q; reflexivity. Qed.

Lemma content_or_state answer fallback st :
  snd (WeatherClient.content_or answer fallback st) = st.
Proof.
  unfold WeatherClient.content_or, bind, lift, ret.
  destruct (if truthy answer then contains answer (lit "content") else Ok false)
    as [[] | e]; try reflexivity.
  destruct (getitem answer (KStr (lit "content"))) as [content | e]; [| reflexivity].
  destruct (getitem content (KInt 0)) as [first | e]; reflexivity.
Qed.

(** The state a lookup ends in is the state its call ends in. *)
Lemma run_state q st :
  snd (run q st) = snd (call_tool child (tool_of q) (arguments_of q) st).
Proof.
  rewrite run_unfold. unfold try_except, bind.
  destruct (call_tool child (tool_of q) (arguments_of q) st) as [[answer | e] st1];
    [| reflexivity].
  pose proof (content_or_state answer (nothing_text q) st1) as Hstate.
  destruct (WeatherClient.content_or answer (nothing_text q) st1) as [[text | e] st2];
    cbn [snd] in *; subst st2; reflexivity.
Qed.

Lemma run_answered q st st1 answer :
  call_tool child (tool_of q) (arguments_of q) st = (Ok answer, st1) ->
  run q st
  = try_except (WeatherClient.content_or answer (nothing_text q))
               (fun e => ret (VStr (failure_text q e))) st1.
Proof.
  intros Hcall. rewrite run_unfold. unfold try_except, bind. rewrite Hcall.
  reflexivity.
Qed.

Lemma run_returns q st : exists text, fst (run q st) = Ok text.
Proof.
  rewrite run_unfold. unfold try_except.
  match goal with
  | |- context [match ?body with _ => _ end] => destruct body as [[text | e] st1]
  end; eexists; reflexivity.
Qed.

Lemma list_available_tools_returns st :
  exists names, fst (WeatherClient.list_available_tools child st) = Ok names.
Proof.
  unfold WeatherClient.list_available_tools, try_except.
  match goal with
  | |- context [match ?body with _ => _ end] => destruct body as [[names | e] st1]
  end; eexists; reflexivity.
Qed.

(** X18. The lookups of the weather client never raise.  Whatever the
    location, the days and the state of the client (started or not):
    whenever the one [call_tool] that [get_current_weather],
    [get_weather_forecast] or [search_location] makes, of its tool with its
    arguments (the days are passed as they are), comes to an end, by
    returning or by raising, the lookup returns normally, in the session
    that call ended in.  In the same way [list_available_tools] returns
    normally whenever its [list_tools] comes to an end. *)
Theorem lookups_never_raise (q : lookup_call) (st st1 : session) :
  (forall outcome,
      call_tool child (tool_of q) (arguments_of q) st = (outcome, st1) ->
      exists text, run q st = (Ok text, st1))
  /\ (forall outcome,
        list_tools child st = (outcome, st1) ->
        exists names st2,
          WeatherClient.list_available_tools child st = (Ok names, st2)).
Proof.
  split.
  - intros outcome Hcall.
    destruct (run_returns q st) as [text Htext]. exists text.
    pose proof (run_state q st) as Hstate. rewrite Hcall in Hstate.
    destruct (run q st); cbn [fst snd] in *. now subst.
  - intros outcome _.
    destruct (list_available_tools_returns st) as [names Hnames].
    exists names, (snd (WeatherClient.list_available_tools child st)).
    destruct (WeatherClient.list_available_tools child st); cbn [fst snd] in *.
    now subst.
Qed.

(** X19. A request that fails is reported in the text returned.  When
    [call_tool] raises, for one of the reasons [_send_request] has or
    because the server is not started, the lookup returns "Error getting
    weather for <location>: <error>", "Error getting forecast for
    <location>: <error>" or "Error searching for <location>: <error>".
    When [list_tools] raises, [list_available_tools] logs "Error listing
    tools: <error>" and returns the empty list. *)
Theorem failed_requests_become_text (st st1 : session) (e : exc) :
  (forall q,
      call_tool child (tool_of q) (arguments_of q) st = (Raise e, st1) ->
      run q st = (Ok (VStr (failure_text q e)), st1))
  /\ (list_tools child st = (Raise e, st1) ->
      WeatherClient.list_available_tools child st
      = (Ok [],
         {| self := self st1;
            log := log st1 ++ [ (ERROR, lit "Error listing tools: " ++ exc_str e) ] |})).
Proof.
  split.
  - intros q Hcall. rewrite run_unfold. unfold try_except, bind.
    rewrite Hcall. reflexivity.
  - intros Hlist. unfold WeatherClient.list_available_tools, try_except.
    unfold bind at 1. rewrite Hlist. reflexivity.
Qed.

(** X20. What a lookup makes of the result of its call.  A result that is
    an object whose ["content"] is a list starting with an object gives the
    ["text"] of that object.  A result that is false as a condition ([None],
    an empty object) or an object without ["content"] gives "No weather
    data available for <location>", "No forecast data available for
    <location>" or "Location '<location>' not found".  An object whose
    ["content"] is an empty list gives the error text for "list index out
    of range". *)
Theorem lookups_read_first_text (q : lookup_call) (st st1 : session) (answer : value) :
  call_tool child (tool_of q) (arguments_of q) st = (Ok answer, st1) ->
  (forall d item more text,
      answer = VDict d ->
      dict_lookup d (lit "content") = Some (VList (VDict item :: more)) ->
      dict_lookup item (lit "text") = Some text ->
      run q st = (Ok text, st1))
  /\ (truthy answer = false
      \/ (exists d, answer = VDict d /\ dict_lookup d (lit "content") = None) ->
      run q st = (Ok (VStr (nothing_text q)), st1))
  /\ (forall d,
        answer = VDict d ->
        dict_lookup d (lit "content") = Some (VList []) ->
        run q st
        = (Ok (VStr (failure_text q (IndexError (lit "list index out of range")))),
           st1)).
Proof.
  intros Hcall. rewrite (run_answered _ _ _ _ Hcall).
  unfold try_except, WeatherClient.content_or, bind, lift, ret.
  split; [| split].
  - intros d item more text -> Hcontent Htext.
    assert (Htruthy : truthy (VDict d) = true).
    { destruct d; [discriminate | reflexivity]. }
    rewrite Htruthy. cbn [contains]. rewrite Hcontent.
    rewrite bool_decide_eq_true_2 by eauto.
    cbn [getitem]. rewrite Hcontent. cbn [getitem length].
    rewrite index_of_first. cbn. rewrite Htext. reflexivity.
  - intros [Hfalsy | (d & -> & Hcontent)].
    + rewrite Hfalsy. reflexivity.
    + destruct (truthy (VDict d)); [| reflexivity].
      cbn [contains]. rewrite Hcontent.
      rewrite bool_decide_eq_false_2 by (intros [? ?]; discriminate).
      reflexivity.
  - intros d -> Hcontent.
    assert (Htruthy : truthy (VDict d) = true).
    { destruct d; [discriminate | reflexivity]. }
    rewrite Htruthy. cbn [contains]. rewrite Hcontent.
    rewrite bool_decide_eq_true_2 by eauto.
    cbn [getitem]. rewrite Hcontent. reflexivity.
Qed.

Lemma names_read (tools names : list value) :
  Forall2 (fun tool name =>
             exists d, tool = VDict d /\ dict_lookup d (lit "name") = Some name)
          tools names ->
  WeatherClient.names tools = Ok names.
Proof.
  induction 1 as [| tool name tools' names' (d & -> & Hname) _ IH]; [reflexivity |].
  cbn [WeatherClient.names getitem]. rewrite Hname, IH. reflexivity.
Qed.

(** X21. [list_available_tools], when [list_tools] returns a list: if every
    item is an object with a ["name"], the names are returned in the order
    of the list; if reading the name of some item raises, the error is
    logged and the empty list is returned, not the names read so far. *)
Theorem tool_names_are_listed (st st1 : session) (tools : list value) :
  list_tools child st = (Ok (VList tools), st1) ->
  (forall names,
      Forall2 (fun tool name =>
                 exists d, tool = VDict d /\ dict_lookup d (lit "name") = Some name)
              tools names ->
      WeatherClient.list_available_tools child st = (Ok names, st1))
  /\ (forall e,
        WeatherClient.names tools = Raise e ->
        WeatherClient.list_available_tools child st
        = (Ok [],
           {| self := self st1;
              log := log st1 ++ [ (ERROR, lit "Error listing tools: " ++ exc_str e) ] |})).
Proof.
  intros Hlist.
  assert (Hrun : WeatherClient.list_available_tools child st
                 = match WeatherClient.names tools with
                   | Ok names => (Ok names, st1)
                   | Raise e =>
                     (Ok [],
                      {| self := self st1;
                         log := log st1
                                  ++ [ (ERROR, lit "Error listing tools: " ++ exc_str e) ] |})
                   end).
  { unfold WeatherClient.list_available_tools, try_except.
    unfold bind at 1. rewrite Hlist. unfold bind, lift. cbn [WeatherClient.py_iter].
    destruct (WeatherClient.names tools); reflexivity. }
  rewrite Hrun. split.
  - intros names Hnames. rewrite (names_read _ _ Hnames). reflexivity.
  - intros e ->. reflexivity.
Qed.
End WeatherClientProperties.

(** * Properties of the test run *)

Section TestRun.
Context `{Formatting}.
Variable spawn : pystr -> result unit.
Variable child : pystr -> list bytes -> result bytes.
Variable terminate : pystr -> list bytes -> result unit.
Variable console : list pystr -> pystr -> result unit.

Import Client.

Abbreviation print := (Main.print console).
Abbreviation tests := (Main.tests spawn child console).
Abbreviation test_client := (Main.test_client spawn child terminate console).

(** No process, or one that was terminated. *)
Definition shut_down (st : session) : Prop :=
  match process (self st) with
  | Some p => terminated p = true
  | None => True
  end.

(** When [close] returns, the client is shut down. *)
Lemma close_shuts_down st st1 :
  close terminate st = (Ok tt, st1) -> shut_down st1.
Proof.
  unfold close, shut_down, bind, get_self, lift, logger, ret. cbn [self fst snd].
  destruct (process (self st)) as [p |] eqn:Hp.
  - destruct (terminate (server_path (self st)) (written p)); [| discriminate].
    intros [= <-]. reflexivity.
  - intros [= <-]. now rewrite Hp.
Qed.

(** When [terminate] raises, [close] raises the same and changes nothing. *)
Lemma close_raises st p e :
  process (self st) = Some p ->
  terminate (server_path (self st)) (written p) = Raise e ->
  close terminate st = (Raise e, st).
Proof.
  intros Hp Hterminate. unfold close, bind, get_self, lift. cbn [self fst snd].
  rewrite Hp, Hterminate. reflexivity.
Qed.

(** The console takes the lines, one after the other, after the lines
    [before]. *)
Fixpoint accepted (before lines : list pystr) : Prop :=
  match lines with
  | [] => True
  | line :: rest => console before line = Ok tt /\ accepted (before ++ [line]) rest
  end.

(** The world once [lines] have been printed and the client is in [st]. *)
Definition after (w : Main.world) (st : session) (lines : list pystr) : Main.world :=
  {| Main.client := st; Main.printed := Main.printed w ++ lines |}.

Lemma print_accepted w line :
  console (Main.printed w) line = Ok tt ->
  print line w
  = (Ok tt, {| Main.client := Main.client w; Main.printed := Main.printed w ++ [line] |}).
Proof. intros Hline. unfold Main.print. rewrite Hline. reflexivity. Qed.

Lemma print_refused w line e :
  console (Main.printed w) line = Raise e -> print line w = (Raise e, w).
Proof. intros Hline. unfold Main.print. rewrite Hline. reflexivity. Qed.

(** The session of the client a run creates. *)
Definition created (w : Main.world) : session :=
  {| self := WeatherClient.__init__ WeatherClient.default_server_path;
     log := log (Main.client w) |}.

Definition title : list pystr := [ lit "🧪 Testing Weather MCP Client"; repeat 61 40 ].

Definition banner : list pystr := title ++ [ lit "Starting weather server..." ].

Definition failed (e : exc) : pystr := lit "❌ Test failed: " ++ exc_str e.

(** The three lookups of the test, in order. *)
Definition bangkok_weather : lookup_call := Current (VStr (lit "Bangkok, Thailand")).
Definition new_york_forecast : lookup_call := Forecast (VStr (lit "New York")) (VInt 3).
Definition tokyo_search : lookup_call := Search (VStr (lit "Tokyo")).

(** What is printed when the server is started and the three lookups have
    returned these texts. *)
Definition report (weather forecast location : value) : list pystr :=
  banner
    ++ [ lit "✅ Server started successfully!";
         [10] ++ lit "📍 Testing current weather for Bangkok...";
         py_str weather;
         [10] ++ lit "📅 Testing 3-day forecast for New York...";
         py_str forecast;
         [10] ++ lit "🔍 Testing location search for Tokyo...";
         py_str location;
         [10] ++ lit "✅ All tests completed successfully!" ].

Lemma after_title w st :
  after w st title
  = {| Main.client := st;
       Main.printed := (Main.printed w ++ [ lit "🧪 Testing Weather MCP Client" ])
                         ++ [ repeat 61 40 ] |}.
Proof. unfold after, title. now rewrite <- app_assoc. Qed.

(** The run from the [try] statement on: the [finally] clause runs
    [close] on the client the [try] statement left. *)
Lemma test_client_finally w w1 r outcome st2 :
  accepted (Main.printed w) title ->
  tests (after w (created w) title) = (r, w1) ->
  close terminate (Main.client w1) = (outcome, st2) ->
  test_client w
  = (match outcome with Ok _ => r | Raise e => Raise e end,
     {| Main.client := st2; Main.printed := Main.printed w1 |}).
Proof.
  intros (Htitle & Hrule & _) Htests Hclose.
  unfold Main.test_client. unfold bind at 1.
  rewrite (print_accepted w _ Htitle).
  unfold bind at 1. rewrite print_accepted by exact Hrule.
  unfold bind at 1. unfold Main.new_weather_client at 1.
  cbn [Main.client Main.printed].
  unfold Main.try_finally.
  fold (created w). rewrite <- after_title.
  rewrite Htests. unfold Main.await, WeatherClient.close. rewrite Hclose.
  destruct outcome as [[] | e]; reflexivity.
Qed.

(** The [try] statement when the server cannot be started. *)
Lemma tests_not_started w e st1 :
  accepted (Main.printed w) (banner ++ [ failed e ]) ->
  WeatherClient.start spawn child (created w) = (Raise e, st1) ->
  tests (after w (created w) title) = (Ok tt, after w st1 (banner ++ [ failed e ])).
Proof.
  intros (_ & _ & Hstarting & Hfailed & _) Hstart.
  rewrite after_title. unfold Main.tests, try_except. unfold bind at 1.
  rewrite print_accepted by exact Hstarting.
  unfold bind at 1. unfold Main.await at 1. cbn [Main.client Main.printed after].
  rewrite Hstart.
  rewrite print_accepted by exact Hfailed.
  unfold after, banner. cbn [Main.client Main.printed].
  now rewrite <- !app_assoc.
Qed.

(** The [try] statement when the server is started and the console takes
    every line. *)
Lemma tests_started w st1 weather st2 forecast st3 location st4 :
  accepted (Main.printed w) (report weather forecast location) ->
  WeatherClient.start spawn child (created w) = (Ok tt, st1) ->
  run child bangkok_weather st1 = (Ok weather, st2) ->
  run child new_york_forecast st2 = (Ok forecast, st3) ->
  run child tokyo_search st3 = (Ok location, st4) ->
  tests (after w (created w) title)
  = (Ok tt, after w st4 (report weather forecast location)).
Proof.
  intros (_ & _ & Hstarting & H1 & H2 & H3 & H4 & H5 & H6 & H7 & H8 & _)
         Hstart Hweather Hforecast Hlocation.
  rewrite after_title. unfold Main.tests, try_except.
  change (WeatherClient.get_current_weather child (VStr (lit "Bangkok, Thailand")))
    with (run child bangkok_weather).
  change (WeatherClient.get_weather_forecast child (VStr (lit "New York")) (VInt 3))
    with (run child new_york_forecast).
  change (WeatherClient.search_location child (VStr (lit "Tokyo")))
    with (run child tokyo_search).
  unfold bind at 1. rewrite print_accepted by exact Hstarting.
  unfold bind at 1. unfold Main.await at 1. cbn [Main.client Main.printed after].
  rewrite Hstart.
  unfold bind at 1. rewrite print_accepted by exact H1.
  unfold bind at 1. rewrite print_accepted by exact H2.
  unfold bind at 1. unfold Main.await at 1. cbn [Main.client Main.printed].
  rewrite Hweather.
  unfold bind at 1. rewrite print_accepted by exact H3.
  unfold bind at 1. rewrite print_accepted by exact H4.
  unfold bind at 1. unfold Main.await at 1. cbn [Main.client Main.printed].
  rewrite Hforecast.
  unfold bind at 1. rewrite print_accepted by exact H5.
  unfold bind at 1. rewrite print_accepted by exact H6.
  unfold bind at 1. unfold Main.await at 1. cbn [Main.client Main.printed].
  rewrite Hlocation.
  unfold bind at 1. rewrite print_accepted by exact H7.
  rewrite print_accepted by exact H8.
  unfold after, report, banner. cbn [Main.client Main.printed].
  now rewrite <- !app_assoc.
Qed.

(** The [try] statement when the console refuses the first text
    returned. *)
Lemma tests_unprintable w st1 weather st2 e :
  let shown := banner ++ [ lit "✅ Server started successfully!";
                           [10] ++ lit "📍 Testing current weather for Bangkok..." ] in
  accepted (Main.printed w) shown ->
  WeatherClient.start spawn child (created w) = (Ok tt, st1) ->
  run child bangkok_weather st1 = (Ok weather, st2) ->
  console (Main.printed w ++ shown) (py_str weather) = Raise e ->
  console (Main.printed w ++ shown) (failed e) = Ok tt ->
  tests (after w (created w) title) = (Ok tt, after w st2 (shown ++ [ failed e ])).
Proof.
  intros shown (_ & _ & Hstarting & H1 & H2 & _) Hstart Hweather Hrefused Hfailed.
  assert (Hshown : Main.printed w ++ shown
                   = ((((Main.printed w ++ [ lit "🧪 Testing Weather MCP Client" ])
                          ++ [ repeat 61 40 ])
                         ++ [ lit "Starting weather server..." ])
                        ++ [ lit "✅ Server started successfully!" ])
                       ++ [ [10] ++ lit "📍 Testing current weather for Bangkok..." ])
    by (unfold shown, banner, title; now rewrite <- !app_assoc).
  rewrite Hshown in Hrefused, Hfailed.
  rewrite after_title. unfold Main.tests, try_except.
  change (WeatherClient.get_current_weather child (VStr (lit "Bangkok, Thailand")))
    with (run child bangkok_weather).
  unfold bind at 1. rewrite print_accepted by exact Hstarting.
  unfold bind at 1. unfold Main.await at 1. cbn [Main.client Main.printed after].
  rewrite Hstart.
  unfold bind at 1. rewrite print_accepted by exact H1.
  unfold bind at 1. rewrite print_accepted by exact H2.
  unfold bind at 1. unfold Main.await at 1. cbn [Main.client Main.printed].
  rewrite Hweather.
  unfold bind at 1. rewrite (print_refused _ _ e) by exact Hrefused.
  rewrite print_accepted by exact Hfailed.
  unfold after. cbn [Main.client Main.printed].
  rewrite (app_assoc (Main.printed w) shown), Hshown. reflexivity.
Qed.
Lemma accepted_title before lines :
  accepted before (title ++ lines) -> accepted before title.
Proof. intros (Htitle & Hrule & _). repeat split; assumption. Qed.

Lemma close_raised st e st1 :
  close terminate st = (Raise e, st1) -> st1 = st.
Proof.
  unfold close, bind, get_self, lift, logger, ret. cbn [self fst snd].
  destruct (process (self st)) as [p |]; [| discriminate].
  destruct (terminate (server_path (self st)) (written p)); [discriminate |].
  now intros [= _ <-].
Qed.

(** X22. What the test run prints, given that the calls it makes come to
    an end and the console takes the lines.  (1) If starting the server
    raises, the run prints its banner and "Test failed: <error>" and makes
    no lookup.  (2) If the server is started and the three lookups return,
    the run prints what each returned and then "All tests completed
    successfully!", whatever they returned, error texts included.  (3) If
    the console refuses a text that was returned (a lone surrogate in it,
    say), the remaining lookups are not made and "Test failed: <error>" is
    printed in place of the success line.  In each case [close] is then run
    on the client, and the run ends as [close] does: it returns when
    [close] returns and raises what [close] raises. *)
Theorem test_client_reports (w : Main.world) :
  (forall e st1 outcome st2,
      accepted (Main.printed w) (banner ++ [ failed e ]) ->
      WeatherClient.start spawn child (created w) = (Raise e, st1) ->
      close terminate st1 = (outcome, st2) ->
      test_client w = (outcome, after w st2 (banner ++ [ failed e ])))
  /\ (forall st1 weather st2 forecast st3 location st4 outcome st5,
        accepted (Main.printed w) (report weather forecast location) ->
        WeatherClient.start spawn child (created w) = (Ok tt, st1) ->
        run child bangkok_weather st1 = (Ok weather, st2) ->
        run child new_york_forecast st2 = (Ok forecast, st3) ->
        run child tokyo_search st3 = (Ok location, st4) ->
        close terminate st4 = (outcome, st5) ->
        test_client w = (outcome, after w st5 (report weather forecast location)))
  /\ (forall st1 weather st2 e outcome st3,
        let shown :=
          banner ++ [ lit "✅ Server started successfully!";
                      [10] ++ lit "📍 Testing current weather for Bangkok..." ] in
        accepted (Main.printed w) shown ->
        WeatherClient.start spawn child (created w) = (Ok tt, st1) ->
        run child bangkok_weather st1 = (Ok weather, st2) ->
        console (Main.printed w ++ shown) (py_str weather) = Raise e ->
        console (Main.printed w ++ shown) (failed e) = Ok tt ->
        close terminate st2 = (outcome, st3) ->
        test_client w = (outcome, after w st3 (shown ++ [ failed e ]))).
Proof.
  split; [| split].
  - intros e st1 outcome st2 Hconsole Hstart Hclose.
    rewrite (test_client_finally w _ _ _ _
               (accepted_title _ _ Hconsole)
               (tests_not_started w e st1 Hconsole Hstart) Hclose).
    destruct outcome as [[] | e']; reflexivity.
  - intros st1 weather st2 forecast st3 location st4 outcome st5
           Hconsole Hstart Hweather Hforecast Hlocation Hclose.
    rewrite (test_client_finally w _ _ _ _
               (accepted_title _ _ Hconsole)
               (tests_started w _ _ _ _ _ _ _ Hconsole Hstart
                  Hweather Hforecast Hlocation) Hclose).
    destruct outcome as [[] | e']; reflexivity.
  - intros st1 weather st2 e outcome st3 shown
           Hconsole Hstart Hweather Hrefused Hfailed Hclose.
    rewrite (test_client_finally w _ _ _ _
               (accepted_title _ _ Hconsole)
               (tests_unprintable w st1 weather st2 e Hconsole Hstart
                  Hweather Hrefused Hfailed) Hclose).
    destruct outcome as [[] | e']; reflexivity.
Qed.

(** X23. The [finally] clause of the test run.  Whenever the console
    takes the two heading lines, the [try] statement comes to an end
    (normally, or by an exception raised while its handler prints) and
    [close] comes to an end, [close] is what the run does last, on the
    client the [try] statement left.  If [close] returns, the run ends as
    the [try] statement did, and the client has no process or a process on
    which [terminate] was called.  If [close] raises, as it does when
    [terminate] finds that the child has already exited, the run raises
    that exception and the client is as the [try] statement left it. *)
Theorem test_client_always_closes (w w1 : Main.world) (r outcome : result unit)
    (st2 : session) :
  accepted (Main.printed w) title ->
  tests (after w (created w) title) = (r, w1) ->
  close terminate (Main.client w1) = (outcome, st2) ->
  test_client w
  = (match outcome with Ok _ => r | Raise e => Raise e end,
     {| Main.client := st2; Main.printed := Main.printed w1 |})
  /\ (outcome = Ok tt -> shut_down st2)
  /\ (forall e, outcome = Raise e -> st2 = Main.client w1).
Proof.
  intros Htitle Htests Hclose.
  split; [now apply test_client_finally |]. split.
  - intros ->. exact (close_shuts_down _ _ Hclose).
  - intros e ->. exact (close_raised _ _ _ Hclose).
Qed.
End TestRun.

(** The statements above, at the scenarios. *)

Lemma lookups_never_raise_witness :
  (exists text,
      @WeatherClient.search_location Samples.formatting Samples.closed_child
        (VStr (lit "Tokyo")) Samples.started
      = (Ok text,
         sent (issued Samples.started) Scenarios.fresh
              (Samples.frame
                 (Client.call_request 1 (lit "search_location")
                    [ (lit "location", VStr (lit "Tokyo")) ]))))
  /\ exists names st2,
       @WeatherClient.list_available_tools Samples.formatting Samples.closed_child
         Samples.started
       = (Ok names, st2).
Proof.
  split.
  - apply (proj1 (@lookups_never_raise Samples.formatting Samples.closed_child
                    (Search (VStr (lit "Tokyo"))) Samples.started
                    (sent (issued Samples.started) Scenarios.fresh
                          (Samples.frame
                             (Client.call_request 1 (lit "search_location")
                                [ (lit "location", VStr (lit "Tokyo")) ]))))
             (Raise (RuntimeError (lit "Server closed connection")))).
    reflexivity.
  - apply (proj2 (@lookups_never_raise Samples.formatting Samples.closed_child
                    (Search (VStr (lit "Tokyo"))) Samples.started
                    (sent (issued Samples.started) Scenarios.fresh
                          (Samples.frame (Client.list_request 1))))
             (Raise (RuntimeError (lit "Server closed connection")))).
    reflexivity.
Defined.

Lemma failed_requests_become_text_witness :
  @WeatherClient.get_current_weather Samples.formatting Samples.closed_child
    (VStr (lit "Tokyo")) Scenarios.idle
  = (Ok (VStr (lit "Error getting weather for " ++ lit "Tokyo" ++ lit ": "
                 ++ lit "Server not started")),
     issued Scenarios.idle)
  /\ @WeatherClient.list_available_tools Samples.formatting Samples.closed_child
       Scenarios.idle
     = (Ok [],
        {| Client.self := Client.self (issued Scenarios.idle);
           Client.log :=
             [ (Client.ERROR, lit "Error listing tools: " ++ lit "Server not started") ] |}).
Proof.
  split.
  - apply (proj1 (@failed_requests_become_text Samples.formatting Samples.closed_child
                    Scenarios.idle (issued Scenarios.idle)
                    (RuntimeError (lit "Server not started")))
             (Current (VStr (lit "Tokyo")))).
    reflexivity.
  - apply (proj2 (@failed_requests_become_text Samples.formatting Samples.closed_child
                    Scenarios.idle (issued Scenarios.idle)
                    (RuntimeError (lit "Server not started")))).
    reflexivity.
Defined.

Lemma lookups_read_first_text_witness :
  fst (@WeatherClient.get_current_weather Samples.formatting Scenarios.helpful_child
         (VStr (lit "Bangkok")) Samples.started)
  = Ok (VStr (lit "Sunny in Bangkok"))
  /\ fst (@WeatherClient.search_location Samples.formatting Samples.terse_child
            (VStr (lit "Tokyo")) Samples.started)
     = Ok (VStr (lit "Location '" ++ lit "Tokyo" ++ lit "' not found"))
  /\ fst (@WeatherClient.get_weather_forecast Samples.formatting Scenarios.empty_child
            (VStr (lit "Tokyo")) (VInt 3) Samples.started)
     = Ok (VStr (lit "Error getting forecast for " ++ lit "Tokyo" ++ lit ": "
                   ++ lit "list index out of range")).
Proof.
  split; [| split].
  - exact (f_equal fst (proj1 (@lookups_read_first_text Samples.formatting Scenarios.helpful_child
                      (Current (VStr (lit "Bangkok"))) Samples.started
                      (sent (issued Samples.started) Scenarios.fresh
                            (Samples.frame
                               (Client.call_request 1 (lit "get_current_weather")
                                  [ (lit "location", VStr (lit "Bangkok")) ])))
                      Scenarios.helpful_result eq_refl)
               [ (lit "tools", Scenarios.tools);
                 (lit "content", VList [ Scenarios.report ]) ]
               [ (lit "type", VStr (lit "text"));
                 (lit "text", VStr (lit "Sunny in Bangkok")) ]
               [] (VStr (lit "Sunny in Bangkok")) eq_refl eq_refl eq_refl)).
  - exact (f_equal fst (proj1 (proj2 (@lookups_read_first_text Samples.formatting
                             Samples.terse_child
                             (Search (VStr (lit "Tokyo"))) Samples.started
                             (sent (issued Samples.started) Scenarios.fresh
                                   (Samples.frame
                                      (Client.call_request 1 (lit "search_location")
                                         [ (lit "location", VStr (lit "Tokyo")) ])))
                             VNone eq_refl))
               (or_introl eq_refl))).
  - exact (f_equal fst (proj2 (proj2 (@lookups_read_first_text Samples.formatting
                             Scenarios.empty_child
                             (Forecast (VStr (lit "Tokyo")) (VInt 3)) Samples.started
                             (sent (issued Samples.started) Scenarios.fresh
                                   (Samples.frame
                                      (Client.call_request 1 (lit "get_weather_forecast")
                                         [ (lit "location", VStr (lit "Tokyo"));
                                           (lit "days", VInt 3) ])))
                             (VDict [ (lit "content", VList []) ]) eq_refl))
               [ (lit "content", VList []) ] eq_refl eq_refl)).
Defined.

Lemma tool_names_are_listed_witness :
  fst (@WeatherClient.list_available_tools Samples.formatting Scenarios.helpful_child
         Samples.started)
  = Ok [ VStr (lit "get_current_weather"); VStr (lit "search_location") ]
  /\ @WeatherClient.list_available_tools Samples.formatting Scenarios.nameless_child
       Samples.started
     = (Ok [],
        {| Client.self :=
             Client.self (sent (issued Samples.started) Scenarios.fresh
                               (Samples.frame (Client.list_request 1)));
           Client.log :=
             [ (Client.ERROR, lit "Error listing tools: " ++ lit "'name'") ] |}).
Proof.
  split.
  - rewrite (proj1 (@tool_names_are_listed Samples.formatting Scenarios.helpful_child
                      Samples.started
                      (sent (issued Samples.started) Scenarios.fresh
                            (Samples.frame (Client.list_request 1)))
                      [ VDict [ (lit "name", VStr (lit "get_current_weather")) ];
                        VDict [ (lit "name", VStr (lit "search_location")) ] ]
                      eq_refl)
               [ VStr (lit "get_current_weather"); VStr (lit "search_location") ]).
    + reflexivity.
    + repeat constructor; eexists; split; reflexivity.
  - apply (proj2 (@tool_names_are_listed Samples.formatting Scenarios.nameless_child
                    Samples.started
                    (sent (issued Samples.started) Scenarios.fresh
                          (Samples.frame (Client.list_request 1)))
                    Scenarios.nameless_tools eq_refl)
             (KeyError (VStr (lit "name")))).
    reflexivity.
Defined.

Lemma test_client_reports_witness :
  @Main.test_client Samples.formatting Scenarios.spawn_ok Samples.closed_child
    Scenarios.terminate_gone Scenarios.utf8_console Scenarios.blank
  = (Raise (LibraryError (lit "ProcessLookupError")),
     after Scenarios.blank
       (snd (@WeatherClient.start Samples.formatting Scenarios.spawn_ok
               Samples.closed_child (created Scenarios.blank)))
       (banner ++ [ lit "❌ Test failed: Server closed connection" ]))
  /\ @Main.test_client Samples.formatting Scenarios.spawn_ok Scenarios.helpful_child
       Scenarios.terminate_ok Scenarios.utf8_console Scenarios.blank
     = (Ok tt,
        after Scenarios.blank
          (snd (Client.close Scenarios.terminate_ok
                  (snd (@run Samples.formatting Scenarios.helpful_child tokyo_search
                          (snd (@run Samples.formatting Scenarios.helpful_child
                                  new_york_forecast
                                  (snd (@run Samples.formatting Scenarios.helpful_child
                                          bangkok_weather
                                          (snd (@WeatherClient.start Samples.formatting
                                                  Scenarios.spawn_ok
                                                  Scenarios.helpful_child
                                                  (created Scenarios.blank)))))))))))
          (@report Samples.formatting
             (VStr (lit "Sunny in Bangkok")) (VStr (lit "Sunny in Bangkok"))
             (VStr (lit "Sunny in Bangkok"))))
  /\ Main.printed
       (snd (@Main.test_client Samples.formatting Scenarios.spawn_ok
               Scenarios.surrogate_child Scenarios.terminate_ok
               Scenarios.utf8_console Scenarios.blank))
     = banner ++ [ lit "✅ Server started successfully!";
                   [10] ++ lit "📍 Testing current weather for Bangkok...";
                   lit "❌ Test failed: <UnicodeEncodeError>" ].
Proof.
  split; [| split].
  - apply (proj1 (@test_client_reports Samples.formatting Scenarios.spawn_ok
                    Samples.closed_child Scenarios.terminate_gone
                    Scenarios.utf8_console Scenarios.blank)
             (RuntimeError (lit "Server closed connection"))
             (snd (@WeatherClient.start Samples.formatting Scenarios.spawn_ok
                     Samples.closed_child (created Scenarios.blank)))
             (Raise (LibraryError (lit "ProcessLookupError")))
             (snd (@WeatherClient.start Samples.formatting Scenarios.spawn_ok
                     Samples.closed_child (created Scenarios.blank)))).
    + repeat split.
    + reflexivity.
    + reflexivity.
  - apply (proj1 (proj2 (@test_client_reports Samples.formatting Scenarios.spawn_ok
                           Scenarios.helpful_child Scenarios.terminate_ok
                           Scenarios.utf8_console Scenarios.blank))
             (snd (@WeatherClient.start Samples.formatting Scenarios.spawn_ok
                     Scenarios.helpful_child (created Scenarios.blank)))
             (VStr (lit "Sunny in Bangkok"))
             (snd (@run Samples.formatting Scenarios.helpful_child bangkok_weather
                     (snd (@WeatherClient.start Samples.formatting Scenarios.spawn_ok
                             Scenarios.helpful_child (created Scenarios.blank)))))
             (VStr (lit "Sunny in Bangkok"))
             (snd (@run Samples.formatting Scenarios.helpful_child new_york_forecast
                     (snd (@run Samples.formatting Scenarios.helpful_child
                             bangkok_weather
                             (snd (@WeatherClient.start Samples.formatting
                                     Scenarios.spawn_ok Scenarios.helpful_child
                                     (created Scenarios.blank)))))))
             (VStr (lit "Sunny in Bangkok"))
             (snd (@run Samples.formatting Scenarios.helpful_child tokyo_search
                     (snd (@run Samples.formatting Scenarios.helpful_child
                             new_york_forecast
                             (snd (@run Samples.formatting Scenarios.helpful_child
                                     bangkok_weather
                                     (snd (@WeatherClient.start Samples.formatting
                                             Scenarios.spawn_ok Scenarios.helpful_child
                                             (created Scenarios.blank)))))))))
             (Ok tt)
             (snd (Client.close Scenarios.terminate_ok
                     (snd (@run Samples.formatting Scenarios.helpful_child tokyo_search
                             (snd (@run Samples.formatting Scenarios.helpful_child
                                     new_york_forecast
                                     (snd (@run Samples.formatting
                                             Scenarios.helpful_child bangkok_weather
                                             (snd (@WeatherClient.start
                                                     Samples.formatting
                                                     Scenarios.spawn_ok
                                                     Scenarios.helpful_child
                                                     (created Scenarios.blank)))))))))))).
    + repeat split.
    + reflexivity.
    + reflexivity.
    + reflexivity.
    + reflexivity.
    + reflexivity.
  - rewrite (proj2 (proj2 (@test_client_reports Samples.formatting Scenarios.spawn_ok
                             Scenarios.surrogate_child Scenarios.terminate_ok
                             Scenarios.utf8_console Scenarios.blank))
               (snd (@WeatherClient.start Samples.formatting Scenarios.spawn_ok
                       Scenarios.surrogate_child (created Scenarios.blank)))
               (VStr [55357])
               (snd (@run Samples.formatting Scenarios.surrogate_child bangkok_weather
                       (snd (@WeatherClient.start Samples.formatting Scenarios.spawn_ok
                               Scenarios.surrogate_child (created Scenarios.blank)))))
               (UnicodeEncodeError [55357])
               (Ok tt)
               (snd (Client.close Scenarios.terminate_ok
                       (snd (@run Samples.formatting Scenarios.surrogate_child
                               bangkok_weather
                               (snd (@WeatherClient.start Samples.formatting
                                       Scenarios.spawn_ok Scenarios.surrogate_child
                                       (created Scenarios.blank)))))))).
    + reflexivity.
    + repeat split.
    + reflexivity.
    + reflexivity.
    + reflexivity.
    + reflexivity.
    + reflexivity.
Defined.

Lemma test_client_always_closes_witness :
  @Main.test_client Samples.formatting Scenarios.spawn_ok Samples.closed_child
    Scenarios.terminate_gone Scenarios.utf8_console Scenarios.blank
  = (Raise (LibraryError (lit "ProcessLookupError")),
     snd (@Main.tests Samples.formatting Scenarios.spawn_ok Samples.closed_child
            Scenarios.utf8_console
            (after Scenarios.blank (created Scenarios.blank) title)))
  /\ shut_down
       (Main.client
          (snd (@Main.test_client Samples.formatting Scenarios.spawn_ok
                  Scenarios.helpful_child Scenarios.terminate_ok
                  Scenarios.utf8_console Scenarios.blank))).
Proof.
  split.
  - apply (proj1 (@test_client_always_closes Samples.formatting Scenarios.spawn_ok
                    Samples.closed_child Scenarios.terminate_gone
                    Scenarios.utf8_console Scenarios.blank
                    (snd (@Main.tests Samples.formatting Scenarios.spawn_ok
                            Samples.closed_child Scenarios.utf8_console
                            (after Scenarios.blank (created Scenarios.blank) title)))
                    (Ok tt)
                    (Raise (LibraryError (lit "ProcessLookupError")))
                    (Main.client
                       (snd (@Main.tests Samples.formatting Scenarios.spawn_ok
                               Samples.closed_child Scenarios.utf8_console
                               (after Scenarios.blank (created Scenarios.blank) title))))
                    ltac:(repeat split) eq_refl eq_refl)).
  - pose (w1 := snd (@Main.tests Samples.formatting Scenarios.spawn_ok
                       Scenarios.helpful_child Scenarios.utf8_console
                       (after Scenarios.blank (created Scenarios.blank) title))).
    pose (st2 := snd (Client.close Scenarios.terminate_ok (Main.client w1))).
    destruct (@test_client_always_closes Samples.formatting Scenarios.spawn_ok
                Scenarios.helpful_child Scenarios.terminate_ok
                Scenarios.utf8_console Scenarios.blank w1 (Ok tt) (Ok tt) st2
                ltac:(repeat split) eq_refl eq_refl)
      as (Hrun & Hshut & _).
    rewrite Hrun. exact (Hshut eq_refl).
Defined.



(** * Properties of the set-up script *)

Section SetupProperties.
Context `{Formatting}.
Variable executable : pystr.
Variable path_join : pystr -> pystr -> pystr.
Variable path_exists : list (list pystr) -> pystr -> bool.
Variable subprocess_run :
  list (list pystr) -> list pystr -> option Z -> Setup.outcome Setup.CompletedProcess.
Variable subprocess_error_str : Setup.error -> pystr.

Import Setup.

Abbreviation install_requirements :=
  (Setup.install_requirements executable path_join path_exists subprocess_run).
Abbreviation test_server :=
  (Setup.test_server executable path_join path_exists subprocess_run
     subprocess_error_str).
Abbreviation main :=
  (Setup.main executable path_join path_exists subprocess_run subprocess_error_str).

(** The command that installs the requirements of a directory, and the
    command that runs the client's test. *)
Definition requirements (directory : pystr) : pystr :=
  path_join directory (lit "requirements.txt").

Definition pip_install (directory : pystr) : list pystr :=
  [ executable; lit "-m"; lit "pip"; lit "install"; lit "-r"; requirements directory ].

Definition client_script : pystr := path_join (lit "mcp-client") (lit "client.py").

Definition test_command : list pystr := [ executable; client_script; lit "test" ].

(** The run of the test counts as failed. *)
Definition test_failed (r : outcome CompletedProcess) : Prop :=
  match r with
  | Returned result => returncode result <> 0%Z
  | Raised (TimeoutExpired _ _) => False
  | Raised _ => True
  end.

(** X24. The verdict of [test_server].  When the client script does not
    exist, nothing is run and the verdict is [True].  When it exists, the
    test command is run once, with a timeout of 30 seconds, and the verdict
    is [False] exactly when the command ends with a return code other than
    0 or running it raises something other than [TimeoutExpired]: a test
    that times out counts as passed. *)
Theorem test_server_verdict (w : world) :
  (path_exists (ran w) client_script = false ->
   test_server w = (true, print ([10] ++ lit "Testing MCP weather server...") w))
  /\ (path_exists (ran w) client_script = true ->
      ran (snd (test_server w)) = ran w ++ [ test_command ]
      /\ (fst (test_server w) = false
          <-> test_failed (subprocess_run (ran w) test_command (Some 30%Z)))).
Proof.
  unfold Setup.test_server, run. cbn [print ran printed].
  fold client_script. fold test_command. split.
  - intros ->. reflexivity.
  - intros ->.
    destruct (subprocess_run (ran w) test_command (Some 30%Z))
      as [result | [code cmd | cmd timeout | e]]; cbn [test_failed].
    + destruct (Z.eqb_spec (returncode result) 0) as [Hcode | Hcode];
        (split; [destruct (negb (bool_decide (stderr result = []))); reflexivity |]);
        cbn [fst]; split; congruence.
    + split; [reflexivity |]. cbn [fst]. tauto.
    + split; [reflexivity |]. cbn [fst]. split; [discriminate | contradiction].
    + split; [reflexivity |]. cbn [fst]. tauto.
Qed.

(** X25. [install_requirements].  Requirement files that do not exist are
    passed over: when neither exists, nothing is run.  When the server's
    file exists and its installation ends with a return code other than 0,
    [CalledProcessError] is raised for that command at once: the server's
    success line is not printed and the client's requirements are not
    looked at. *)
Theorem install_requirements_outcomes (w : world) :
  (path_exists (ran w) (requirements (lit "weather")) = false ->
   path_exists (ran w) (requirements (lit "mcp-client")) = false ->
   install_requirements w
   = (None, print (lit "Installing Python requirements...") w))
  /\ (forall result,
        path_exists (ran w) (requirements (lit "weather")) = true ->
        subprocess_run (ran w) (pip_install (lit "weather")) None = Returned result ->
        returncode result <> 0%Z ->
        install_requirements w
        = (Some (CalledProcessError (returncode result) (pip_install (lit "weather"))),
           {| printed := printed w ++ [ lit "Installing Python requirements..." ];
              ran := ran w ++ [ pip_install (lit "weather") ] |})).
Proof.
  unfold Setup.install_requirements, install_from, run. cbn [print ran printed].
  fold (requirements (lit "weather")) (requirements (lit "mcp-client")).
  fold (pip_install (lit "weather")) (pip_install (lit "mcp-client")).
  split.
  - intros Hserver Hclient. rewrite Hserver. cbn [print ran printed].
    fold (requirements (lit "mcp-client")). rewrite Hclient. reflexivity.
  - intros result -> Hrun Hcode. rewrite Hrun.
    destruct (Z.eqb_spec (returncode result) 0); [contradiction | reflexivity].
Qed.

(** The closing lines of a successful set-up. *)
Definition next_steps : list pystr :=
  [ [10] ++ lit "✅ Setup completed successfully!";
    [10] ++ lit "Next steps:";
    lit "1. Run the interactive client: python mcp-client/client.py";
    lit "2. Or run tests: python mcp-client/client.py test";
    lit "3. For Flutter integration, see flutter_integration/ directory" ].

(** The world once [main] has printed its heading. *)
Definition headed (w : world) : world :=
  print (repeat 61 40) (print (lit "🌤️  MCP Weather Server Setup") w).

(** X26. [main] does not look at the verdict of the test.  When
    [install_requirements] returns, [main] runs [test_server] and then
    prints "Setup completed successfully!" and the next steps and returns,
    whether the verdict was [True] or [False].  When
    [install_requirements] raises, the test is not run, the error is
    printed, as "Error during setup: ..." for a [CalledProcessError] and as
    "Unexpected error: ..." otherwise, and the script exits with status 1. *)
Theorem main_ignores_the_verdict (w : world) :
  (forall w1,
      install_requirements (headed w) = (None, w1) ->
      main w
      = (Finished,
         {| printed := printed (snd (test_server w1)) ++ next_steps;
            ran := ran (snd (test_server w1)) |}))
  /\ (forall e w1,
        install_requirements (headed w) = (Some e, w1) ->
        main w
        = (SystemExit 1,
           print ((match e with
                   | CalledProcessError _ _ => lit "❌ Error during setup: "
                   | _ => lit "❌ Unexpected error: "
                   end) ++ error_str subprocess_error_str e) w1)).
Proof.
  unfold Setup.main. fold (headed w). split.
  - intros w1 ->. destruct (test_server w1) as [verdict w2].
    unfold print, next_steps. cbn [snd printed ran].
    repeat rewrite <- app_assoc. reflexivity.
  - intros e w1 ->. destruct e; reflexivity.
Qed.
End SetupProperties.

(** * The days of the interactive demo *)

Section DemoDays.
Context `{Formatting}.
Variable int_of_str : pystr -> option Z.
Variable upstream : Weather.trace -> Weather.http_call -> Weather.upstream_reply.

Import Weather.

(** The bounds the forecast tool announces for ["days"]. *)
Definition announced_bound (which : string) : option value :=
  match fst (handle_list_tools tt) with
  | Ok [ _; forecast; _ ] =>
    schema_at (inputSchema forecast) [ lit "properties"; lit "days"; lit which ]
  | _ => None
  end.

(** X27. The demo asks only for what the forecast tool allows.  Whatever
    is typed at the prompt for the number of days, and however [int] reads
    it, the number the demo passes on lies between the minimum and the
    maximum the forecast tool announces for ["days"], 1 and 16.  It is 7
    when nothing but white space was typed (given that [int("7")] is 7) and
    when what was typed is not a number.  The server's [get_forecast]
    sends such a number upstream unchanged: the demo never relies on the
    server's [min(days, 16)]. *)
Theorem demo_days_fit_the_schema (typed : pystr) (lat lon : value) (t : trace) :
  let days := Main.demo_days int_of_str typed in
  (exists lowest highest,
      announced_bound "minimum" = Some (VInt lowest)
      /\ announced_bound "maximum" = Some (VInt highest)
      /\ (lowest <= days <= highest)%Z)
  /\ (Client.strip typed = [] -> int_of_str (lit "7") = Some 7%Z -> days = 7%Z)
  /\ (Client.strip typed <> [] -> int_of_str (Client.strip typed) = None ->
      days = 7%Z)
  /\ snd (get_forecast upstream lat lon (VInt days) t)
     = t ++ [ forecast_call lat lon (VInt days) ].
Proof.
  intros days.
  assert (Hdays : (1 <= days <= 16)%Z).
  { subst days. unfold Main.demo_days.
    destruct (int_of_str _) as [n |]; lia. }
  split; [| split; [| split]].
  - exists 1%Z, 16%Z. repeat split; lia.
  - intros Hblank Hseven. subst days. unfold Main.demo_days.
    rewrite bool_decide_eq_true_2 by assumption. now rewrite Hseven.
  - intros Htext Hnone. subst days. unfold Main.demo_days.
    rewrite bool_decide_eq_false_2 by assumption. now rewrite Hnone.
  - rewrite get_forecast_trace. cbn [py_min_16].
    destruct (Z.ltb_spec 16 days); [lia | reflexivity].
Qed.
End DemoDays.

(** The statements above, at the scenarios. *)

Lemma test_server_verdict_witness :
  fst (@Setup.test_server Samples.formatting Scenarios.python Scenarios.posix_join
         Scenarios.only_client_script Scenarios.failing_run Scenarios.describe
         Scenarios.nothing_yet)
  = false
  /\ Setup.ran
       (snd (@Setup.test_server Samples.formatting Scenarios.python Scenarios.posix_join
               Scenarios.only_client_script Scenarios.slow_run Scenarios.describe
               Scenarios.nothing_yet))
     = [ [ lit "/usr/bin/python3"; lit "mcp-client/client.py"; lit "test" ] ]
  /\ @Setup.test_server Samples.formatting Scenarios.python Scenarios.posix_join
       (fun _ _ => false) Scenarios.failing_run Scenarios.describe Scenarios.nothing_yet
     = (true,
        {| Setup.printed := [ [10] ++ lit "Testing MCP weather server..." ];
           Setup.ran := [] |}).
Proof.
  split; [| split].
  - apply (proj2 (@test_server_verdict Samples.formatting Scenarios.python
                    Scenarios.posix_join Scenarios.only_client_script
                    Scenarios.failing_run Scenarios.describe Scenarios.nothing_yet)
             eq_refl).
    cbn. discriminate.
  - apply (proj1 (proj2 (@test_server_verdict Samples.formatting Scenarios.python
                           Scenarios.posix_join Scenarios.only_client_script
                           Scenarios.slow_run Scenarios.describe Scenarios.nothing_yet)
                        eq_refl)).
  - apply (proj1 (@test_server_verdict Samples.formatting Scenarios.python
                    Scenarios.posix_join (fun _ _ => false)
                    Scenarios.failing_run Scenarios.describe Scenarios.nothing_yet)).
    reflexivity.
Defined.

Lemma install_requirements_outcomes_witness :
  Setup.install_requirements Scenarios.python Scenarios.posix_join
    Scenarios.only_client_script Scenarios.failing_run Scenarios.nothing_yet
  = (None,
     {| Setup.printed := [ lit "Installing Python requirements..." ];
        Setup.ran := [] |})
  /\ Setup.install_requirements Scenarios.python Scenarios.posix_join
       Scenarios.all_files Scenarios.failing_run Scenarios.nothing_yet
     = (Some (Setup.CalledProcessError 1
                [ lit "/usr/bin/python3"; lit "-m"; lit "pip"; lit "install"; lit "-r";
                  lit "weather/requirements.txt" ]),
        {| Setup.printed := [ lit "Installing Python requirements..." ];
           Setup.ran :=
             [ [ lit "/usr/bin/python3"; lit "-m"; lit "pip"; lit "install"; lit "-r";
                 lit "weather/requirements.txt" ] ] |}).
Proof.
  split.
  - apply (proj1 (install_requirements_outcomes Scenarios.python Scenarios.posix_join
                    Scenarios.only_client_script Scenarios.failing_run
                    Scenarios.nothing_yet));
      reflexivity.
  - apply (proj2 (install_requirements_outcomes Scenarios.python Scenarios.posix_join
                    Scenarios.all_files Scenarios.failing_run Scenarios.nothing_yet)
             {| Setup.returncode := 1; Setup.stdout := []; Setup.stderr := lit "boom" |});
      [reflexivity | reflexivity | discriminate].
Defined.

Lemma main_ignores_the_verdict_witness :
  fst (@Setup.main Samples.formatting Scenarios.python Scenarios.posix_join
         Scenarios.only_client_script Scenarios.failing_run Scenarios.describe
         Scenarios.nothing_yet)
  = Setup.Finished
  /\ fst (@Setup.test_server Samples.formatting Scenarios.python Scenarios.posix_join
            Scenarios.only_client_script Scenarios.failing_run Scenarios.describe
            (headed Scenarios.nothing_yet))
     = false
  /\ @Setup.main Samples.formatting Scenarios.python Scenarios.posix_join
       Scenarios.all_files Scenarios.failing_run Scenarios.describe Scenarios.nothing_yet
     = (Setup.SystemExit 1,
        {| Setup.printed :=
             Setup.printed (headed Scenarios.nothing_yet)
               ++ [ lit "Installing Python requirements...";
                    lit "❌ Error during setup: <subprocess error>" ];
           Setup.ran :=
             [ [ lit "/usr/bin/python3"; lit "-m"; lit "pip"; lit "install"; lit "-r";
                 lit "weather/requirements.txt" ] ] |}).
Proof.
  split; [| split].
  - rewrite (proj1 (@main_ignores_the_verdict Samples.formatting Scenarios.python
                      Scenarios.posix_join Scenarios.only_client_script
                      Scenarios.failing_run Scenarios.describe Scenarios.nothing_yet)
               (Setup.print (lit "Installing Python requirements...")
                  (headed Scenarios.nothing_yet))
               eq_refl).
    reflexivity.
  - reflexivity.
  - rewrite (proj2 (@main_ignores_the_verdict Samples.formatting Scenarios.python
                      Scenarios.posix_join Scenarios.all_files
                      Scenarios.failing_run Scenarios.describe Scenarios.nothing_yet)
               (Setup.CalledProcessError 1
                  [ lit "/usr/bin/python3"; lit "-m"; lit "pip"; lit "install"; lit "-r";
                    lit "weather/requirements.txt" ])
               (snd (Setup.install_requirements Scenarios.python Scenarios.posix_join
                       Scenarios.all_files Scenarios.failing_run
                       (headed Scenarios.nothing_yet)))
               eq_refl).
    reflexivity.
Defined.

Lemma demo_days_fit_the_schema_witness :
  Main.demo_days Scenarios.ascii_int (lit "  ") = 7%Z
  /\ Main.demo_days Scenarios.ascii_int (lit "soon") = 7%Z
  /\ Main.demo_days Scenarios.ascii_int (lit " 30 ") = 16%Z
  /\ Main.demo_days Scenarios.ascii_int (lit "-2") = 1%Z.
Proof.
  split; [| split; [| split; reflexivity]].
  - apply (proj1 (proj2 (demo_days_fit_the_schema Scenarios.ascii_int Samples.upstream
                           (lit "  ") VNone VNone []))); reflexivity.
  - apply (proj1 (proj2 (proj2 (demo_days_fit_the_schema Scenarios.ascii_int
                                  Samples.upstream (lit "soon") VNone VNone []))));
      [discriminate | reflexivity].
Defined.

(** * One message, one line *)

(** No line feed in the text. *)
Definition single_line (s : pystr) : bool := forallb (fun c => negb (c =? 10)) s.

Lemma single_line_app s t : single_line (s ++ t) = single_line s && single_line t.
Proof. apply forallb_app. Qed.

Lemma single_line_join sep parts :
  single_line sep = true ->
  Forall (fun p => single_line p = true) parts ->
  single_line (join sep parts) = true.
Proof.
  intros Hsep Hparts. induction Hparts as [| p ps Hp Hps IH]; [reflexivity |].
  destruct ps as [| q ps]; [exact Hp |].
  change (join sep (p :: q :: ps)) with (p ++ sep ++ join sep (q :: ps)).
  rewrite !single_line_app, Hp, Hsep, IH. reflexivity.
Qed.

Lemma uint_chars_single_line d : single_line (uint_chars d) = true.
Proof. induction d; simpl; auto. Qed.

Lemma str_of_int_single_line z : single_line (str_of_int z) = true.
Proof. destruct z; simpl; unfold str_of_N; auto using uint_chars_single_line. Qed.

Lemma hex_digit_not_feed d : (Json.hex_digit d =? 10) = false.
Proof.
  unfold Json.hex_digit. destruct (N.ltb_spec d 10); apply N.eqb_neq; lia.
Qed.

Lemma u_escape_single_line n : single_line (Json.u_escape n) = true.
Proof.
  unfold Json.u_escape, Json.hex4, single_line. cbn [forallb].
  rewrite !hex_digit_not_feed. reflexivity.
Qed.

Lemma escape_char_single_line c : single_line (Json.escape_char c) = true.
Proof.
  unfold Json.escape_char.
  repeat match goal with
         | |- context [if ?b then _ else _] => destruct b eqn:?
         end; try reflexivity.
  - unfold single_line. cbn [forallb]. now rewrite Heqb1.
  - apply u_escape_single_line.
  - rewrite single_line_app, !u_escape_single_line. reflexivity.
Qed.

Lemma encode_string_single_line s : single_line (Json.encode_string s) = true.
Proof.
  unfold Json.encode_string.
  change (34 :: flat_map Json.escape_char s ++ [34])
    with ([34] ++ flat_map Json.escape_char s ++ [34]).
  rewrite !single_line_app. change (single_line [34]) with true.
  rewrite andb_true_r. cbn [andb].
  induction s as [| c s IH]; [reflexivity |].
  cbn [flat_map]. now rewrite single_line_app, escape_char_single_line, IH.
Qed.

Section SingleLine.
Context `{Formatting}.
(** [repr] of a float has no line feed. *)
Hypothesis float_repr_single_line : forall f, single_line (float_repr f) = true.

Lemma encode_float_single_line f : single_line (Json.encode_float f) = true.
Proof.
  unfold Json.encode_float.
  repeat match goal with
         | |- context [if ?b then _ else _] => destruct b
         end; try reflexivity.
  apply float_repr_single_line.
Qed.

(** The text [json.dumps] writes has no line feed: those of the strings
    are escaped. *)
Lemma dumps_single_line v : single_line (Json.dumps v) = true.
Proof.
  induction v as [| b | z | f | s | l IH | d IH] using value_nested_ind.
  - reflexivity.
  - destruct b; reflexivity.
  - apply str_of_int_single_line.
  - apply encode_float_single_line.
  - apply encode_string_single_line.
  - cbn [Json.dumps]. rewrite !single_line_app.
    rewrite single_line_join; [reflexivity | reflexivity |].
    apply Forall_map. exact IH.
  - cbn [Json.dumps]. rewrite !single_line_app.
    rewrite single_line_join; [reflexivity | reflexivity |].
    apply Forall_map. eapply Forall_impl; [exact IH |].
    intros [k v] Hv. cbn [fst snd] in *.
    now rewrite !single_line_app, encode_string_single_line, Hv.
Qed.
End SingleLine.

Lemma byte_of_N_feed n : byte_of_N n = x0a -> n = 10.
Proof.
  unfold byte_of_N. destruct (Byte.of_N n) as [b |] eqn:Hb; [| discriminate].
  intros ->. apply Byte.to_of_N in Hb. now rewrite <- Hb.
Qed.

Lemma utf8_encode_cp_no_feed c bs :
  c <> 10 -> utf8_encode_cp c = Some bs -> ~ In x0a (map byte_of_N bs).
Proof.
  intros Hc. unfold utf8_encode_cp.
  repeat match goal with
         | |- context [if ?b then _ else _] => destruct b
         end; try discriminate; intros [= <-]; cbn [map In];
    intros Hin;
    repeat match goal with
           | E : _ \/ _ |- _ => destruct E
           | E : False |- _ => contradiction
           | E : byte_of_N (?a + ?b) = x0a |- _ =>
             apply byte_of_N_feed in E; pose proof (N.le_add_r a b); lia
           | E : byte_of_N _ = x0a |- _ => apply byte_of_N_feed in E; contradiction
           end.
Qed.

Lemma str_encode_no_feed s body :
  single_line s = true -> str_encode s = Some body -> ~ In x0a body.
Proof.
  revert body. induction s as [| c s IH]; intros body Hs; cbn [str_encode].
  - intros [= <-] [].
  - cbn [single_line forallb] in Hs. apply andb_true_iff in Hs as [Hc Hs].
    apply negb_true_iff, N.eqb_neq in Hc.
    destruct (utf8_encode_cp c) as [bs |] eqn:Hbs; [| discriminate].
    destruct (str_encode s) as [rest |]; [| discriminate].
    intros [= <-] Hin. apply in_app_or in Hin as [Hin | Hin].
    + exact (utf8_encode_cp_no_feed c bs Hc Hbs Hin).
    + exact (IH rest Hs eq_refl Hin).
Qed.

Lemma str_encode_app s t data :
  str_encode (s ++ t) = Some data ->
  exists a b, str_encode s = Some a /\ str_encode t = Some b /\ data = a ++ b.
Proof.
  revert data. induction s as [| c s IH]; intros data; cbn [app str_encode].
  - intros Ht. now exists [], data.
  - destruct (utf8_encode_cp c) as [bs |]; [| discriminate].
    destruct (str_encode (s ++ t)) as [rest |]; [| discriminate].
    destruct (IH rest eq_refl) as (a & b & -> & Hb & ->).
    intros [= <-]. exists (map byte_of_N bs ++ a), b.
    split; [reflexivity |]. split; [exact Hb |]. now rewrite app_assoc.
Qed.

Section OneLine.
Context `{Formatting}.
Variable child : pystr -> list bytes -> result bytes.

Import Client.

(** X28. One message, one line.  Given that [repr] of a float has no line
    feed, the bytes written for a message, whatever it holds (a location
    with line feeds in it, say), are one line: they end with a line feed and
    have no other.  On a started client this chunk is what
    [_send_request] and [_send_notification] hand to the child's input, and
    nothing else of the session changes by the write: this is a statement
    on the session the two end in, not on whether the write succeeds. *)
Theorem one_message_one_line (st : session) (p : Process) (message : value)
    (data : bytes) :
  (forall f, single_line (float_repr f) = true) ->
  process (self st) = Some p ->
  framed message data ->
  (exists body, data = body ++ [x0a] /\ ~ In x0a body)
  /\ self (snd (_send_request child message st)) = self (sent st p data)
  /\ snd (_send_notification message st) = sent st p data.
Proof.
  intros Hfloat Hp Hdata. split; [| split].
  - unfold framed, encode in Hdata.
    destruct (str_encode (Json.dumps message ++ nl)) as [chunk |] eqn:Hchunk;
      [| discriminate].
    injection Hdata as <-.
    destruct (str_encode_app _ _ _ Hchunk) as (body & feed & Hbody & Hfeed & ->).
    injection Hfeed as <-. exists body. split; [reflexivity |].
    exact (str_encode_no_feed _ _ (dumps_single_line Hfloat message) Hbody).
  - now apply send_request_self.
  - now rewrite (send_notification_spec _ _ _ _ Hp Hdata).
Qed.
End OneLine.

Lemma one_message_one_line_witness :
  let message :=
    Client.call_request 1 (lit "search_location")
      [ (lit "location", VStr (lit "Bang" ++ [10] ++ lit "kok")) ] in
  (exists body, Samples.frame message = body ++ [x0a] /\ ~ In x0a body)
  /\ Client.self (snd (@Client._send_request Samples.formatting Samples.closed_child
                         message Samples.started))
     = Client.self (sent Samples.started Scenarios.fresh (Samples.frame message))
  /\ snd (@Client._send_notification Samples.formatting message Samples.started)
     = sent Samples.started Scenarios.fresh (Samples.frame message).
Proof.
  apply (@one_message_one_line Samples.formatting Samples.closed_child
           Samples.started Scenarios.fresh
           (Client.call_request 1 (lit "search_location")
              [ (lit "location", VStr (lit "Bang" ++ [10] ++ lit "kok")) ])).
  - intros f. reflexivity.
  - reflexivity.
  - reflexivity.
Defined.
